(** * PROMICE bare-ice processing tools: a shallow embedding

    This development embeds [src/PROMICE_processing_tools.py] (functions
    [load_data], [BIC_processing] with its nested [DPT_processing], and
    [BIC_composite]) and proves properties of the embedded functions.

    Modelling conventions.
    - A float64 cell of a pandas Series is an [option Q]: [None] is NaN and
      [Some q] an exact rational.  Arithmetic is exact, so statements about
      means hold exactly where the Python code holds them up to rounding.
      NaN propagates through arithmetic and every comparison with NaN is
      false, as in numpy.
    - A Series is the list of its cells in row order; two Series of the same
      DataFrame have the same length and are aligned position by position.
    - The [Year] and [DayOfYear] columns are integers ([Z]).
    - Python exceptions are values of [exn]; text written by [print] is
      collected in a log.  Plotting and pickling are left out
      ([visualisation=False], [save_pkl=False], [verbose=False]). *)

From Stdlib Require Import ZArith QArith Lia Ascii String.
From stdpp Require Import base list strings numbers pretty.

Open Scope Z_scope.

(** ** Cells and elementwise arithmetic *)

Definition cell : Type := option Q.

Definition nan : cell := None.

Definition cell_add (a b : cell) : cell :=
  match a, b with
  | Some x, Some y => Some (x + y)%Q
  | _, _ => None
  end.

Definition cell_sub (a b : cell) : cell :=
  match a, b with
  | Some x, Some y => Some (x - y)%Q
  | _, _ => None
  end.

Definition isnan (a : cell) : bool :=
  match a with
  | Some _ => false
  | None => true
  end.

Definition Qltb (x y : Q) : bool := negb (Qle_bool y x).

(** Comparison operators as they occur in the masks of the source. *)
Inductive relop : Type := op_lt | op_le | op_gt | op_ge | op_eq.

Definition relop_Z (op : relop) (x y : Z) : bool :=
  match op with
  | op_lt => x <? y
  | op_le => x <=? y
  | op_gt => x >? y
  | op_ge => x >=? y
  | op_eq => x =? y
  end.

Definition relop_Q (op : relop) (x y : Q) : bool :=
  match op with
  | op_lt => Qltb x y
  | op_le => Qle_bool x y
  | op_gt => Qltb y x
  | op_ge => Qle_bool y x
  | op_eq => Qeq_bool x y
  end.

(** [z < c] and friends on a cell: false on NaN. *)
Definition relop_cell (op : relop) (a : cell) (c : Q) : bool :=
  match a with
  | Some x => relop_Q op x c
  | None => false
  end.

(** [np.nanmean]: the mean of the non-NaN cells, NaN when there is none
    (numpy then only warns "Mean of empty slice"). *)
Fixpoint present (s : list cell) : list Q :=
  match s with
  | [] => []
  | Some q :: s' => q :: present s'
  | None :: s' => present s'
  end.

Definition Qsum (l : list Q) : Q := foldr Qplus 0%Q l.

Definition nanmean (s : list cell) : cell :=
  match present s with
  | [] => None
  | x :: l => Some (Qsum (x :: l) / inject_Z (Z.of_nat (length (x :: l))))%Q
  end.

(** Boolean-mask selection [s[mask]] and masked update. *)
Fixpoint select {A : Type} (mask : list bool) (s : list A) : list A :=
  match mask, s with
  | b :: mask', x :: s' => if b then x :: select mask' s' else select mask' s'
  | _, _ => []
  end.

Definition update_where (mask : list bool) (f : cell -> cell) (s : list cell)
  : list cell :=
  zip_with (fun (b : bool) (x : cell) => if b then f x else x) mask s.

(** ** Exceptions and printed output *)

Inductive exn : Type :=
| UnboundLocalError (name : string)
| AttributeError (what : string)
| ValueError (what : string)
| IndexError (what : string).

Definition M (A : Type) : Type := list string * (exn + A).

Definition ret {A : Type} (x : A) : M A := ([], inr x).

Definition raise {A : Type} (e : exn) : M A := ([], inl e).

Definition print (s : string) : M unit := ([s], inr tt).

Definition bind {A B : Type} (m : M A) (f : A -> M B) : M B :=
  match m with
  | (out, inl e) => (out, inl e)
  | (out, inr a) => let '(out', r) := f a in (out ++ out', r)
  end.

Notation "'do' x <- m ; k" := (bind m (fun x => k))
  (at level 10, x name, m at level 100, k at level 200).
Notation "'do' ' p <- m ; k" := (bind m (fun x => let 'p := x in k))
  (at level 10, p pattern, m at level 100, k at level 200).
Notation "'run' m ; k" := (bind m (fun _ => k))
  (at level 10, m at level 100, k at level 200).

Definition returned {A : Type} (m : M A) : exn + A := snd m.
Definition printed {A : Type} (m : M A) : list string := fst m.

(** ** The correction statements of [DPT_processing]

    Every branch of the station/year chain is a sequence of in-place updates
    of the global series [z], selected by boolean masks over [doy] and the
    current [z], followed or interleaved with assignments to the locals
    [DPT_flag], [IAO] and [albedo_flag].  The updates are kept as a list of
    statements in source order; the interpreter below executes them one at a
    time on the current series. *)

(** One factor of a mask [(..) & (..)]. *)
Inductive cond : Type :=
| doy_is (op : relop) (d : Z)      (* doy > d, doy >= d, ... *)
| z_is (op : relop) (c : Q)        (* z >= c, z < c, ... *)
| z_isnan.                         (* np.isnan(z) *)

Definition doy_gt := doy_is op_gt.
Definition doy_ge := doy_is op_ge.
Definition doy_lt := doy_is op_lt.
Definition doy_le := doy_is op_le.
Definition doy_eq := doy_is op_eq.
Definition z_gt := z_is op_gt.
Definition z_ge := z_is op_ge.
Definition z_lt := z_is op_lt.
Definition z_le := z_is op_le.
Arguments z_gt c%_Q.
Arguments z_ge c%_Q.
Arguments z_lt c%_Q.
Arguments z_le c%_Q.

Definition eval_cond (cd : cond) (d : Z) (v : cell) : bool :=
  match cd with
  | doy_is op d0 => relop_Z op d d0
  | z_is op c => relop_cell op v c
  | z_isnan => isnan v
  end.

Definition eval_mask (m : list cond) (doy : list Z) (z : list cell)
  : list bool :=
  zip_with (fun d v => forallb (fun cd => eval_cond cd d v) m) doy z.

(** The argument of [assign_nans]: an [int] or an iterable of days. *)
Inductive days_arg : Type :=
| day (d : Z)
| days (ds : list Z).

(** [np.arange(a, b)] and [range(a, b)]. *)
Definition arange (a b : Z) : list Z := seqZ a (b - a).

Inductive stmt : Type :=
| isub (m : list cond) (c : Q)            (* z[m] -= c *)
| iadd (m : list cond) (c : Q)            (* z[m] += c *)
| isub_nan (m : list cond)                (* z[m] -= np.nan *)
| assign (m : list cond) (c : Q)          (* z[m] = c *)
| assign_nan (m : list cond)              (* z[m] = np.nan *)
| isub_z (m m' : list cond)               (* z[m] -= z[m'] *)
| assign_nans (ds : days_arg).            (* assign_nans(ds) *)
Arguments isub m c%_Q.
Arguments iadd m c%_Q.
Arguments assign m c%_Q.

(** [assign_nans]: [z[days == doy] = np.nan], once for an [int] and once
    per element otherwise. *)
Definition set_nan_on (d : Z) (doy : list Z) (z : list cell) : list cell :=
  update_where (map (fun d' => d =? d') doy) (fun _ => nan) z.

Definition exec_assign_nans (ds : days_arg) (doy : list Z) (z : list cell)
  : list cell :=
  match ds with
  | day d => set_nan_on d doy z
  | days l => foldl (fun z d => set_nan_on d doy z) z l
  end.

(** [z[m] -= z[m']]: pandas aligns the right-hand Series on the index of
    the left-hand one, so a selected row keeps a number only when [m'] also
    selects it (it then becomes [z - z]) and turns NaN otherwise. *)
Definition exec_isub_z (m m' : list cond) (doy : list Z) (z : list cell)
  : list cell :=
  let sel := eval_mask m doy z in
  let sel' := eval_mask m' doy z in
  zip_with (fun (b : bool * bool) (x : cell) =>
              if fst b then (if snd b then cell_sub x x else nan) else x)
           (zip sel sel') z.

Definition exec_stmt (doy : list Z) (z : list cell) (s : stmt) : list cell :=
  match s with
  | isub m c => update_where (eval_mask m doy z) (fun x => cell_sub x (Some c)) z
  | iadd m c => update_where (eval_mask m doy z) (fun x => cell_add x (Some c)) z
  | isub_nan m => update_where (eval_mask m doy z) (fun x => cell_sub x nan) z
  | assign m c => update_where (eval_mask m doy z) (fun _ => Some c) z
  | assign_nan m => update_where (eval_mask m doy z) (fun _ => nan) z
  | isub_z m m' => exec_isub_z m m' doy z
  | assign_nans ds => exec_assign_nans ds doy z
  end.

Definition exec_stmts (doy : list Z) (ss : list stmt) (z : list cell)
  : list cell :=
  foldl (exec_stmt doy) z ss.

(** The tests on [year] that guard the branches of one station. *)
Inductive year_guard : Type :=
| year_eq (y : Z)                  (* year == y *)
| year_in (ys : list Z)            (* year in [..] *)
| year_between (a b : Z)           (* (year >= a) & (year <= b) *)
| year_in_range (a b : Z).         (* year in range(a, b) *)

Definition guard_holds (g : year_guard) (year : Z) : bool :=
  match g with
  | year_eq y => year =? y
  | year_in ys => existsb (Z.eqb year) ys
  | year_between a b => (year >=? a) && (year <=? b)
  | year_in_range a b => existsb (Z.eqb year) (arange a b)
  end.

(** What one branch does: its statements on [z] in source order and the
    values it leaves in the locals ([None]: the local is not assigned;
    [albedo_flag] is initialised to 1 before the chain). *)
Record assignments : Type := {
  stmts : list stmt;
  DPT_flag : option Z;
  IAO : option Z;
  albedo_flag : Z
}.

Definition branch : Type := year_guard * (Z -> assignments).

(** ** The station/year chain, station by station

    One list of branches per station, in the order of the source; a branch
    is the guard of its [if]/[elif] and what its body does.  Bodies that
    test [year] again are functions of [year]. *)

Definition NUK_U_branches : list branch :=
  [ (year_in [2007; 2014; 2015], fun _ =>
      {| stmts := [];
         DPT_flag := Some 1; IAO := None; albedo_flag := 1 |});
    (year_in [2008; 2009], fun _ =>
      {| stmts := [];
         DPT_flag := Some 0; IAO := None; albedo_flag := 1 |});
    (year_eq 2010, fun _ =>
      {| stmts := [isub [doy_gt 203] 2.6;
                  isub [doy_gt 204] 8.8;
                  assign_nan [doy_ge 256]];
         DPT_flag := Some 3; IAO := Some 121; albedo_flag := 1 |});
    (year_eq 2011, fun _ =>
      {| stmts := [assign_nans (day 235);
                  isub [doy_ge 236] 2;
                  assign_nan [doy_ge 276]];
         DPT_flag := Some 3; IAO := Some 156; albedo_flag := 0 |});
    (year_eq 2012, fun _ =>
      {| stmts := [assign_nan [doy_ge 260; z_ge (-3)]];
         DPT_flag := Some 3; IAO := Some 148; albedo_flag := 1 |});
    (year_eq 2013, fun _ =>
      {| stmts := [isub [doy_gt 202] 2;
                  isub [doy_gt 203] 5.8];
         DPT_flag := Some 3; IAO := Some 152; albedo_flag := 1 |});
    (year_eq 2016, fun _ =>
      {| stmts := [assign_nan [doy_ge 263];
                  assign_nan [doy_le 70; z_le (-0.5)];
                  assign_nan [doy_gt 38; doy_lt 43];
                  assign_nans (days (arange 71 76));
                  assign_nans (days [32; 92; 93])];
         DPT_flag := Some 3; IAO := Some 160; albedo_flag := 1 |});
    (year_eq 2017, fun _ =>
      {| stmts := [assign_nan [doy_ge 250; z_ge (-0.3)]];
         DPT_flag := Some 3; IAO := Some 204; albedo_flag := 1 |});
    (year_eq 2018, fun _ =>
      {| stmts := [assign_nan [doy_le 103];
                  isub [doy_ge 212] 8;
                  assign_nans (days [123; 124; 210; 211]);
                  isub [doy_ge 210] 1.25];
         DPT_flag := Some 3; IAO := Some 161; albedo_flag := 1 |});
    (year_eq 2019, fun _ =>
      {| stmts := [assign_nan [doy_lt 97]];
         DPT_flag := Some 3; IAO := Some 128; albedo_flag := 1 |}) ].

Definition NUK_L_branches : list branch :=
  [ (year_eq 2007, fun _ =>
      {| stmts := [];
         DPT_flag := Some 1; IAO := None; albedo_flag := 1 |});
    (year_eq 2008, fun _ =>
      {| stmts := [isub [doy_gt 212] 7.1;
                  isub [doy_gt 211] 5;
                  assign_nans (day 156)];
         DPT_flag := Some 3; IAO := Some 121; albedo_flag := 1 |});
    (year_eq 2009, fun _ =>
      {| stmts := [assign_nans (days [90; 92; 95; 102; 105; 142; 154; 159; 169; 174]);
                  isub [doy_gt 236] 0.5];
         DPT_flag := Some 3; IAO := Some 136; albedo_flag := 1 |});
    (year_eq 2010, fun _ =>
      {| stmts := [assign_nans (day 207);
                  isub [doy_gt 206] 11.1;
                  assign_nan [doy_gt 264]];
         DPT_flag := Some 3; IAO := Some 107; albedo_flag := 1 |});
    (year_eq 2011, fun _ =>
      {| stmts := [assign_nans (days [210; 238; 239; 240]);
                  isub [doy_gt 209] 1.15;
                  isub [doy_ge 237; doy_le 239] 0.4;
                  isub [doy_ge 241; doy_le 242] 0.2;
                  assign_nan [doy_gt 280]];
         DPT_flag := Some 3; IAO := Some 156; albedo_flag := 0 |});
    (year_eq 2012, fun _ =>
      {| stmts := [assign_nans (day 241);
                  isub [doy_gt 241] 12];
         DPT_flag := Some 3; IAO := Some 150; albedo_flag := 1 |});
    (year_eq 2013, fun _ =>
      {| stmts := [assign_nans (days [23; 24; 204]);
                  iadd [doy_gt 24] 2.6;
                  isub [doy_gt 204] 5.25];
         DPT_flag := Some 3; IAO := Some 155; albedo_flag := 0 |});
    (year_eq 2014, fun _ =>
      {| stmts := [isub [doy_gt 206] 2.5;
                  isub [doy_gt 207] 3.35;
                  assign_nans (days [54; 55])];
         DPT_flag := Some 3; IAO := Some 121; albedo_flag := 1 |});
    (year_in [2015; 2016], fun year =>
      if year =? 2015 then
        {| stmts := [];
           DPT_flag := Some 3; IAO := Some 159; albedo_flag := 1 |}
      else
        {| stmts := [];
           DPT_flag := Some 3; IAO := Some 100; albedo_flag := 1 |});
    (year_eq 2017, fun _ =>
      {| stmts := [assign_nans (days [117; 118; 219; 220; 233; 234; 235]);
                  isub [doy_gt 117] 14.92;
                  isub [doy_ge 142] 0.5];
         DPT_flag := Some 3; IAO := Some 142; albedo_flag := 1 |});
    (year_eq 2018, fun _ =>
      {| stmts := [assign_nans (days [194; 196; 211]);
                  isub [doy_gt 59] 14.75;
                  iadd [doy_ge 197; doy_le 210] 7.35;
                  iadd [doy_ge 194; doy_le 211] 0.27;
                  assign_nan [doy_ge 50; doy_le 70]];
         DPT_flag := Some 2; IAO := None; albedo_flag := 1 |});
    (year_eq 2019, fun _ =>
      {| stmts := [];
         DPT_flag := Some 3; IAO := Some 97; albedo_flag := 0 |}) ].

Definition NUK_N_branches : list branch :=
  [ (year_in [2010; 2013], fun _ =>
      {| stmts := [];
         DPT_flag := Some 1; IAO := None; albedo_flag := 1 |});
    (year_eq 2011, fun _ =>
      {| stmts := [assign_nan [doy_ge 280]];
         DPT_flag := Some 3; IAO := Some 164; albedo_flag := 1 |});
    (year_eq 2012, fun _ =>
      {| stmts := [assign_nan [doy_ge 240];
                  assign_nan [doy_ge 90; doy_le 156; z_lt 0];
                  assign_nans (day 96);
                  isub [doy_eq 168] 0.19;
                  assign_nans (days (arange 145 152))];
         DPT_flag := Some 3; IAO := Some 158; albedo_flag := 1 |});
    (year_eq 2014, fun _ =>
      {| stmts := [];
         DPT_flag := Some 3; IAO := Some 165; albedo_flag := 1 |}) ].

Definition NUK_K_branches : list branch :=
  [ (year_eq 2014, fun _ =>
      {| stmts := [iadd [doy_ge 225; doy_le 238] 1.19;
                  assign_nans (day 239)];
         DPT_flag := Some 2; IAO := None; albedo_flag := 1 |});
    (year_eq 2015, fun _ =>
      {| stmts := [];
         DPT_flag := Some 3; IAO := Some 200; albedo_flag := 1 |});
    (year_eq 2016, fun _ =>
      {| stmts := [assign_nans (days [23; 24; 124])];
         DPT_flag := Some 3; IAO := Some 166; albedo_flag := 1 |});
    (year_eq 2017, fun _ =>
      {| stmts := [];
         DPT_flag := Some 3; IAO := Some 204; albedo_flag := 1 |});
    (year_in [2018; 2019], fun year =>
      if year =? 2019 then
        {| stmts := [assign_nans (days [94; 127; 128; 129])];
           DPT_flag := Some 3; IAO := Some 176; albedo_flag := 1 |}
      else if year =? 2018 then
        {| stmts := [assign_nans (day 177);
                    iadd [doy_gt 177] 0.07];
           DPT_flag := Some 3; IAO := Some 176; albedo_flag := 1 |}
      else
        {| stmts := [];
           DPT_flag := Some 3; IAO := Some 176; albedo_flag := 1 |}) ].

Definition UPE_L_branches : list branch :=
  [ (year_eq 2009, fun _ =>
      {| stmts := [assign_nan [doy_ge 120]];
         DPT_flag := Some 1; IAO := None; albedo_flag := 1 |});
    (year_eq 2010, fun _ =>
      {| stmts := [assign_nans (days (arange 271 275))];
         DPT_flag := Some 3; IAO := Some 129; albedo_flag := 1 |});
    (year_eq 2011, fun _ =>
      {| stmts := [assign_nan [doy_ge 262; doy_le 311]];
         DPT_flag := Some 3; IAO := Some 157; albedo_flag := 1 |});
    (year_eq 2012, fun _ =>
      {| stmts := [isub [doy_gt 150] 0.3;
                  iadd [doy_gt 151] 0.2;
                  iadd [doy_gt 152] 0.1;
                  isub [doy_ge 225] 0.1;
                  isub [doy_ge 226] 0.15;
                  assign_nan [doy_ge 258; doy_le 308];
                  assign_nans (days [149; 150; 152; 153])];
         DPT_flag := Some 3; IAO := Some 148; albedo_flag := 1 |});
    (year_eq 2013, fun _ =>
      {| stmts := [assign_nan [doy_le 70];
                  assign_nans (days [74; 214; 215]);
                  assign_nan [doy_ge 73; doy_le 75];
                  isub [doy_ge 214] 15.3];
         DPT_flag := Some 3; IAO := Some 160; albedo_flag := 1 |});
    (year_eq 2014, fun _ =>
      {| stmts := [assign_nan [doy_ge 266; doy_le 270]];
         DPT_flag := Some 3; IAO := Some 158; albedo_flag := 1 |});
    (year_eq 2015, fun _ =>
      {| stmts := [assign_nans (day 213);
                  isub [doy_ge 214] 0.32;
                  assign_nan [doy_ge 253; doy_le 261]];
         DPT_flag := Some 3; IAO := Some 151; albedo_flag := 1 |});
    (year_eq 2016, fun _ =>
      {| stmts := [];
         DPT_flag := Some 0; IAO := None; albedo_flag := 1 |});
    (year_eq 2017, fun _ =>
      {| stmts := [];
         DPT_flag := Some 1; IAO := None; albedo_flag := 1 |});
    (year_eq 2018, fun _ =>
      {| stmts := [];
         DPT_flag := Some 3; IAO := Some 167; albedo_flag := 1 |});
    (year_eq 2019, fun _ =>
      {| stmts := [assign_nan [doy_lt 99]];
         DPT_flag := Some 3; IAO := Some 124; albedo_flag := 1 |}) ].

Definition UPE_U_branches : list branch :=
  [ (year_eq 2009, fun _ =>
      {| stmts := [];
         DPT_flag := Some 1; IAO := None; albedo_flag := 1 |});
    (year_between 2010 2012, fun year =>
      if year =? 2010 then
        {| stmts := [assign_nans (day 114)];
           DPT_flag := Some 3; IAO := Some 143; albedo_flag := 1 |}
      else if year =? 2011 then
        {| stmts := [];
           DPT_flag := Some 3; IAO := Some 159; albedo_flag := 1 |}
      else if year =? 2012 then
        {| stmts := [];
           DPT_flag := Some 3; IAO := Some 153; albedo_flag := 1 |}
      else
        {| stmts := [];
           DPT_flag := Some 3; IAO := None; albedo_flag := 1 |});
    (year_in [2013; 2018], fun _ =>
      {| stmts := [];
         DPT_flag := Some 2; IAO := None; albedo_flag := 1 |});
    (year_eq 2014, fun _ =>
      {| stmts := [];
         DPT_flag := Some 3; IAO := Some 171; albedo_flag := 1 |});
    (year_eq 2015, fun _ =>
      {| stmts := [isub [doy_ge 216] 5.48;
                  assign_nans (day 215)];
         DPT_flag := Some 2; IAO := None; albedo_flag := 1 |});
    (year_eq 2016, fun _ =>
      {| stmts := [];
         DPT_flag := Some 3; IAO := Some 183; albedo_flag := 1 |});
    (year_eq 2017, fun year =>
      if year =? 2017 then
        {| stmts := [];
           DPT_flag := Some 3; IAO := Some 190; albedo_flag := 1 |}
      else
        {| stmts := [];
           DPT_flag := None; IAO := None; albedo_flag := 1 |});
    (year_eq 2019, fun _ =>
      {| stmts := [];
         DPT_flag := Some 3; IAO := Some 161; albedo_flag := 1 |}) ].

Definition KPC_L_branches : list branch :=
  [ (year_in [2008; 2010; 2012], fun _ =>
      {| stmts := [];
         DPT_flag := Some 1; IAO := None; albedo_flag := 1 |});
    (year_eq 2009, fun _ =>
      {| stmts := [];
         DPT_flag := Some 0; IAO := None; albedo_flag := 1 |});
    (year_eq 2011, fun _ =>
      {| stmts := [];
         DPT_flag := Some 0; IAO := None; albedo_flag := 1 |});
    (year_eq 2013, fun _ =>
      {| stmts := [];
         DPT_flag := Some 3; IAO := Some 163; albedo_flag := 1 |});
    (year_eq 2014, fun _ =>
      {| stmts := [];
         DPT_flag := Some 3; IAO := Some 165; albedo_flag := 1 |});
    (year_eq 2015, fun _ =>
      {| stmts := [];
         DPT_flag := Some 3; IAO := Some 172; albedo_flag := 1 |});
    (year_eq 2016, fun _ =>
      {| stmts := [isub [doy_gt 209] 6.297;
                  assign_nans (days [210; 211]);
                  isub [doy_gt 211] 0.1];
         DPT_flag := Some 3; IAO := Some 166; albedo_flag := 1 |});
    (year_eq 2017, fun _ =>
      {| stmts := [];
         DPT_flag := Some 3; IAO := Some 160; albedo_flag := 1 |});
    (year_eq 2018, fun _ =>
      {| stmts := [];
         DPT_flag := Some 2; IAO := None; albedo_flag := 1 |});
    (year_eq 2019, fun _ =>
      {| stmts := [isub [doy_gt 192] 4.478;
                  assign_nans (day 193)];
         DPT_flag := Some 3; IAO := Some 163; albedo_flag := 1 |}) ].

Definition KPC_U_branches : list branch :=
  [ (year_between 2008 2019, fun _ =>
      {| stmts := [];
         DPT_flag := Some 1; IAO := None; albedo_flag := 1 |}) ].

Definition KAN_L_branches : list branch :=
  [ (year_eq 2008, fun _ =>
      {| stmts := [];
         DPT_flag := Some 1; IAO := None; albedo_flag := 1 |});
    (year_eq 2009, fun _ =>
      {| stmts := [assign_nan [doy_ge 250; z_ge (-3.2)];
                  assign [doy_ge 260; z_isnan] (-3.5);
                  assign_nans (day 276)];
         DPT_flag := Some 3; IAO := Some 136; albedo_flag := 1 |});
    (year_eq 2010, fun _ =>
      {| stmts := [assign_nan [doy_ge 260; z_ge (-5.1)];
                  isub [doy_ge 280] 0.1;
                  assign [doy_ge 260; z_isnan] (-5.45);
                  assign_nans (days [136; 284])];
         DPT_flag := Some 3; IAO := Some 121; albedo_flag := 1 |});
    (year_eq 2011, fun _ =>
      {| stmts := [isub [doy_gt 155] 4;
                  assign_nans (day 155)];
         DPT_flag := Some 3; IAO := Some 156; albedo_flag := 1 |});
    (year_eq 2012, fun _ =>
      {| stmts := [isub [doy_ge 234] 11.56;
                  assign_nan [doy_ge 282; doy_le 298];
                  assign_nans (days [234; 235])];
         DPT_flag := Some 3; IAO := Some 149; albedo_flag := 1 |});
    (year_eq 2013, fun _ =>
      {| stmts := [];
         DPT_flag := Some 3; IAO := Some 141; albedo_flag := 1 |});
    (year_eq 2014, fun _ =>
      {| stmts := [assign_nan [doy_ge 290; doy_le 319];
                  iadd [doy_gt 133] 0.07];
         DPT_flag := Some 3; IAO := Some 146; albedo_flag := 1 |});
    (year_eq 2015, fun _ =>
      {| stmts := [isub [doy_ge 119] 7.08;
                  assign_nans (days [118; 278]);
                  isub [doy_ge 188] 0.29];
         DPT_flag := Some 3; IAO := Some 162; albedo_flag := 1 |});
    (year_eq 2016, fun _ =>
      {| stmts := [isub [doy_gt 198] 1.6;
                  assign_nan [doy_ge 260; z_ge (-4.5)];
                  assign_nan [doy_ge 260; z_le (-5.5)];
                  assign_nan [doy_ge 273; doy_le 280];
                  assign_nans (day 198)];
         DPT_flag := Some 3; IAO := Some 100; albedo_flag := 1 |});
    (year_eq 2017, fun _ =>
      {| stmts := [isub [doy_gt 244] 3.6;
                  isub_z [doy_gt 58] [doy_eq 59];
                  assign_nans (day 244)];
         DPT_flag := Some 3; IAO := Some 123; albedo_flag := 1 |});
    (year_eq 2018, fun _ =>
      {| stmts := [assign_nans (day 240);
                  isub [doy_ge 241] 10.65];
         DPT_flag := Some 3; IAO := Some 137; albedo_flag := 1 |});
    (year_eq 2019, fun _ =>
      {| stmts := [isub [doy_ge 248] 1.3];
         DPT_flag := Some 3; IAO := Some 115; albedo_flag := 1 |}) ].

Definition KAN_M_branches : list branch :=
  [ (year_between 2008 2011, fun _ =>
      {| stmts := [];
         DPT_flag := Some 0; IAO := None; albedo_flag := 1 |});
    (year_eq 2012, fun _ =>
      {| stmts := [];
         DPT_flag := Some 3; IAO := Some 169; albedo_flag := 1 |});
    (year_eq 2013, fun _ =>
      {| stmts := [assign_nans (day 183)];
         DPT_flag := Some 3; IAO := Some 173; albedo_flag := 1 |});
    (year_in [2014; 2015], fun _ =>
      {| stmts := [];
         DPT_flag := Some 1; IAO := None; albedo_flag := 1 |});
    (year_eq 2016, fun _ =>
      {| stmts := [];
         DPT_flag := Some 3; IAO := Some 156; albedo_flag := 1 |});
    (year_eq 2017, fun _ =>
      {| stmts := [assign_nan [doy_gt 100; doy_lt 135; z_gt 0.15]];
         DPT_flag := Some 3; IAO := Some 202; albedo_flag := 1 |});
    (year_eq 2018, fun _ =>
      {| stmts := [assign_nan [doy_ge 238]];
         DPT_flag := Some 2; IAO := None; albedo_flag := 1 |});
    (year_eq 2019, fun _ =>
      {| stmts := [assign_nan [doy_ge 247]];
         DPT_flag := Some 3; IAO := Some 172; albedo_flag := 1 |}) ].

Definition QAS_M_branches : list branch :=
  [ (year_eq 2016, fun _ =>
      {| stmts := [];
         DPT_flag := Some 2; IAO := None; albedo_flag := 1 |});
    (year_eq 2017, fun _ =>
      {| stmts := [assign_nans (days (arange 141 146));
                  assign_nans (days [151; 152; 187; 188]);
                  assign_nan [doy_ge 196; doy_le 236]];
         DPT_flag := Some 1; IAO := None; albedo_flag := 1 |});
    (year_eq 2018, fun _ =>
      {| stmts := [isub [doy_gt 242] 5.0;
                  assign_nans (days (arange 241 244));
                  isub [doy_ge 244] 0.2];
         DPT_flag := Some 3; IAO := Some 192; albedo_flag := 1 |});
    (year_eq 2019, fun _ =>
      {| stmts := [isub [doy_ge 242] 4.92];
         DPT_flag := Some 3; IAO := Some 178; albedo_flag := 1 |}) ].

Definition QAS_A_branches : list branch :=
  [ (year_between 2012 2015, fun _ =>
      {| stmts := [];
         DPT_flag := Some 0; IAO := None; albedo_flag := 1 |}) ].

Definition QAS_L_branches : list branch :=
  [ (year_in [2007; 2009; 2013], fun _ =>
      {| stmts := [];
         DPT_flag := Some 1; IAO := None; albedo_flag := 1 |});
    (year_eq 2008, fun _ =>
      {| stmts := [isub [doy_ge 219] 7;
                  iadd [doy_ge 277] 5.1;
                  assign_nans (days [77; 78; 92; 103; 110; 220; 277]);
                  isub [doy_ge 220] 1.9];
         DPT_flag := Some 3; IAO := Some 121; albedo_flag := 1 |});
    (year_eq 2010, fun _ =>
      {| stmts := [assign_nan [doy_ge 127; doy_le 128];
                  assign_nans (day 147);
                  isub [doy_ge 129; doy_le 146; doy_le 148] 3.5;
                  assign_nan [doy_ge 144; doy_le 150];
                  isub [doy_ge 129] 1.3];
         DPT_flag := Some 2; IAO := Some 129; albedo_flag := 1 |});
    (year_eq 2011, fun _ =>
      {| stmts := [assign_nan [doy_ge 222]];
         DPT_flag := Some 3; IAO := Some 155; albedo_flag := 1 |});
    (year_eq 2012, fun _ =>
      {| stmts := [assign_nans (days [133; 134]);
                  isub [doy_gt 132] 0.55;
                  isub [doy_gt 230] 0.8];
         DPT_flag := Some 3; IAO := Some 151; albedo_flag := 1 |});
    (year_eq 2014, fun _ =>
      {| stmts := [assign_nans (days [125; 235]);
                  isub [doy_gt 124] 1.48;
                  isub [doy_ge 236] 7.9;
                  isub [doy_gt 159] 0.08];
         DPT_flag := Some 3; IAO := Some 149; albedo_flag := 1 |});
    (year_eq 2015, fun _ =>
      {| stmts := [];
         DPT_flag := Some 3; IAO := Some 171; albedo_flag := 1 |});
    (year_eq 2016, fun _ =>
      {| stmts := [assign_nans (day 224);
                  isub [doy_ge 225] 13.3];
         DPT_flag := Some 3; IAO := Some 133; albedo_flag := 1 |});
    (year_eq 2017, fun _ =>
      {| stmts := [isub [doy_ge 152] 0.05];
         DPT_flag := Some 3; IAO := Some 152; albedo_flag := 1 |});
    (year_eq 2018, fun _ =>
      {| stmts := [assign_nans (days [123; 238]);
                  isub [doy_gt 122] 1;
                  isub [doy_gt 132] 0.9;
                  iadd [doy_gt 130] 0.2;
                  isub [doy_gt 126] 0.2;
                  isub [doy_ge 239] 8.2;
                  assign_nans (days (arange 123 133));
                  assign_nans (days (arange 133 137))];
         DPT_flag := Some 3; IAO := Some 155; albedo_flag := 1 |});
    (year_eq 2019, fun _ =>
      {| stmts := [assign_nan [doy_gt 142];
                  isub [doy_ge 177] 1;
                  isub [doy_ge 140] 0.4];
         DPT_flag := Some 1; IAO := None; albedo_flag := 1 |}) ].

Definition QAS_U_branches : list branch :=
  [ (year_in [2008; 2009; 2013], fun _ =>
      {| stmts := [];
         DPT_flag := Some 1; IAO := None; albedo_flag := 1 |});
    (year_eq 2010, fun _ =>
      {| stmts := [];
         DPT_flag := Some 3; IAO := Some 175; albedo_flag := 1 |});
    (year_in [2011; 2015; 2018], fun _ =>
      {| stmts := [];
         DPT_flag := Some 2; IAO := None; albedo_flag := 1 |});
    (year_eq 2012, fun _ =>
      {| stmts := [];
         DPT_flag := Some 3; IAO := Some 196; albedo_flag := 0 |});
    (year_eq 2014, fun _ =>
      {| stmts := [];
         DPT_flag := Some 3; IAO := Some 206; albedo_flag := 1 |});
    (year_eq 2016, fun _ =>
      {| stmts := [assign_nan [doy_gt 224]];
         DPT_flag := Some 3; IAO := Some 202; albedo_flag := 1 |});
    (year_eq 2017, fun _ =>
      {| stmts := [assign_nan [doy_le 143]];
         DPT_flag := Some 3; IAO := Some 220; albedo_flag := 1 |});
    (year_eq 2019, fun _ =>
      {| stmts := [isub [doy_ge 243] 2.24;
                  assign_nan [doy_ge 241; doy_le 242];
                  assign_nan [doy_le 100]];
         DPT_flag := Some 3; IAO := Some 200; albedo_flag := 1 |}) ].

Definition THU_L_branches : list branch :=
  [ (year_in [2010; 2011; 2012; 2013; 2018], fun _ =>
      {| stmts := [];
         DPT_flag := Some 1; IAO := None; albedo_flag := 1 |});
    (year_eq 2014, fun _ =>
      {| stmts := [assign_nan [doy_gt 255]];
         DPT_flag := Some 3; IAO := Some 177; albedo_flag := 1 |});
    (year_eq 2015, fun _ =>
      {| stmts := [iadd [doy_ge 20] 0.1;
                  isub [doy_ge 182] 0.3;
                  isub [doy_ge 260] 0.2;
                  assign_nan [doy_gt 250]];
         DPT_flag := Some 3; IAO := Some 163; albedo_flag := 1 |});
    (year_eq 2016, fun _ =>
      {| stmts := [isub [doy_ge 204] 0.2];
         DPT_flag := Some 3; IAO := Some 180; albedo_flag := 1 |});
    (year_eq 2017, fun _ =>
      {| stmts := [];
         DPT_flag := Some 3; IAO := Some 194; albedo_flag := 1 |});
    (year_eq 2019, fun _ =>
      {| stmts := [assign_nan [doy_gt 43; doy_lt 59];
                  assign_nan [doy_lt 100; z_lt (-0.2)]];
         DPT_flag := Some 3; IAO := Some 161; albedo_flag := 0 |}) ].

Definition THU_U_branches : list branch :=
  [ (year_in [2010; 2018], fun _ =>
      {| stmts := [];
         DPT_flag := Some 1; IAO := None; albedo_flag := 1 |});
    (year_in [2011; 2013; 2015; 2019], fun _ =>
      {| stmts := [];
         DPT_flag := Some 2; IAO := None; albedo_flag := 1 |});
    (year_eq 2012, fun _ =>
      {| stmts := [];
         DPT_flag := Some 3; IAO := Some 191; albedo_flag := 1 |});
    (year_eq 2014, fun _ =>
      {| stmts := [iadd [doy_ge 258] 0.85;
                  assign_nans (day 258)];
         DPT_flag := Some 2; IAO := None; albedo_flag := 1 |});
    (year_eq 2016, fun _ =>
      {| stmts := [iadd [doy_ge 204] 2.5;
                  assign_nans (day 203);
                  assign_nan [z_lt (-0.5)]];
         DPT_flag := Some 2; IAO := None; albedo_flag := 1 |});
    (year_eq 2017, fun _ =>
      {| stmts := [assign_nan [z_lt (-0.06)]];
         DPT_flag := Some 1; IAO := None; albedo_flag := 1 |}) ].

Definition THU_U2_branches : list branch :=
  [ (year_eq 2018, fun _ =>
      {| stmts := [assign_nans (day 216)];
         DPT_flag := Some 2; IAO := None; albedo_flag := 1 |});
    (year_eq 2019, fun _ =>
      {| stmts := [];
         DPT_flag := Some 1; IAO := None; albedo_flag := 1 |}) ].

Definition SCO_L_branches : list branch :=
  [ (year_eq 2008, fun _ =>
      {| stmts := [];
         DPT_flag := Some 2; IAO := None; albedo_flag := 1 |});
    (year_between 2009 2013, fun year =>
      if year =? 2009 then
        {| stmts := [];
           DPT_flag := Some 3; IAO := Some 143; albedo_flag := 1 |}
      else if year =? 2010 then
        {| stmts := [];
           DPT_flag := Some 3; IAO := Some 144; albedo_flag := 0 |}
      else if year =? 2011 then
        {| stmts := [];
           DPT_flag := Some 3; IAO := Some 158; albedo_flag := 1 |}
      else if year =? 2012 then
        {| stmts := [];
           DPT_flag := Some 3; IAO := Some 150; albedo_flag := 1 |}
      else if year =? 2013 then
        {| stmts := [];
           DPT_flag := Some 3; IAO := Some 151; albedo_flag := 1 |}
      else
        {| stmts := [];
           DPT_flag := Some 3; IAO := None; albedo_flag := 1 |});
    (year_eq 2014, fun _ =>
      {| stmts := [isub [doy_ge 222] 14.79;
                  assign_nans (day 221)];
         DPT_flag := Some 2; IAO := None; albedo_flag := 1 |});
    (year_in [2015; 2016], fun year =>
      if year =? 2015 then
        {| stmts := [];
           DPT_flag := Some 1; IAO := None; albedo_flag := 1 |}
      else
        {| stmts := [assign_nans (days (arange 115 120))];
           DPT_flag := Some 3; IAO := Some 158; albedo_flag := 1 |});
    (year_eq 2017, fun _ =>
      {| stmts := [assign_nans (days (arange 110 116));
                  isub [doy_ge 219] 9.88;
                  assign_nans (day 218)];
         DPT_flag := Some 3; IAO := Some 146; albedo_flag := 1 |});
    (year_eq 2018, fun _ =>
      {| stmts := [];
         DPT_flag := Some 3; IAO := Some 148; albedo_flag := 1 |});
    (year_eq 2019, fun _ =>
      {| stmts := [];
         DPT_flag := Some 1; IAO := None; albedo_flag := 1 |}) ].

Definition SCO_U_branches : list branch :=
  [ (year_in [2008; 2018], fun _ =>
      {| stmts := [];
         DPT_flag := Some 2; IAO := None; albedo_flag := 1 |});
    (year_eq 2009, fun _ =>
      {| stmts := [assign_nan [doy_ge 316]];
         DPT_flag := Some 3; IAO := Some 184; albedo_flag := 0 |});
    (year_eq 2010, fun _ =>
      {| stmts := [];
         DPT_flag := Some 1; IAO := None; albedo_flag := 1 |});
    (year_eq 2011, fun _ =>
      {| stmts := [];
         DPT_flag := Some 3; IAO := Some 161; albedo_flag := 1 |});
    (year_eq 2012, fun _ =>
      {| stmts := [isub [doy_ge 242] 1.47;
                  assign_nans (day 241)];
         DPT_flag := Some 3; IAO := Some 150; albedo_flag := 1 |});
    (year_in [2013; 2014], fun year =>
      if year =? 2013 then
        {| stmts := [assign_nan [doy_gt 22; doy_lt 26]];
           DPT_flag := Some 3; IAO := Some 155; albedo_flag := 1 |}
      else
        {| stmts := [];
           DPT_flag := Some 3; IAO := Some 162; albedo_flag := 1 |});
    (year_eq 2015, fun _ =>
      {| stmts := [assign_nans (days [101; 102; 103; 113])];
         DPT_flag := Some 3; IAO := Some 170; albedo_flag := 1 |});
    (year_eq 2016, fun _ =>
      {| stmts := [assign_nans (days [47; 60; 61])];
         DPT_flag := Some 3; IAO := Some 160; albedo_flag := 1 |});
    (year_eq 2017, fun _ =>
      {| stmts := [isub [doy_ge 217] 12.08;
                  assign_nans (day 216);
                  assign_nan [doy_gt 49; doy_lt 54];
                  assign_nans (days (arange 82 93))];
         DPT_flag := Some 3; IAO := Some 153; albedo_flag := 1 |});
    (year_eq 2019, fun _ =>
      {| stmts := [];
         DPT_flag := Some 3; IAO := Some 160; albedo_flag := 1 |}) ].

Definition TAS_A_branches : list branch :=
  [ (year_in [2013; 2015; 2018], fun _ =>
      {| stmts := [];
         DPT_flag := Some 1; IAO := None; albedo_flag := 1 |});
    (year_eq 2014, fun _ =>
      {| stmts := [assign_nan [doy_gt 41; doy_lt 75]];
         DPT_flag := Some 3; IAO := Some 188; albedo_flag := 1 |});
    (year_eq 2016, fun _ =>
      {| stmts := [];
         DPT_flag := Some 3; IAO := Some 176; albedo_flag := 1 |});
    (year_eq 2017, fun _ =>
      {| stmts := [];
         DPT_flag := Some 3; IAO := Some 210; albedo_flag := 1 |});
    (year_eq 2019, fun _ =>
      {| stmts := [];
         DPT_flag := Some 3; IAO := Some 195; albedo_flag := 0 |}) ].

Definition TAS_L_branches : list branch :=
  [ (year_in_range 2007 2010, fun _ =>
      {| stmts := [];
         DPT_flag := Some 0; IAO := None; albedo_flag := 1 |});
    (year_in [2010; 2011; 2014; 2015; 2016], fun _ =>
      {| stmts := [];
         DPT_flag := Some 1; IAO := None; albedo_flag := 1 |});
    (year_eq 2012, fun _ =>
      {| stmts := [isub [doy_ge 252] 2.86;
                  assign_nans (day 251);
                  assign_nan [doy_le 83]];
         DPT_flag := Some 3; IAO := Some 153; albedo_flag := 1 |});
    (year_eq 2013, fun _ =>
      {| stmts := [isub_nan [doy_ge 235]];
         DPT_flag := Some 2; IAO := Some 140; albedo_flag := 1 |});
    (year_eq 2017, fun _ =>
      {| stmts := [isub [doy_ge 209] 10.36;
                  assign_nans (days [207; 208])];
         DPT_flag := Some 2; IAO := None; albedo_flag := 1 |});
    (year_eq 2018, fun _ =>
      {| stmts := [iadd [doy_ge 272] 1.29;
                  assign_nans (day 271)];
         DPT_flag := Some 3; IAO := Some 156; albedo_flag := 1 |});
    (year_eq 2019, fun _ =>
      {| stmts := [isub [doy_ge 121] 1.135];
         DPT_flag := Some 3; IAO := Some 143; albedo_flag := 0 |}) ].

Definition TAS_U_branches : list branch :=
  [ (year_eq 2008, fun _ =>
      {| stmts := [assign_nans (day 143)];
         DPT_flag := Some 3; IAO := Some 167; albedo_flag := 1 |});
    (year_in [2009; 2012], fun _ =>
      {| stmts := [];
         DPT_flag := Some 1; IAO := None; albedo_flag := 1 |});
    (year_eq 2010, fun _ =>
      {| stmts := [isub [doy_ge 219] 8.07;
                  assign_nans (day 218)];
         DPT_flag := Some 2; IAO := None; albedo_flag := 1 |});
    (year_eq 2011, fun _ =>
      {| stmts := [isub [doy_ge 203] 1.558;
                  assign_nans (days [202; 222])];
         DPT_flag := Some 3; IAO := Some 161; albedo_flag := 0 |});
    (year_eq 2013, fun _ =>
      {| stmts := [];
         DPT_flag := Some 3; IAO := Some 167; albedo_flag := 1 |});
    (year_eq 2014, fun _ =>
      {| stmts := [isub [doy_ge 216] 1.29;
                  assign_nans (days [138; 215]);
                  iadd [doy_ge 138] 1.27;
                  assign_nans (day 137)];
         DPT_flag := Some 3; IAO := Some 136; albedo_flag := 1 |});
    (year_eq 2015, fun _ =>
      {| stmts := [];
         DPT_flag := Some 2; IAO := None; albedo_flag := 1 |}) ].

Definition MIT_branches : list branch :=
  [ (year_eq 2009, fun _ =>
      {| stmts := [isub [doy_ge 224] 6.6;
                  assign_nans (days [124; 223])];
         DPT_flag := Some 3; IAO := Some 222; albedo_flag := 0 |});
    (year_eq 2010, fun _ =>
      {| stmts := [];
         DPT_flag := Some 3; IAO := Some 190; albedo_flag := 1 |});
    (year_eq 2011, fun _ =>
      {| stmts := [assign_nans (day 224);
                  isub [doy_gt 223] 0.08];
         DPT_flag := Some 3; IAO := Some 203; albedo_flag := 1 |});
    (year_eq 2012, fun _ =>
      {| stmts := [isub [doy_ge 250] 13.70;
                  assign_nans (day 249)];
         DPT_flag := Some 2; IAO := None; albedo_flag := 1 |});
    (year_in [2013; 2015; 2016], fun _ =>
      {| stmts := [];
         DPT_flag := Some 1; IAO := None; albedo_flag := 1 |});
    (year_eq 2014, fun _ =>
      {| stmts := [];
         DPT_flag := Some 3; IAO := Some 188; albedo_flag := 1 |});
    (year_eq 2017, fun _ =>
      {| stmts := [assign_nans (day 207)];
         DPT_flag := Some 3; IAO := Some 208; albedo_flag := 0 |});
    (year_eq 2018, fun _ =>
      {| stmts := [];
         DPT_flag := Some 2; IAO := None; albedo_flag := 1 |});
    (year_eq 2019, fun _ =>
      {| stmts := [iadd [doy_lt 12] 4.4];
         DPT_flag := Some 3; IAO := Some 186; albedo_flag := 0 |}) ].

(** What the chain does for one value of [site]: the branches over [year]
    of a station, with or without the final [else: no_proc = 1], or the
    branch of the accumulation-area stations. *)
Inductive site_rules : Type :=
| by_year (branches : list branch) (else_no_proc : bool)
| accumulation_area.

Definition correction_table : list (string * site_rules) :=
  [ ("NUK_U", by_year NUK_U_branches true);
    ("NUK_L", by_year NUK_L_branches true);
    ("NUK_N", by_year NUK_N_branches true);
    ("NUK_K", by_year NUK_K_branches true);
    ("UPE_L", by_year UPE_L_branches true);
    ("UPE_U", by_year UPE_U_branches true);
    ("KPC_L", by_year KPC_L_branches true);
    ("KPC_U", by_year KPC_U_branches true);
    ("KAN_L", by_year KAN_L_branches true);
    ("KAN_M", by_year KAN_M_branches true);
    ("QAS_M", by_year QAS_M_branches true);
    ("QAS_A", by_year QAS_A_branches true);
    ("QAS_L", by_year QAS_L_branches true);
    ("QAS_U", by_year QAS_U_branches true);
    ("THU_L", by_year THU_L_branches true);
    ("THU_U", by_year THU_U_branches true);
    ("THU_U2", by_year THU_U2_branches false);
    ("SCO_L", by_year SCO_L_branches true);
    ("SCO_U", by_year SCO_U_branches true);
    ("TAS_A", by_year TAS_A_branches true);
    ("TAS_L", by_year TAS_L_branches true);
    ("TAS_U", by_year TAS_U_branches true);
    ("MIT", by_year MIT_branches true);
    ("EGP", accumulation_area);
    ("CEN", accumulation_area);
    ("KAN_U", accumulation_area) ].

Fixpoint find_branch (year : Z) (bs : list branch) : option assignments :=
  match bs with
  | [] => None
  | (g, body) :: bs' =>
      if guard_holds g year then Some (body year) else find_branch year bs'
  end.

Fixpoint site_rules_of (site : string) (tbl : list (string * site_rules))
  : option site_rules :=
  match tbl with
  | [] => None
  | (s, r) :: tbl' => if String.eqb site s then Some r else site_rules_of site tbl'
  end.

(** The locals before the chain: [albedo_flag = 1], nothing else bound. *)
Definition unassigned : assignments :=
  {| stmts := []; DPT_flag := None; IAO := None; albedo_flag := 1 |}.

(** The whole [if site == ...: elif ...] chain: what was assigned, and the
    value of the global [no_proc] afterwards. *)
Definition station_year_chain (site : string) (year : Z) : M (assignments * Z) :=
  match site_rules_of site correction_table with
  | Some (by_year bs else_no_proc) =>
      match find_branch year bs with
      | Some a => ret (a, 0)
      | None => ret (unassigned, if else_no_proc then 1 else 0)
      end
  | Some accumulation_area =>
      run print ("WARNING: No processing available for " +:+ site);
      ret ({| stmts := []; DPT_flag := Some 0; IAO := None; albedo_flag := 1 |}, 0)
  | None => ret (unassigned, 0)
  end.

(** ** Raw observations *)

Record raw_row : Type := {
  Year : Z;
  DayOfYear : Z;
  DepthPressureTransducer_Cor : cell;   (* "DepthPressureTransducer_Cor(m)" *)
  Albedo_theta_lt_70d : cell;           (* "Albedo_theta<70d" *)
  AirTemperature : cell;                (* "AirTemperature(C)" *)
  HeightSensorBoom : cell               (* "HeightSensorBoom(m)" *)
}.

(** Reading a local variable that may not have been assigned. *)
Definition read_local {A : Type} (name : string) (v : option A) : M A :=
  match v with
  | Some x => ret x
  | None => raise (UnboundLocalError name)
  end.

(** Comparisons of a day with [IAO], which is an [int] or [np.nan]. *)
Definition doy_lt_IAO (d : Z) (IAO : option Z) : bool :=
  match IAO with
  | Some i => d <? i
  | None => false
  end.

Definition doy_gt_IAO (d : Z) (IAO : option Z) : bool :=
  match IAO with
  | Some i => d >? i
  | None => false
  end.

Definition IAO_minus (IAO : option Z) (k : Z) : option Z :=
  match IAO with
  | Some i => Some (i - k)
  | None => None
  end.

(** [np.where(mask)[0]]: the positions of the true entries. *)
Fixpoint np_where_from (i : nat) (mask : list bool) : list nat :=
  match mask with
  | [] => []
  | b :: mask' =>
      if b then i :: np_where_from (S i) mask' else np_where_from (S i) mask'
  end.

Definition np_where (mask : list bool) : list nat := np_where_from 0 mask.

Definition count_nan (s : list cell) : nat := length (filter (fun x => isnan x = true) s).

(** ** [DPT_processing]

    The global [site] is an explicit argument.  The result is the tuple
    [(z, albedo, DPT_flag, BID, albedo_flag)]. *)
Definition DPT_processing (site : string) (df : list raw_row) (year : Z)
  : M (list cell * list cell * Z * option Z * Z) :=
  let z := map DepthPressureTransducer_Cor df in
  let doy := map DayOfYear df in
  do '(a, no_proc) <- station_year_chain site year;
  (* the statements of the branch taken, in source order *)
  let z := exec_stmts doy (stmts a) z in
  let albedo_flag := albedo_flag a in
  do DPT_flag <-
    (if no_proc =? 1 then
       run print ("WARNING: No processing available for " +:+ site +:+ " "
                  +:+ pretty year);
       ret (Some 0)
     else ret (DPT_flag a));
  (* if DPT_flag != 3: IAO = np.nan *)
  do DPT_flag <- read_local "DPT_flag" DPT_flag;
  let IAO : option (option Z) :=
    if negb (DPT_flag =? 3) then Some None
    else match IAO a with Some i => Some (Some i) | None => None end in
  let albedo := map Albedo_theta_lt_70d df in
  let albedo := map (fun x => cell_add x (Some 0.034%Q)) albedo in
  let albedo := if albedo_flag =? 0 then map (fun _ => nan) albedo else albedo in
  let albedo_flag :=
    if (count_nan albedo =? length albedo)%nat then 0 else albedo_flag in
  (* z -= np.nanmean(z[(doy < IAO) & (doy > IAO - 45)]) *)
  do IAO <- read_local "IAO" IAO;
  let window :=
    map (fun d => doy_lt_IAO d IAO && doy_gt_IAO d (IAO_minus IAO 45)) doy in
  let baseline := nanmean (select window z) in
  let z := map (fun x => cell_sub x baseline) z in
  if (DPT_flag =? 3) && (albedo_flag =? 1) then
    let after := map (fun d => doy_gt_IAO d IAO) doy in
    match np_where (map (fun x => relop_cell op_lt x (-0.06)%Q) (select after z)) with
    | indx :: _ =>
        match select after doy !! indx with
        | Some BID => ret (z, albedo, DPT_flag, Some BID, albedo_flag)
        | None => ret (z, albedo, DPT_flag, None, 0)      (* except IndexError *)
        end
    | [] => ret (z, albedo, DPT_flag, None, 0)            (* except IndexError *)
    end
  else
    ret (z, albedo, DPT_flag, None, albedo_flag).

(** ** Processed tables (the DataFrame built by [BIC_processing]) *)

Module Proc.

Record row : Type := {
  DPT_proc : cell;
  DPT_flag : Z;
  BID : option Z;
  DOY : Z;
  Year : Z;
  Air_temperature_C : cell;
  Albedo_theta_inf_70d : cell;
  Albedo_flag : Z;
  HeightSensorBoom_m : cell;
  Height_sensor_boom_m : cell
}.

(** A DataFrame: its column names and its rows.  A row holds NaN in a
    column that the frame it came from did not have. *)
Record table : Type := {
  columns : list string;
  rows : list row
}.

Definition common_columns : list string :=
  ["DPT_proc"; "DPT_flag"; "BID"; "DOY"; "Year"; "Air_temperature_C";
   "Albedo_theta_inf_70d"; "Albedo_flag"].

(** [DataFrame.append]: the union of the columns, the rows one after the
    other. *)
Definition append (t t' : table) : table :=
  {| columns := columns t ++ filter (fun c => c ∉ columns t) (columns t');
     rows := rows t ++ rows t' |}.

End Proc.

(** The rows of the frame built from one year: [boom_column] is the name
    under which the boom height is stored. *)
Definition frame_rows (first : bool) (DPT_proc albedo boom : list cell)
    (DPT_flag : Z) (BID : option Z) (albedo_flag : Z) (df_y : list raw_row)
  : list Proc.row :=
  zip_with
    (fun (c : cell * cell * cell) (r : raw_row) =>
       {| Proc.DPT_proc := c.1.1;
          Proc.DPT_flag := DPT_flag;
          Proc.BID := BID;
          Proc.DOY := DayOfYear r;
          Proc.Year := Year r;
          Proc.Air_temperature_C := AirTemperature r;
          Proc.Albedo_theta_inf_70d := c.1.2;
          Proc.Albedo_flag := albedo_flag;
          Proc.HeightSensorBoom_m := if first then c.2 else nan;
          Proc.Height_sensor_boom_m := if first then nan else c.2 |})
    (zip (zip DPT_proc albedo) boom) df_y.

Definition frame (first : bool) (DPT_proc albedo boom : list cell)
    (DPT_flag : Z) (BID : option Z) (albedo_flag : Z) (df_y : list raw_row)
  : Proc.table :=
  {| Proc.columns :=
       Proc.common_columns
       ++ [if first then "HeightSensorBoom_m" else "Height_sensor_boom_m"];
     Proc.rows :=
       frame_rows first DPT_proc albedo boom DPT_flag BID albedo_flag df_y |}.

(** [list(Counter(xs))]: the distinct values in order of first occurrence. *)
Fixpoint Counter_keys {A : Type} `{EqDecision A} (xs : list A) : list A :=
  match xs with
  | [] => []
  | x :: xs' => x :: filter (fun y => y ≠ x) (Counter_keys xs')
  end.

(** ** [load_data] and [BIC_processing] *)

(** The [year] argument of [load_data], kept in the global [yr]. *)
Inductive year_arg : Type :=
| yr_all                    (* "all" *)
| yr_int (y : Z)
| yr_list (ys : list Z).

(** A station file: the station name that the file name yields, and the
    parsed rows (a cell equal to -999 is an invalid value). *)
Record promice_file : Type := {
  station : string;
  table : list raw_row
}.

Definition invalid_to_nan (x : cell) : cell :=
  match x with
  | Some q => if Qeq_bool q (-999)%Q then nan else Some q
  | None => None
  end.

Definition normalise (r : raw_row) : raw_row :=
  {| Year := Year r;
     DayOfYear := DayOfYear r;
     DepthPressureTransducer_Cor := invalid_to_nan (DepthPressureTransducer_Cor r);
     Albedo_theta_lt_70d := invalid_to_nan (Albedo_theta_lt_70d r);
     AirTemperature := invalid_to_nan (AirTemperature r);
     HeightSensorBoom := invalid_to_nan (HeightSensorBoom r) |}.

(** [load_data] sets the globals [site] and [yr] and returns the selected
    rows, or [None] when the selection is empty.  The result gives the two
    globals with the returned value.  The columns [Year] and [DayOfYear]
    are taken to hold no invalid value. *)
Definition load_data (file : promice_file) (year : year_arg)
  : M (string * year_arg * option (list raw_row)) :=
  let site := station file in
  let promice_data := map normalise (table file) in
  let yr := year in
  do promice_data <-
    match year with
    | yr_all => ret promice_data
    | yr_int y => ret (filter (fun r => Year r = y) promice_data)
    | yr_list ys =>
        (* promice_data.Year == year, elementwise against the list *)
        if (length ys =? length promice_data)%nat then
          ret (select (zip_with Z.eqb (map Year promice_data) ys) promice_data)
        else raise (ValueError "Lengths must match to compare")
    end;
  match promice_data with
  | [] => run print "ERROR: Selected year not available"; ret (site, yr, None)
  | _ :: _ => ret (site, yr, Some promice_data)
  end.

(** Attribute access on the value returned by [load_data]. *)
Definition attr_of {A : Type} (name : string) (promice_data : option A) : M A :=
  match promice_data with
  | Some df => ret df
  | None => raise (AttributeError name)
  end.

(** The body of the loop over the years: one frame per year. *)
Definition process_year (site : string) (promice_data : option (list raw_row))
    (i : nat) (y : Z) : M Proc.table :=
  do df <- attr_of "Year" promice_data;
  let df_y := filter (fun r => Year r = y) df in
  do '(DPT_proc, albedo, DPT_flag, BID, albedo_flag) <- DPT_processing site df_y y;
  let HeightSensorBoom_m := map HeightSensorBoom df_y in
  ret (frame (i =? 0)%nat DPT_proc albedo HeightSensorBoom_m
             DPT_flag BID albedo_flag df_y).

(** The loop [for i, y in enumerate(years)]; [acc] is the local
    [promice_data_proc], unbound before the first iteration. *)
Fixpoint BIC_loop (site : string) (promice_data : option (list raw_row))
    (i : nat) (years : list Z) (acc : option Proc.table)
  : M (option Proc.table) :=
  match years with
  | [] => ret acc
  | y :: years' =>
      do t <- process_year site promice_data i y;
      do acc' <-
        (if (i =? 0)%nat then ret t
         else do prev <- read_local "promice_data_proc" acc;
              ret (Proc.append prev t));
      BIC_loop site promice_data (S i) years' (Some acc')
  end.

(** [BIC_processing]; the globals [site] and [yr] are explicit arguments.
    In the branch for a single year the local [y] is read where only the
    loop of the other branch assigns it. *)
Definition BIC_processing (site : string) (yr : year_arg)
    (promice_data : option (list raw_row)) : M Proc.table :=
  let y : option Z := None in
  match yr with
  | yr_int _ =>
      do df_y <- attr_of "copy" promice_data;
      do y <- read_local "y" y;
      do '(DPT_proc, albedo, DPT_flag, BID, albedo_flag) <- DPT_processing site df_y y;
      let doy := map DayOfYear df_y in
      let HeightSensorBoom_m := map HeightSensorBoom df_y in
      let HeightSensorBoom_m :=
        if (y =? 2015) && String.eqb site "THU_L" then
          set_nan_on 184 doy HeightSensorBoom_m
        else if (y =? 2012) && String.eqb site "THU_U" then
          set_nan_on 211 doy (set_nan_on 172 doy HeightSensorBoom_m)
        else HeightSensorBoom_m in
      ret (frame true DPT_proc albedo HeightSensorBoom_m
                 DPT_flag BID albedo_flag df_y)
  | _ =>
      do years <-
        match yr with
        | yr_list ys => ret ys
        | _ => do df <- attr_of "Year" promice_data;
               ret (Counter_keys (map Year df))
        end;
      do acc <- BIC_loop site promice_data 0 years None;
      read_local "promice_data_proc" acc
  end.

(** ** [BIC_composite] *)

(** One station-year stacked into the composite: the station and year it
    comes from and its row in each of the four matrices. *)
Record stacked : Type := {
  from_station : string;
  from_year : Z;
  air_temperature_row : list cell;    (* df_yr_comp["Air_temperature_C"] *)
  ice_ablation_row : list cell;       (* df_yr_comp["DPT_proc"] *)
  snow_height_row : list cell;        (* df_yr_comp["Height_sensor_boom_m"] *)
  albedo_row : list cell              (* df_yr_comp["Albedo_theta_inf_70d"] *)
}.

(** Positional slice [s[a:b]] for [0 <= a]. *)
Definition slice {A : Type} (a b : nat) (s : list A) : list A :=
  take (b - a) (drop a s).

(** [df_yr_comp.append(pd.DataFrame(to_append))] seen column by column:
    [n] NaN cells are added below every column. *)
Definition pad (n : nat) (col : list cell) : list cell := col ++ replicate n nan.

(** The body of the loop over the years of one processed station. *)
Definition composite_year (s : string) (dt : Z) (df_corr : Proc.table)
    (year : Z) : M (option stacked) :=
  let time_span := 2 * dt + 1 in
  let df_yr := filter (fun r => Proc.Year r = year) (Proc.rows df_corr) in
  match df_yr with
  | [] => raise (IndexError "single positional indexer is out-of-bounds")
  | r0 :: _ =>
      if (Proc.DPT_flag r0 =? 3) && (Proc.Albedo_flag r0 =? 1) then
        do BID <-
          match Proc.BID r0 with
          | Some b => ret b
          | None => raise (ValueError "cannot convert float NaN to integer")
          end;
        let df_yr_comp :=
          filter (fun r => BID - dt <= Proc.DOY r /\ Proc.DOY r <= BID + dt) df_yr in
        (* append nan values if time_span higher than data set coverage *)
        do n <-
          (if Z.of_nat (length df_yr_comp) =? time_span then ret 0%nat
           else if time_span - Z.of_nat (length df_yr_comp) <? 0 then
             raise (ValueError "negative dimensions are not allowed")
           else ret (Z.to_nat (time_span - Z.of_nat (length df_yr_comp))));
        do boom <-
          (if decide ("Height_sensor_boom_m" ∈ Proc.columns df_corr) then
             ret (pad n (map Proc.Height_sensor_boom_m df_yr_comp))
           else raise (AttributeError "Height_sensor_boom_m"));
        let mean_boom_height :=
          nanmean (slice (Z.to_nat (dt + 10)) (Z.to_nat (dt + 30)) boom) in
        let boom := map (fun x => cell_sub mean_boom_height x) boom in
        ret (Some {| from_station := s;
                     from_year := year;
                     air_temperature_row :=
                       pad n (map Proc.Air_temperature_C df_yr_comp);
                     ice_ablation_row := pad n (map Proc.DPT_proc df_yr_comp);
                     snow_height_row := boom;
                     albedo_row :=
                       pad n (map Proc.Albedo_theta_inf_70d df_yr_comp) |})
      else ret None
  end.

Fixpoint composite_years (s : string) (dt : Z) (df_corr : Proc.table)
    (years : list Z) : M (list stacked) :=
  match years with
  | [] => ret []
  | year :: years' =>
      do r <- composite_year s dt df_corr year;
      do rs <- composite_years s dt df_corr years';
      ret (match r with Some c => c :: rs | None => rs end)
  end.

(** The file read for station [s]. *)
Fixpoint file_of (s : string) (files : list promice_file) : option promice_file :=
  match files with
  | [] => None
  | f :: files' => if String.eqb s (station f) then Some f else file_of s files'
  end.

(** The body of the loop over the stations. *)
Definition composite_station (files : list promice_file) (dt : Z) (s : string)
  : M (list stacked) :=
  if String.eqb s "CEN" || String.eqb s "EGP" || String.eqb s "KAN_U" then ret []
  else
    do file <-
      match file_of s files with
      | Some f => ret f
      | None => raise (ValueError "no such file")
      end;
    do '(site, yr, df) <- load_data file yr_all;
    do df_corr <- BIC_processing site yr df;
    let years := Counter_keys (map Proc.Year (Proc.rows df_corr)) in
    composite_years s dt df_corr years.

Fixpoint composite_stations (files : list promice_file) (dt : Z)
    (sites : list string) : M (list stacked) :=
  match sites with
  | [] => ret []
  | s :: sites' =>
      do rs <- composite_station files dt s;
      do rs' <- composite_stations files dt sites';
      ret (rs ++ rs')
  end.

(** The station-years stacked by [BIC_composite], in stacking order. *)
Definition BIC_composite_stack (files : list promice_file) (dt : Z)
  : M (list stacked) :=
  let sites := Counter_keys (map station files) in
  let time_span := 2 * dt + 1 in
  (* composite = {var: np.zeros(time_span) for var in variables} *)
  if time_span <? 0 then raise (ValueError "negative dimensions are not allowed")
  else composite_stations files dt sites.

(** A labelled matrix of the output dictionary. *)
Record labelled : Type := {
  values : list (list cell);
  index : list string;
  columns : list Z
}.

Record composite : Type := {
  air_temperature_degrees : labelled;
  ice_ablation_meters : labelled;
  snow_height_meters : labelled;
  albedo_unitless : labelled
}.

Fixpoint replace_space (s : string) : string :=
  match s with
  | EmptyString => EmptyString
  | String c s' =>
      String (if Ascii.eqb c " " then "_"%char else c) (replace_space s')
  end.

(** [(s + " " + str(year)).replace(" ", "_")] *)
Definition row_label (c : stacked) : string :=
  replace_space (from_station c +:+ " " +:+ pretty (from_year c)).

Definition labelled_matrix (dt : Z) (cs : list stacked)
    (var : stacked -> list cell) : labelled :=
  {| values := map var cs;
     index := map row_label cs;
     columns := arange (- dt) (2 * dt + 1 - dt) |}.

(** The output dictionary: one labelled matrix per variable. *)
Definition labelled_composite (dt : Z) (cs : list stacked) : composite :=
  {| air_temperature_degrees := labelled_matrix dt cs air_temperature_row;
     ice_ablation_meters := labelled_matrix dt cs ice_ablation_row;
     snow_height_meters := labelled_matrix dt cs snow_height_row;
     albedo_unitless := labelled_matrix dt cs albedo_row |}.

(** After the loop the first row of every array, the zeros it was started
    with, is dropped by [composite[var][1:, :]]; when nothing was stacked
    the array still has one dimension and the indexing raises. *)
Definition BIC_composite (files : list promice_file) (dt : Z) : M composite :=
  do cs <- BIC_composite_stack files dt;
  match cs with
  | [] => raise (IndexError "too many indices for array")
  | _ :: _ => ret (labelled_composite dt cs)
  end.

(** * Notions used in the statements

    Observers of the functions above (what the chain decides for a
    station-year, the intermediate series of [DPT_processing], the rows of
    a window), the sample-by-sample reading of the statements, and the
    inputs of the examples. *)

(** The locals after the chain (the chain itself never raises). *)
Definition chain_locals (site : string) (year : Z) : assignments * Z :=
  match returned (station_year_chain site year) with
  | inr x => x
  | inl _ => (unassigned, 0)
  end.

(** The confidence flag of a station-year: [DPT_flag] as it stands when
    [DPT_processing] reads it, [None] when it is unbound there. *)
Definition confidence_flag (site : string) (year : Z) : option Z :=
  let '(a, no_proc) := chain_locals site year in
  if no_proc =? 1 then Some 0 else DPT_flag a.

(** [IAO] as the chain leaves it. *)
Definition approximate_onset_day (site : string) (year : Z) : option Z :=
  IAO (chain_locals site year).1.

(** [albedo_flag] as the chain leaves it. *)
Definition entry_albedo_flag (site : string) (year : Z) : Z :=
  albedo_flag (chain_locals site year).1.

(** The depth series after the statements of the branch, before the
    baseline is subtracted. *)
Definition adjusted_depth (site : string) (df : list raw_row) (year : Z)
  : list cell :=
  exec_stmts (map DayOfYear df) (stmts (chain_locals site year).1)
             (map DepthPressureTransducer_Cor df).

(** The years that satisfy a guard. *)
Definition years_of (g : year_guard) : list Z :=
  match g with
  | year_eq y => [y]
  | year_in ys => ys
  | year_between a b => seqZ a (b - a + 1)
  | year_in_range a b => arange a b
  end.

(** A boolean property holds of every branch body of the table, at every
    year its guard admits. *)
Definition table_forallb (P : assignments -> bool) : bool :=
  forallb
    (fun sr : string * site_rules =>
       match sr.2 with
       | by_year bs _ =>
           forallb (fun b : branch => forallb (fun y => P (b.2 y)) (years_of b.1)) bs
       | accumulation_area => true
       end)
    correction_table.

(** The locals after the branch of the accumulation-area stations. *)
Definition accumulation_locals : assignments :=
  {| stmts := []; DPT_flag := Some 0; IAO := None; albedo_flag := 1 |}.

(** What the chain prints. *)
Definition chain_printed (site : string) (year : Z) : list string :=
  printed (station_year_chain site year).

(** The albedo series with the fixed bias added. *)
Definition biased (df : list raw_row) : list cell :=
  map (fun x => cell_add x (Some 0.034%Q)) (map Albedo_theta_lt_70d df).

(** The same series, or all NaN when the branch cleared [albedo_flag]. *)
Definition returned_albedo (site : string) (df : list raw_row) (year : Z)
  : list cell :=
  if entry_albedo_flag site year =? 0 then map (fun _ => nan) (biased df)
  else biased df.

(** [albedo_flag] after the test on an all-NaN albedo series. *)
Definition albedo_flag_before_detection (site : string) (df : list raw_row)
    (year : Z) : Z :=
  if (count_nan (returned_albedo site df year)
      =? length (returned_albedo site df year))%nat
  then 0 else entry_albedo_flag site year.

(** The warning printed when the final [else] of a station was taken. *)
Definition no_processing_warning (site : string) (year : Z) : string :=
  "WARNING: No processing available for " +:+ site +:+ " " +:+ pretty year.

(** What [DPT_processing] prints after the chain. *)
Definition flag_printed (site : string) (year : Z) : list string :=
  if (chain_locals site year).2 =? 1 then [no_processing_warning site year]
  else [].

(** The mask [(doy < IAO) & (doy > IAO - 45)] for an integer [IAO]. *)
Definition pre_onset_window (i : Z) (doy : list Z) : list bool :=
  map (fun d => (d <? i) && (d >? i - 45)) doy.

(** The depth series once its pre-onset mean has been subtracted. *)
Definition baselined (i : Z) (doy : list Z) (z : list cell) : list cell :=
  map (fun x => cell_sub x (nanmean (select (pre_onset_window i doy) z))) z.

(** The [try] block: the day of the first sample after [i] below -0.06. *)
Definition detect (i : Z) (doy : list Z) (z : list cell) : option Z :=
  let after := map (fun d => d >? i) doy in
  match np_where (map (fun x => relop_cell op_lt x (-0.06)%Q) (select after z)) with
  | indx :: _ => select after doy !! indx
  | [] => None
  end.

(** Sample [k] lies after day [i] and its depth is below -0.06. *)
Definition excursion_at (i : Z) (doy : list Z) (z : list cell) (k : nat) : Prop :=
  exists d v, doy !! k = Some d /\ z !! k = Some (Some v) /\ i < d /\ (v < -0.06)%Q.

(** The final [else: no_proc = 1] of a station is reached. *)
Definition takes_final_else (site : string) (year : Z) : Prop :=
  exists bs, site_rules_of site correction_table = Some (by_year bs true)
             /\ find_branch year bs = None.

(** A row of a station file. *)
Definition observation (y d : Z) (depth albedo air boom : cell) : raw_row :=
  {| Year := y; DayOfYear := d; DepthPressureTransducer_Cor := depth;
     Albedo_theta_lt_70d := albedo; AirTemperature := air;
     HeightSensorBoom := boom |}.

(** The albedo is still valid when detection starts: the branch did not
    clear [albedo_flag] and some albedo sample is a number. *)
Definition albedo_valid (site : string) (df : list raw_row) (year : Z) : Prop :=
  entry_albedo_flag site year = 1
  /\ exists r q, r ∈ df /\ Albedo_theta_lt_70d r = Some q.

(** The specification's reading of a correction entry: an ordered list of
    adjustments, each with a predicate on the day and on the current value
    of the sample.  [mask_holds] is the predicate and [adjust_cell] the
    adjustment, for one sample. *)
Definition mask_holds (m : list cond) (d : Z) (x : cell) : bool :=
  forallb (fun cd => eval_cond cd d x) m.

Definition adjust_cell (s : stmt) (d : Z) (x : cell) : cell :=
  match s with
  | isub m c => if mask_holds m d x then cell_sub x (Some c) else x
  | iadd m c => if mask_holds m d x then cell_add x (Some c) else x
  | isub_nan m => if mask_holds m d x then cell_sub x nan else x
  | assign m c => if mask_holds m d x then Some c else x
  | assign_nan m => if mask_holds m d x then nan else x
  | isub_z m m' =>
      if mask_holds m d x then
        (if mask_holds m' d x then cell_sub x x else nan)
      else x
  | assign_nans (day d') => if d' =? d then nan else x
  | assign_nans (days l) => foldl (fun x d' => if d' =? d then nan else x) x l
  end.

(** The adjustments of a list applied in order to one sample. *)
Definition adjust_cell_in_order (ss : list stmt) (d : Z) (x : cell) : cell :=
  foldl (fun x s => adjust_cell s d x) x ss.

(** The flags and the BID of a row are those returned by [DPT_processing]
    on the rows of its year. *)
Definition from_DPT (site : string) (df : list raw_row) (r : Proc.row) : Prop :=
  exists out z albedo,
    DPT_processing site (filter (fun x => Year x = Proc.Year r) df) (Proc.Year r)
    = (out, inr (z, albedo, Proc.DPT_flag r, Proc.BID r, Proc.Albedo_flag r)).

(** Under which of the two column names a row holds the boom height [h]:
    [HeightSensorBoom_m] in the frame of the first year, and
    [Height_sensor_boom_m] in the frames appended after it; the other
    column is NaN. *)
Definition boom_stored (first : bool) (h : cell) (r : Proc.row) : Prop :=
  if first then
    Proc.HeightSensorBoom_m r = h /\ Proc.Height_sensor_boom_m r = nan
  else
    Proc.Height_sensor_boom_m r = h /\ Proc.HeightSensorBoom_m r = nan.

(** Every row of the table built over all years carries the result of
    [DPT_processing] for its year, and holds the boom height of a raw row of
    that year under [HeightSensorBoom_m] when the year is the first one of
    the file, under [Height_sensor_boom_m] otherwise. *)
Definition row_of_all_years (site : string) (df : list raw_row)
    (r : Proc.row) : Prop :=
  from_DPT site df r
  /\ forall r0 rest, df = r0 :: rest ->
       exists x, x ∈ df /\ Year x = Proc.Year r
                 /\ boom_stored (bool_decide (Proc.Year r = Year r0))
                                (HeightSensorBoom x) r.

(** The rows of one year that fall in the window around [BID]. *)
Definition window_rows (dt year BID : Z) (df_corr : Proc.table) : list Proc.row :=
  filter (fun r => BID - dt <= Proc.DOY r /\ Proc.DOY r <= BID + dt)
         (filter (fun r => Proc.Year r = year) (Proc.rows df_corr)).

(** The re-based boom height: the mean of columns [dt+10 .. dt+29] minus
    the column. *)
Definition rebased (dt : Z) (boom : list cell) : list cell :=
  map (fun x => cell_sub
                  (nanmean (slice (Z.to_nat (dt + 10)) (Z.to_nat (dt + 30)) boom)) x)
      boom.

(** The table that [BIC_composite] builds for a station file. *)
Definition processed (f : promice_file) (df_corr : Proc.table) : Prop :=
  table f <> [] /\
  exists out,
    BIC_processing (station f) yr_all (Some (map normalise (table f)))
    = (out, inr df_corr).

(** A station-year of the directory for which [DPT_processing] returns
    confidence flag 3, albedo flag 1 and a detected BID. *)
Definition qualifying (files : list promice_file) (s : string) (y : Z) : Prop :=
  exists f out z albedo BID,
    file_of s files = Some f /\
    DPT_processing s (filter (fun r => Year r = y) (map normalise (table f))) y
    = (out, inr (z, albedo, 3, Some BID, 1)).

(** The row label of a station-year. *)
Definition label_of (s : string) (y : Z) : string :=
  replace_space (s +:+ " " +:+ pretty y).

(** The four matrices of the output dictionary. *)
Definition matrices (comp : composite) : list labelled :=
  [air_temperature_degrees comp; ice_ablation_meters comp;
   snow_height_meters comp; albedo_unitless comp].

(** A station file with a full window around the bare-ice day of 2012
    (days 125..220, depth 0 up to day 169 and -1 after) and a boom height
    that is 0 except for 21 on day 200. *)
Definition boom_step_at_200 : list promice_file :=
  [ {| station := "KAN_M";
       table :=
         observation 2011 200 (Some 0%Q) (Some 0.8%Q) (Some 0%Q) (Some 0%Q)
         :: map (fun d => observation 2012 d
                            (Some (if d <=? 169 then 0 else -1)%Q)
                            (Some 0.8%Q) (Some 1%Q)
                            (Some (if d =? 200 then 21 else 0)%Q))
                (seqZ 125 96) |} ].

(** A station file with two years; the first one, 2012, is stacked. *)
Definition two_years : list promice_file :=
  [ {| station := "KAN_M";
       table :=
         [observation 2012 160 (Some 0.1%Q) (Some 0.8%Q) (Some 1%Q) (Some 2%Q);
          observation 2012 165 (Some 0.3%Q) (Some 0.8%Q) (Some 1%Q) (Some 2%Q);
          observation 2012 170 (Some 0.2%Q) (Some 0.7%Q) (Some 1%Q) (Some 2%Q);
          observation 2012 171 (Some 0.1%Q) (Some 0.6%Q) (Some 3%Q) (Some 2%Q);
          observation 2012 172 (Some 0%Q) (Some 0.5%Q) (Some 1%Q) (Some 2%Q);
          observation 2013 100 (Some 0%Q) (Some 0.8%Q) (Some 1%Q) (Some 2%Q)] |} ].

(** The composite of [two_years] for [dt = 2]. *)
Definition two_years_composite : composite :=
  Eval vm_compute in
    match returned (BIC_composite two_years 2) with
    | inr comp => comp
    | inl _ => labelled_composite 2 []
    end.

(** A station whose record starts on day 160 of 2012; the air temperature
    of a day is the number of the day. *)
Definition record_from_day_160 : list promice_file :=
  [ {| station := "KAN_M";
       table :=
         map (fun d => observation 2012 d
                         (Some (if d <=? 169 then 0 else -1)%Q)
                         (Some 0.8%Q) (Some (inject_Z d)) (Some 2%Q))
             (seqZ 160 61)
         ++ [observation 2013 1 (Some 0%Q) (Some 0.8%Q) (Some 0%Q) (Some 2%Q)] |} ].

(** * More of the source

    ** The station name read off a file name ([load_data], [BIC_composite]) *)

(** [s.split(sep)] for a one-character separator: the pieces between the
    separators, always at least one. *)
Fixpoint split (sep : ascii) (s : string) : list string :=
  match s with
  | EmptyString => [EmptyString]
  | String c s' =>
      if Ascii.eqb c sep then EmptyString :: split sep s'
      else match split sep s' with
           | w :: ws => String c w :: ws
           | [] => [String c EmptyString]
           end
  end.

(** Indexing a list, [l[i]]. *)
Definition item {A : Type} (l : list A) (i : nat) : M A :=
  match l !! i with
  | Some x => ret x
  | None => raise (IndexError "list index out of range")
  end.

(** [l[-1]]. *)
Definition last_item {A : Type} (l : list A) : M A :=
  match last l with
  | Some x => ret x
  | None => raise (IndexError "list index out of range")
  end.

(** The site-name extraction at the head of [load_data] (with [sep] the
    character "/") and in the loop over the files of [BIC_composite] (with
    [sep] the character of [os.sep]). *)
Definition site_name (sep : ascii) (file : string) : M string :=
  do base <- last_item (split sep file);
  do first <- item (split "_" base) 0;
  do base' <- last_item (split sep file);
  do second <- item (split "_" base') 1;
  let site := first +:+ "_" +:+ second in
  if String.eqb (substring 0 3 site) "MIT"
     || String.eqb (substring 0 3 site) "EGP"
     || String.eqb (substring 0 3 site) "CEN"
  then item (split "_" site) 0
  else ret site.

(** The character [c] does not occur in [s]. *)
Fixpoint lacks (c : ascii) (s : string) : bool :=
  match s with
  | EmptyString => true
  | String c' s' => negb (Ascii.eqb c' c) && lacks c s'
  end.

(** The test [site[:3] == "MIT" or ...] on a site name. *)
Definition single_token_station (site : string) : bool :=
  String.eqb (substring 0 3 site) "MIT"
  || String.eqb (substring 0 3 site) "EGP"
  || String.eqb (substring 0 3 site) "CEN".

(** ** Notions for the further properties *)

(** A cell that is not the invalid value -999. *)
Definition not_invalid (x : cell) : Prop :=
  forall q, x = Some q -> ~ (q == -999)%Q.

(** The message of [load_data] for an empty selection. *)
Definition not_available : string := "ERROR: Selected year not available".

(** The days that a call of [assign_nans] lists. *)
Definition days_of (ds : days_arg) : list Z :=
  match ds with
  | day d => [d]
  | days l => l
  end.

(** The stations that the chain of [DPT_processing] names. *)
Definition station_names : list string := map fst correction_table.

(** The station-years for which the chain assigns nothing to [DPT_flag]:
    a station that the chain does not name, and THU_U2, whose branches have
    no final [else], outside 2018 and 2019. *)
Definition leaves_flag_unbound (site : string) (year : Z) : bool :=
  negb (bool_decide (site ∈ station_names))
  || (String.eqb site "THU_U2" && negb (year =? 2018) && negb (year =? 2019)).

(** A statement of the form [z[mask] = c], the only one that can give a
    missing sample a value. *)
Definition is_assign (s : stmt) : bool :=
  match s with
  | assign _ _ => true
  | _ => false
  end.

(** A boolean property of a station, a year and a branch body holds of
    every branch of the table, at every year its guard admits. *)
Definition table_forallb_at (P : string -> Z -> assignments -> bool) : bool :=
  forallb
    (fun sr : string * site_rules =>
       match sr.2 with
       | by_year bs _ =>
           forallb (fun b : branch =>
                      forallb (fun y => P sr.1 y (b.2 y)) (years_of b.1)) bs
       | accumulation_area => true
       end)
    correction_table.

(** The two station-years whose branch assigns a depth to missing samples
    ([z[(doy >= 260) & (np.isnan(z))] = ...] of KAN_L). *)
Definition fills_missing_depth (site : string) (year : Z) : bool :=
  String.eqb site "KAN_L" && ((year =? 2009) || (year =? 2010)).

(** The table after the frames [ts] were put below [acc] by the loop of
    [BIC_processing]: the first frame starts the table, every later one is
    appended. *)
Definition append_frames (acc : option Proc.table) (ts : list Proc.table)
  : option Proc.table :=
  foldl (fun a t => Some (match a with
                          | Some p => Proc.append p t
                          | None => t
                          end)) acc ts.

(** What identifies an observation in a station file and in the processed
    table: its year, its day and its air temperature. *)
Definition raw_key (x : raw_row) : Z * Z * cell :=
  (Year x, DayOfYear x, AirTemperature x).

Definition row_key (r : Proc.row) : Z * Z * cell :=
  (Proc.Year r, Proc.DOY r, Proc.Air_temperature_C r).

(** The rows of [df] grouped by year, the years in order of first
    occurrence. *)
Definition grouped_by_year (df : list raw_row) : list raw_row :=
  flat_map (fun y => filter (fun x => Year x = y) df)
           (Counter_keys (map Year df)).

(** The depth series as the specification reads a correction entry: every
    sample adjusted on its own, by the adjustments of the branch in table
    order, each one looking at the value that the ones before it left. *)
Definition adjusted_in_order (site : string) (df : list raw_row) (year : Z)
  : list cell :=
  map (fun r => adjust_cell_in_order (stmts (chain_locals site year).1)
                  (DayOfYear r) (DepthPressureTransducer_Cor r)) df.

(** * Properties *)

(** ** What the chain decides for a station-year *)

Lemma existsb_eqb_elem_of (y : Z) (ys : list Z) :
  existsb (Z.eqb y) ys = true -> y ∈ ys.
Proof.
  induction ys as [|x ys IH]; simpl; [discriminate|].
  intros H. apply orb_true_iff in H as [H|H].
  - apply Z.eqb_eq in H. subst. left.
  - right. auto.
Qed.

Lemma guard_holds_years_of (g : year_guard) (year : Z) :
  guard_holds g year = true -> year ∈ years_of g.
Proof.
  destruct g as [y|ys|a b|a b]; simpl; intros H.
  - apply Z.eqb_eq in H. subst. left.
  - by apply existsb_eqb_elem_of.
  - apply andb_true_iff in H as [H1 H2].
    apply elem_of_seqZ. lia.
  - by apply existsb_eqb_elem_of.
Qed.

Lemma forallb_elem_of {A : Type} (f : A -> bool) (l : list A) (x : A) :
  forallb f l = true -> x ∈ l -> f x = true.
Proof.
  intros H Hx. apply list_elem_of_In in Hx.
  rewrite forallb_forall in H. auto.
Qed.

Lemma find_branch_Some (year : Z) (bs : list branch) (a : assignments) :
  find_branch year bs = Some a ->
  exists b, b ∈ bs /\ guard_holds b.1 year = true /\ a = b.2 year.
Proof.
  induction bs as [|[g body] bs IH]; simpl; [discriminate|].
  destruct (guard_holds g year) eqn:Hg.
  - intros [= <-]. exists (g, body). split; [left|done].
  - intros H. destruct (IH H) as (b & Hb & Hgb & ->).
    exists b. split; [by right|done].
Qed.

Lemma site_rules_of_Some (site : string) (tbl : list (string * site_rules))
    (r : site_rules) :
  site_rules_of site tbl = Some r -> (site, r) ∈ tbl.
Proof.
  induction tbl as [|[s r'] tbl IH]; simpl; [discriminate|].
  destruct (String.eqb site s) eqn:Hs.
  - apply String.eqb_eq in Hs. intros [= <-]. subst. left.
  - intros H. right. auto.
Qed.

(** The three ways the chain can leave the locals. *)
Lemma chain_locals_cases (site : string) (year : Z) :
  (exists sr b, sr ∈ correction_table /\
     (exists e, sr.2 = by_year e.1 e.2 /\ b ∈ e.1) /\
     year ∈ years_of b.1 /\ chain_locals site year = (b.2 year, 0))
  \/ (exists np, chain_locals site year = (unassigned, np))
  \/ chain_locals site year = (accumulation_locals, 0).
Proof.
  unfold chain_locals, station_year_chain.
  destruct (site_rules_of site correction_table) as [[bs e|]|] eqn:Hs.
  - destruct (find_branch year bs) as [a|] eqn:Hb.
    + left. apply site_rules_of_Some in Hs.
      apply find_branch_Some in Hb as (b & Hb & Hg & ->).
      exists (site, by_year bs e), b. simpl.
      split; [done|]. split; [by exists (bs, e)|].
      split; [by apply guard_holds_years_of|done].
    + right. left. eexists. reflexivity.
  - right. right. reflexivity.
  - right. left. eexists. reflexivity.
Qed.

(** A property checked on the table holds of the locals of every
    station-year. *)
Lemma table_forallb_sound (P : assignments -> bool) (site : string) (year : Z) :
  table_forallb P = true ->
  P unassigned = true ->
  P accumulation_locals = true ->
  P (chain_locals site year).1 = true.
Proof.
  intros Ht Hu Ha.
  destruct (chain_locals_cases site year)
    as [(sr & b & Hsr & ([bs e] & Hby & Hb) & Hy & ->)|[[np ->]| ->]];
    [|done|done].
  simpl in *. unfold table_forallb in Ht.
  pose proof (forallb_elem_of _ _ _ Ht Hsr) as H1. simpl in H1.
  rewrite Hby in H1.
  pose proof (forallb_elem_of _ _ _ H1 Hb) as H2. simpl in H2.
  exact (forallb_elem_of _ _ _ H2 Hy).
Qed.

(** Every branch that sets [DPT_flag] to 3 also sets [IAO]. *)
Lemma flag_3_has_IAO (site : string) (year : Z) :
  confidence_flag site year = Some 3 ->
  exists i, approximate_onset_day site year = Some i.
Proof.
  unfold confidence_flag, approximate_onset_day.
  pose proof (table_forallb_sound
    (fun a => match DPT_flag a with
              | Some 3 => match IAO a with Some _ => true | None => false end
              | _ => true
              end) site year) as H.
  destruct (chain_locals site year) as [a np]. simpl in *.
  destruct (np =? 1); [discriminate|].
  intros Hf. rewrite Hf in H.
  destruct (IAO a) as [i|]; [by exists i|].
  discriminate H; by vm_compute.
Qed.

(** Only branches with [DPT_flag = 3] clear [albedo_flag]. *)
Lemma albedo_flag_cleared_only_at_3 (site : string) (year : Z) (f : Z) :
  confidence_flag site year = Some f -> f <> 3 ->
  entry_albedo_flag site year = 1.
Proof.
  unfold confidence_flag, entry_albedo_flag.
  pose proof (table_forallb_sound
    (fun a => match DPT_flag a with
              | Some 3 => true
              | _ => albedo_flag a =? 1
              end) site year) as H.
  pose proof (chain_locals_cases site year) as Hc.
  destruct (chain_locals site year) as [a np]. simpl in *.
  assert (Ha : match DPT_flag a with Some 3 => true | _ => albedo_flag a =? 1 end = true)
    by (apply H; by vm_compute).
  destruct (np =? 1) eqn:Hnp.
  - intros _ _. apply Z.eqb_eq in Hnp. subst np.
    destruct Hc as [(sr & b & _ & _ & _ & Hc)|[(np' & Hc)|Hc]];
      injection Hc as Ha' Hnp; [discriminate|by subst a|discriminate].
  - intros Hf Hne. rewrite Hf in Ha.
    destruct (decide (f = 3)) as [->|_]; [done|].
    apply Z.eqb_eq.
    destruct f as [|[p|p|]|p]; try done.
    destruct p as [p|p|]; try done.
Qed.

(** ** Lengths are preserved by the statements *)

Lemma length_update_where (mask : list bool) (f : cell -> cell) (s : list cell) :
  length mask = length s -> length (update_where mask f s) = length s.
Proof. intros H. unfold update_where. rewrite length_zip_with. lia. Qed.

Lemma length_eval_mask (m : list cond) (doy : list Z) (z : list cell) :
  length doy = length z -> length (eval_mask m doy z) = length z.
Proof. intros H. unfold eval_mask. rewrite length_zip_with. lia. Qed.

Lemma length_set_nan_on (d : Z) (doy : list Z) (z : list cell) :
  length doy = length z -> length (set_nan_on d doy z) = length z.
Proof.
  intros H. unfold set_nan_on. apply length_update_where.
  by rewrite length_map.
Qed.

Lemma length_exec_stmt (doy : list Z) (z : list cell) (s : stmt) :
  length doy = length z -> length (exec_stmt doy z s) = length z.
Proof.
  intros H.
  destruct s as [m c|m c|m|m c|m|m m'|ds]; simpl;
    try (apply length_update_where; by apply length_eval_mask).
  - unfold exec_isub_z. rewrite length_zip_with, length_zip.
    rewrite !length_eval_mask by done. lia.
  - destruct ds as [d|l]; simpl; [by apply length_set_nan_on|].
    revert z H. induction l as [|d l IH]; intros z H; simpl; [done|].
    rewrite IH; rewrite length_set_nan_on; done.
Qed.

Lemma length_exec_stmts (doy : list Z) (ss : list stmt) (z : list cell) :
  length doy = length z -> length (exec_stmts doy ss z) = length z.
Proof.
  unfold exec_stmts. revert z.
  induction ss as [|s ss IH]; intros z H; simpl; [done|].
  rewrite IH; rewrite length_exec_stmt; done.
Qed.

Lemma length_adjusted_depth (site : string) (df : list raw_row) (year : Z) :
  length (adjusted_depth site df year) = length df.
Proof.
  unfold adjusted_depth.
  rewrite length_exec_stmts; rewrite !length_map; done.
Qed.

(** ** The shape of [DPT_processing] *)

Lemma station_year_chain_eq (site : string) (year : Z) :
  station_year_chain site year
  = (chain_printed site year, inr (chain_locals site year)).
Proof.
  unfold chain_printed, chain_locals, station_year_chain.
  destruct (site_rules_of site correction_table) as [[bs e|]|]; [|done|done].
  by destruct (find_branch year bs).
Qed.

Lemma select_none {A : Type} (doy : list Z) (s : list A) :
  select (map (fun _ => false) doy) s = [].
Proof.
  revert s. induction doy as [|d doy IH]; intros [|x s]; simpl; auto.
Qed.

Lemma map_sub_nan (z : list cell) :
  map (fun x => cell_sub x nan) z = replicate (length z) nan.
Proof.
  induction z as [|[x|] z IH]; simpl; [done|by rewrite IH..].
Qed.

(** With a confidence flag other than 3, [DPT_processing] returns: the
    depth series entirely NaN, the albedo of the entry, no BID. *)
Lemma DPT_processing_other_flag (site : string) (df : list raw_row)
    (year f : Z) :
  confidence_flag site year = Some f -> f <> 3 ->
  DPT_processing site df year
  = (chain_printed site year ++ flag_printed site year,
     inr (replicate (length df) nan, returned_albedo site df year, f, None,
          albedo_flag_before_detection site df year)).
Proof.
  intros Hf Hne.
  unfold DPT_processing, albedo_flag_before_detection, returned_albedo,
    entry_albedo_flag, flag_printed, biased.
  pose proof (length_adjusted_depth site df year) as Hlen.
  unfold confidence_flag in Hf. unfold adjusted_depth in Hlen.
  rewrite station_year_chain_eq.
  destruct (chain_locals site year) as [a np]. simpl in *.
  assert (Hf3 : (f =? 3) = false) by by apply Z.eqb_neq.
  destruct (np =? 1); simpl.
  - injection Hf as <-. simpl.
    rewrite select_none. simpl. rewrite map_sub_nan, Hlen.
    by rewrite ?app_nil_r.
  - rewrite Hf. simpl. rewrite Hf3. simpl.
    rewrite select_none. simpl. rewrite map_sub_nan, Hlen.
    by rewrite ?app_nil_r.
Qed.

(** With confidence flag 3, [DPT_processing] returns the baselined series
    and runs the detection when the albedo flag is still 1. *)
Lemma DPT_processing_flag_3 (site : string) (df : list raw_row) (year i : Z) :
  confidence_flag site year = Some 3 ->
  approximate_onset_day site year = Some i ->
  let doy := map DayOfYear df in
  let z := baselined i doy (adjusted_depth site df year) in
  let af := albedo_flag_before_detection site df year in
  DPT_processing site df year
  = (chain_printed site year,
     inr (z, returned_albedo site df year, 3,
          (if af =? 1 then detect i doy z else None),
          (if af =? 1 then match detect i doy z with Some _ => af | None => 0 end
           else af))).
Proof.
  intros Hf Hi. simpl.
  unfold DPT_processing, albedo_flag_before_detection, returned_albedo,
    entry_albedo_flag, biased, adjusted_depth, detect, baselined,
    pre_onset_window.
  unfold confidence_flag in Hf. unfold approximate_onset_day in Hi.
  rewrite station_year_chain_eq.
  destruct (chain_locals site year) as [a np]. simpl in *.
  destruct (np =? 1); [discriminate|]. simpl.
  rewrite Hf. simpl. rewrite Hi. simpl.
  repeat match goal with
  | |- context [if ?b then _ else _] => destruct b eqn:?; simpl
  | |- context [match np_where ?l with _ => _ end] => destruct (np_where l); simpl
  | |- context [match ?l !! ?k with _ => _ end] => destruct (l !! k); simpl
  end; rewrite ?app_nil_r; try reflexivity; try discriminate;
    by simplify_eq.
Qed.

(** ** Detection returns the first excursion *)

Lemma Qltb_lt (x y : Q) : Qltb x y = true <-> (x < y)%Q.
Proof.
  unfold Qltb. rewrite negb_true_iff.
  split.
  - intros H. apply Qnot_le_lt. intros Hle.
    apply Qle_bool_iff in Hle. congruence.
  - intros H. destruct (Qle_bool y x) eqn:E; [|done].
    apply Qle_bool_iff in E. exfalso. by apply (Qlt_not_le x y).
Qed.

Lemma excursion_at_0 (i d : Z) (x : cell) (doy : list Z) (z : list cell) :
  excursion_at i (d :: doy) (x :: z) 0
  <-> (d >? i) = true /\ relop_cell op_lt x (-0.06)%Q = true.
Proof.
  unfold excursion_at. simpl. split.
  - intros (d' & v & [= <-] & [= ->] & Hd & Hv). simpl.
    split; [lia|by apply Qltb_lt].
  - intros [Hd Hv]. destruct x as [v|]; [|discriminate].
    exists d, v. simpl in Hv. apply Qltb_lt in Hv.
    repeat split; [lia|done].
Qed.

Lemma excursion_at_S (i d : Z) (x : cell) (doy : list Z) (z : list cell) (k : nat) :
  excursion_at i (d :: doy) (x :: z) (S k) <-> excursion_at i doy z k.
Proof. reflexivity. Qed.

Lemma np_where_from_S (n : nat) (mask : list bool) :
  np_where_from (S n) mask = map S (np_where_from n mask).
Proof.
  revert n. induction mask as [|b mask IH]; intros n; simpl; [done|].
  destruct b; simpl; by rewrite IH.
Qed.

Lemma detect_cons (i d : Z) (x : cell) (doy : list Z) (z : list cell) :
  detect i (d :: doy) (x :: z)
  = if d >? i then
      if relop_cell op_lt x (-0.06)%Q then Some d else detect i doy z
    else detect i doy z.
Proof.
  unfold detect, np_where. simpl.
  destruct (d >? i); [|done]. simpl.
  destruct (relop_cell op_lt x (-0.06)%Q); [done|].
  simpl. rewrite np_where_from_S.
  by destruct (np_where_from 0 _).
Qed.

Lemma detect_spec (i : Z) (doy : list Z) (z : list cell) :
  length doy = length z ->
  match detect i doy z with
  | Some d =>
      exists k, doy !! k = Some d /\ excursion_at i doy z k /\
                forall j, (j < k)%nat -> ~ excursion_at i doy z j
  | None => forall k, ~ excursion_at i doy z k
  end.
Proof.
  revert z. induction doy as [|d doy IH]; intros [|x z] Hlen; try discriminate.
  - intros k (d & v & Hd & _). discriminate.
  - injection Hlen as Hlen. specialize (IH z Hlen).
    rewrite detect_cons.
    destruct (d >? i) eqn:Hd;
      [destruct (relop_cell op_lt x (-0.06)%Q) eqn:Hx|].
    + exists 0%nat. split; [done|]. split; [by apply excursion_at_0|lia].
    + destruct (detect i doy z) as [d'|].
      * destruct IH as (k & Hk & He & Hfirst).
        exists (S k). split; [done|]. split; [done|].
        intros [|j] Hj.
        -- rewrite excursion_at_0. intros [_ H]. congruence.
        -- rewrite excursion_at_S. apply Hfirst. lia.
      * intros [|k]; [rewrite excursion_at_0; intros [_ H]; congruence|].
        rewrite excursion_at_S. apply IH.
    + destruct (detect i doy z) as [d'|].
      * destruct IH as (k & Hk & He & Hfirst).
        exists (S k). split; [done|]. split; [done|].
        intros [|j] Hj.
        -- rewrite excursion_at_0. intros [H _]. congruence.
        -- rewrite excursion_at_S. apply Hfirst. lia.
      * intros [|k]; [rewrite excursion_at_0; intros [H _]; congruence|].
        rewrite excursion_at_S. apply IH.
Qed.

Lemma length_baselined (i : Z) (doy : list Z) (z : list cell) :
  length (baselined i doy z) = length z.
Proof. unfold baselined. by rewrite length_map. Qed.

(** ** The albedo flag before detection *)

Lemma count_nan_all (s : list cell) :
  count_nan s = length s <-> Forall (fun x => x = nan) s.
Proof.
  unfold count_nan. induction s as [|x s IH]; simpl.
  - split; [constructor|done].
  - pose proof (length_filter (fun x => isnan x = true) s) as Hle.
    destruct x as [q|].
    + rewrite filter_cons_False by done. split; [lia|].
      intros H. inversion H. discriminate.
    + rewrite filter_cons_True by done. simpl. split.
      * intros H. constructor; [done|]. apply IH. lia.
      * intros H. inversion H; subst. f_equal. by apply IH.
Qed.

Lemma biased_nan_iff (df : list raw_row) :
  Forall (fun x => x = nan) (biased df)
  <-> Forall (fun r => Albedo_theta_lt_70d r = nan) df.
Proof.
  unfold biased. rewrite !Forall_fmap. apply Forall_iff.
  intros r. simpl. destruct (Albedo_theta_lt_70d r); simpl; split; done.
Qed.

(** The albedo flag is still 1 before detection exactly when the branch
    left it at 1 and some albedo sample is a number. *)
Lemma albedo_flag_before_detection_1 (site : string) (df : list raw_row)
    (year : Z) :
  albedo_flag_before_detection site df year = 1
  <-> entry_albedo_flag site year = 1
      /\ exists r q, r ∈ df /\ Albedo_theta_lt_70d r = Some q.
Proof.
  unfold albedo_flag_before_detection, returned_albedo.
  destruct (entry_albedo_flag site year =? 0) eqn:H0.
  - apply Z.eqb_eq in H0. rewrite H0.
    destruct (_ =? _)%nat; split; try done; intros [? _]; done.
  - destruct (_ =? _)%nat eqn:Hc.
    + apply Nat.eqb_eq, count_nan_all, biased_nan_iff in Hc.
      split; [done|]. intros [_ (r & q & Hr & Hq)].
      rewrite Forall_forall in Hc. specialize (Hc r Hr).
      unfold nan in Hc. congruence.
    + apply Nat.eqb_neq in Hc. split; [|by intros [? _]].
      intros H1. split; [done|].
      rewrite count_nan_all, biased_nan_iff in Hc.
      apply not_Forall_Exists in Hc; [|intros r; apply _].
      apply Exists_exists in Hc as (r & Hr & Hq).
      destruct (Albedo_theta_lt_70d r) as [q|] eqn:E; [|done].
      by exists r, q.
Qed.

(** ** Means of shifted series *)

Lemma select_map {A B : Type} (f : A -> B) (mask : list bool) (s : list A) :
  select mask (map f s) = map f (select mask s).
Proof.
  revert s. induction mask as [|b mask IH]; intros [|x s]; simpl; try done.
  destruct b; simpl; by rewrite IH.
Qed.

Lemma select_lookup {A : Type} (mask : list bool) (s : list A) (k : nat) (x : A) :
  mask !! k = Some true -> s !! k = Some x -> x ∈ select mask s.
Proof.
  revert s k. induction mask as [|b mask IH]; intros [|y s] [|k]; simpl; try done.
  - intros [= ->] [= ->]. left.
  - intros Hm Hs. destruct b; [right|]; eauto.
Qed.

Lemma present_sub_r (mu : Q) (s : list cell) :
  present (map (fun x => cell_sub x (Some mu)) s)
  = map (fun q => (q - mu)%Q) (present s).
Proof.
  induction s as [|[q|] s IH]; simpl; [done| |done].
  by rewrite IH.
Qed.

Lemma present_sub_l (mu : Q) (s : list cell) :
  present (map (fun x => cell_sub (Some mu) x) s)
  = map (fun q => (mu - q)%Q) (present s).
Proof.
  induction s as [|[q|] s IH]; simpl; [done| |exact IH].
  f_equal. exact IH.
Qed.

Lemma present_elem_of (s : list cell) (q : Q) : Some q ∈ s -> q ∈ present s.
Proof.
  induction s as [|[q'|] s IH]; intros H.
  - by apply elem_of_nil in H.
  - apply elem_of_cons in H as [[= ->]|H]; simpl; [left|right; auto].
  - apply elem_of_cons in H as [[=]|H]; simpl; auto.
Qed.

Lemma Qsum_map_sub_r (mu : Q) (l : list Q) :
  (Qsum (map (fun q => q - mu) l)
   == Qsum l - inject_Z (Z.of_nat (length l)) * mu)%Q.
Proof.
  induction l as [|q l IH].
  - simpl. ring.
  - change (length (q :: l)) with (S (length l)).
    rewrite Nat2Z.inj_succ. unfold Z.succ. rewrite inject_Z_plus.
    simpl. rewrite IH. ring.
Qed.

Lemma Qsum_map_sub_l (mu : Q) (l : list Q) :
  (Qsum (map (fun q => mu - q) l)
   == inject_Z (Z.of_nat (length l)) * mu - Qsum l)%Q.
Proof.
  induction l as [|q l IH].
  - simpl. ring.
  - change (length (q :: l)) with (S (length l)).
    rewrite Nat2Z.inj_succ. unfold Z.succ. rewrite inject_Z_plus.
    simpl. rewrite IH. ring.
Qed.

Lemma nanmean_present (s : list cell) :
  present s <> [] ->
  nanmean s
  = Some (Qsum (present s) / inject_Z (Z.of_nat (length (present s))))%Q.
Proof. unfold nanmean. by destruct (present s). Qed.

Lemma nanmean_empty (s : list cell) : present s = [] -> nanmean s = nan.
Proof. unfold nanmean. by intros ->. Qed.

Lemma inject_length_nonzero {A : Type} (l : list A) :
  l <> [] -> ~ (inject_Z (Z.of_nat (length l)) == 0)%Q.
Proof.
  intros Hl H. destruct l as [|x l]; [done|].
  unfold Qeq in H. simpl in H. lia.
Qed.

(** After subtracting the mean, the mean is zero. *)
Lemma nanmean_sub_mean (s : list cell) (mu : Q) :
  nanmean s = Some mu ->
  exists m, nanmean (map (fun x => cell_sub x (Some mu)) s) = Some m /\ (m == 0)%Q.
Proof.
  intros Hmu.
  destruct (present s) as [|q l] eqn:Hp.
  { rewrite nanmean_empty in Hmu by done. discriminate. }
  assert (Hne : present s <> []) by (rewrite Hp; done).
  rewrite nanmean_present in Hmu by done. injection Hmu as Hmu.
  eexists. split.
  - apply nanmean_present. rewrite present_sub_r, Hp. done.
  - rewrite present_sub_r, length_map, Qsum_map_sub_r.
    pose proof (inject_length_nonzero _ Hne) as Hn.
    rewrite <- Hmu. field. exact Hn.
Qed.

(** The same when the series is subtracted from its mean. *)
Lemma nanmean_mean_sub (s : list cell) (mu : Q) :
  nanmean s = Some mu ->
  exists m, nanmean (map (fun x => cell_sub (Some mu) x) s) = Some m /\ (m == 0)%Q.
Proof.
  intros Hmu.
  destruct (present s) as [|q l] eqn:Hp.
  { rewrite nanmean_empty in Hmu by done. discriminate. }
  assert (Hne : present s <> []) by (rewrite Hp; done).
  rewrite nanmean_present in Hmu by done. injection Hmu as Hmu.
  eexists. split.
  - apply nanmean_present. rewrite present_sub_l, Hp. done.
  - rewrite present_sub_l, length_map, Qsum_map_sub_l.
    pose proof (inject_length_nonzero _ Hne) as Hn.
    rewrite <- Hmu. field. exact Hn.
Qed.

Lemma nanmean_is_Some (s : list cell) (q : Q) :
  Some q ∈ s -> exists mu, nanmean s = Some mu.
Proof.
  intros H. apply present_elem_of in H.
  eexists. apply nanmean_present. intros E. rewrite E in H.
  by apply elem_of_nil in H.
Qed.

(** ** Station-years without confidence flag 3 *)

Lemma takes_final_else_locals (site : string) (year : Z) :
  takes_final_else site year ->
  chain_locals site year = (unassigned, 1) /\ chain_printed site year = [].
Proof.
  intros (bs & Hs & Hb).
  unfold chain_locals, chain_printed, station_year_chain.
  by rewrite Hs, Hb.
Qed.

(** C1 (as stated, refuted): KPC_U 2010 has confidence flag 1, and the depth
    series returned by [DPT_processing] is not the depth series passed in:
    its only sample, 0.5, comes back as NaN. *)
Lemma C1_depth_not_passed_through :
  let df := [observation 2010 150 (Some 0.5%Q) (Some 0.8%Q) None None] in
  confidence_flag "KPC_U" 2010 = Some 1 /\
  exists out albedo BID af,
    DPT_processing "KPC_U" df 2010 = (out, inr ([nan], albedo, 1, BID, af)) /\
    [nan] <> map DepthPressureTransducer_Cor df.
Proof.
  split; [reflexivity|].
  eexists _, _, _, _. split; [vm_compute; reflexivity|discriminate].
Qed.

(** C1 (amended): for every station-year whose confidence flag is bound and
    is not 3, [DPT_processing] raises nothing and returns the depth series
    with every sample missing (the baseline is the mean of an empty
    selection), the albedo series with the fixed bias added and nothing
    else, the flag, and no BID; a station-year that reaches the final
    [else] of its station gets flag 0 and exactly one warning. *)
Theorem C1_other_flags_return_missing_depth (site : string)
    (df : list raw_row) (year f : Z) :
  confidence_flag site year = Some f -> f <> 3 ->
  exists out af,
    DPT_processing site df year
    = (out, inr (replicate (length df) nan, biased df, f, None, af))
    /\ (takes_final_else site year ->
        f = 0 /\ out = [no_processing_warning site year]).
Proof.
  intros Hf Hne.
  rewrite (DPT_processing_other_flag site df year f Hf Hne).
  eexists _, _. split.
  - unfold returned_albedo.
    by rewrite (albedo_flag_cleared_only_at_3 site year f Hf Hne).
  - intros He. apply takes_final_else_locals in He as [Hl Hp].
    unfold confidence_flag in Hf. unfold flag_printed.
    rewrite Hl in *. rewrite Hp. simpl in *. by injection Hf as <-.
Qed.

Lemma C1_other_flags_witness :
  confidence_flag "KAN_M" 2030 = Some 0 /\ 0 <> 3 /\
  exists out af,
    DPT_processing "KAN_M"
      [observation 2030 150 (Some 0.5%Q) (Some 0.8%Q) None None] 2030
    = (out, inr (replicate 1 nan,
                 biased [observation 2030 150 (Some 0.5%Q) (Some 0.8%Q) None None],
                 0, None, af))
    /\ (takes_final_else "KAN_M" 2030 ->
        0 = 0 /\ out = [no_processing_warning "KAN_M" 2030]).
Proof.
  split; [reflexivity|]. split; [lia|].
  apply (C1_other_flags_return_missing_depth "KAN_M"
           [observation 2030 150 (Some 0.5%Q) (Some 0.8%Q) None None] 2030 0);
    [reflexivity|lia].
Defined.

(** C3: for every station-year whose confidence flag is not 3,
    [DPT_processing] returns a missing BID, whatever the depth series. *)
Theorem C3_no_BID_without_flag_3 (site : string) (df : list raw_row)
    (year f : Z) :
  confidence_flag site year = Some f -> f <> 3 ->
  exists out z albedo af,
    DPT_processing site df year = (out, inr (z, albedo, f, None, af)).
Proof.
  intros Hf Hne.
  rewrite (DPT_processing_other_flag site df year f Hf Hne).
  by eexists _, _, _, _.
Qed.

Lemma C3_no_BID_witness :
  confidence_flag "THU_U" 2015 = Some 2 /\ 2 <> 3 /\
  exists out z albedo af,
    DPT_processing "THU_U"
      [observation 2015 100 (Some 0%Q) (Some 0.8%Q) None None;
       observation 2015 200 (Some (-1)%Q) (Some 0.5%Q) None None] 2015
    = (out, inr (z, albedo, 2, None, af)).
Proof.
  split; [reflexivity|]. split; [lia|].
  apply (C3_no_BID_without_flag_3 "THU_U"
           [observation 2015 100 (Some 0%Q) (Some 0.8%Q) None None;
            observation 2015 200 (Some (-1)%Q) (Some 0.5%Q) None None] 2015 2);
    [reflexivity|lia].
Defined.

(** A station without a final [else] leaves [DPT_flag] unbound for a year
    outside its branches, and so does a station the chain does not know. *)
Example THU_U2_2017_unbound :
  DPT_processing "THU_U2"
    [observation 2017 150 (Some 0.5%Q) (Some 0.8%Q) None None] 2017
  = ([], inl (UnboundLocalError "DPT_flag")).
Proof. reflexivity. Qed.

Example unknown_station_unbound :
  DPT_processing "ZAK_L"
    [observation 2017 150 (Some 0.5%Q) (Some 0.8%Q) None None] 2017
  = ([], inl (UnboundLocalError "DPT_flag")).
Proof. reflexivity. Qed.

(** ** Station-years with confidence flag 3 *)

(** C2 (as stated, refuted): NUK_L 2019 has confidence flag 3 and onset day
    97; the sample of day 100 lies after the onset day and its baselined
    depth is below -0.06, yet BID is missing, because the branch clears
    [albedo_flag]. *)
Lemma C2_excursion_without_BID :
  let df := [observation 2019 90 (Some 0%Q) (Some 0.8%Q) None None;
             observation 2019 100 (Some (-1)%Q) (Some 0.5%Q) None None] in
  confidence_flag "NUK_L" 2019 = Some 3 /\
  approximate_onset_day "NUK_L" 2019 = Some 97 /\
  exists out z albedo af,
    DPT_processing "NUK_L" df 2019 = (out, inr (z, albedo, 3, None, af)) /\
    excursion_at 97 (map DayOfYear df) z 1.
Proof.
  split; [reflexivity|]. split; [reflexivity|].
  eexists _, _, _, _. split; [vm_compute; reflexivity|].
  eexists _, _. split; [reflexivity|]. split; [reflexivity|].
  split; reflexivity.
Qed.

(** C2 (amended): for every station-year with confidence flag 3,
    [DPT_processing] returns; when the albedo is still valid, BID is the
    day of the first sample, in series order, that lies strictly after the
    onset day with a baselined depth below -0.06, and when there is no such
    sample BID is missing and the albedo flag is set to 0; when the albedo
    is not valid, BID is missing. *)
Theorem C2_BID_is_first_excursion (site : string) (df : list raw_row)
    (year : Z) :
  confidence_flag site year = Some 3 ->
  exists i out z albedo BID af,
    approximate_onset_day site year = Some i /\
    DPT_processing site df year = (out, inr (z, albedo, 3, BID, af)) /\
    (albedo_valid site df year ->
     match BID with
     | Some d =>
         af = 1 /\
         exists k, map DayOfYear df !! k = Some d /\
                   excursion_at i (map DayOfYear df) z k /\
                   forall j, (j < k)%nat -> ~ excursion_at i (map DayOfYear df) z j
     | None => af = 0 /\ forall k, ~ excursion_at i (map DayOfYear df) z k
     end) /\
    (~ albedo_valid site df year -> BID = None).
Proof.
  intros Hf. destruct (flag_3_has_IAO site year Hf) as [i Hi].
  exists i. rewrite (DPT_processing_flag_3 site df year i Hf Hi).
  eexists _, _, _, _, _. split; [done|]. split; [reflexivity|].
  pose proof (albedo_flag_before_detection_1 site df year) as Hv.
  fold (albedo_valid site df year) in Hv.
  split.
  - intros Hvalid. apply Hv in Hvalid. rewrite Hvalid. simpl.
    pose proof (detect_spec i (map DayOfYear df)
                  (baselined i (map DayOfYear df) (adjusted_depth site df year)))
      as Hd.
    rewrite length_baselined, length_adjusted_depth, length_map in Hd.
    specialize (Hd eq_refl).
    destruct (detect i _ _) as [d|]; split; done.
  - intros Hinv.
    destruct (albedo_flag_before_detection site df year =? 1) eqn:E; [|done].
    apply Z.eqb_eq in E. by apply Hv in E.
Qed.

(** The end-to-end example of the specification: onset day 150 and a depth
    that first drops below -0.06 at day 158 (SCO_L 2012). *)
Lemma C2_BID_witness :
  confidence_flag "SCO_L" 2012 = Some 3 /\
  exists i out z albedo BID af,
    approximate_onset_day "SCO_L" 2012 = Some i /\
    DPT_processing "SCO_L"
      [observation 2012 140 (Some 0%Q) (Some 0.8%Q) None None;
       observation 2012 156 (Some (-0.05)%Q) (Some 0.7%Q) None None;
       observation 2012 158 (Some (-0.07)%Q) (Some 0.6%Q) None None;
       observation 2012 159 (Some (-0.2)%Q) (Some 0.5%Q) None None] 2012
    = (out, inr (z, albedo, 3, BID, af)) /\
    (albedo_valid "SCO_L"
       [observation 2012 140 (Some 0%Q) (Some 0.8%Q) None None;
        observation 2012 156 (Some (-0.05)%Q) (Some 0.7%Q) None None;
        observation 2012 158 (Some (-0.07)%Q) (Some 0.6%Q) None None;
        observation 2012 159 (Some (-0.2)%Q) (Some 0.5%Q) None None] 2012 ->
     match BID with
     | Some d =>
         af = 1 /\
         exists k, [140; 156; 158; 159] !! k = Some d /\
                   excursion_at i [140; 156; 158; 159] z k /\
                   forall j, (j < k)%nat -> ~ excursion_at i [140; 156; 158; 159] z j
     | None => af = 0 /\ forall k, ~ excursion_at i [140; 156; 158; 159] z k
     end) /\
    (~ albedo_valid "SCO_L"
         [observation 2012 140 (Some 0%Q) (Some 0.8%Q) None None;
          observation 2012 156 (Some (-0.05)%Q) (Some 0.7%Q) None None;
          observation 2012 158 (Some (-0.07)%Q) (Some 0.6%Q) None None;
          observation 2012 159 (Some (-0.2)%Q) (Some 0.5%Q) None None] 2012 ->
     BID = None).
Proof.
  split; [reflexivity|].
  apply (C2_BID_is_first_excursion "SCO_L"
           [observation 2012 140 (Some 0%Q) (Some 0.8%Q) None None;
            observation 2012 156 (Some (-0.05)%Q) (Some 0.7%Q) None None;
            observation 2012 158 (Some (-0.07)%Q) (Some 0.6%Q) None None;
            observation 2012 159 (Some (-0.2)%Q) (Some 0.5%Q) None None] 2012).
  reflexivity.
Defined.

(** On that example BID is 158. *)
Example BID_resolves_to_158 :
  exists out z albedo,
    DPT_processing "SCO_L"
      [observation 2012 140 (Some 0%Q) (Some 0.8%Q) None None;
       observation 2012 156 (Some (-0.05)%Q) (Some 0.7%Q) None None;
       observation 2012 158 (Some (-0.07)%Q) (Some 0.6%Q) None None;
       observation 2012 159 (Some (-0.2)%Q) (Some 0.5%Q) None None] 2012
    = (out, inr (z, albedo, 3, Some 158, 1)).
Proof. eexists _, _, _. vm_compute. reflexivity. Qed.

(** C7 (as stated, refuted): NUK_U 2018 has confidence flag 3 and onset day
    161; the depth series passed in has non-missing samples on days 123 and
    124, inside the window, but the branch excludes both days, the baseline
    is NaN and the returned series has no mean over the window. *)
Lemma C7_excluded_window_has_no_mean :
  let df := [observation 2018 123 (Some 1%Q) (Some 0.8%Q) None None;
             observation 2018 124 (Some 1%Q) (Some 0.8%Q) None None;
             observation 2018 170 (Some 0%Q) (Some 0.8%Q) None None] in
  confidence_flag "NUK_U" 2018 = Some 3 /\
  approximate_onset_day "NUK_U" 2018 = Some 161 /\
  (exists k r v, df !! k = Some r /\ DepthPressureTransducer_Cor r = Some v /\
                 161 - 45 < DayOfYear r < 161) /\
  exists out z albedo BID af,
    DPT_processing "NUK_U" df 2018 = (out, inr (z, albedo, 3, BID, af)) /\
    nanmean (select (pre_onset_window 161 (map DayOfYear df)) z) = nan.
Proof.
  split; [reflexivity|]. split; [reflexivity|]. split.
  - exists 0%nat. eexists _, _. split; [reflexivity|]. split; [reflexivity|].
    simpl. lia.
  - eexists _, _, _, _, _. split; vm_compute; reflexivity.
Qed.

(** C7 (amended): for every station-year with confidence flag 3 whose depth
    series, after the statements of its branch, has a non-missing sample
    with day strictly between the onset day minus 45 and the onset day, the
    depth series returned by [DPT_processing] has mean 0 over that window
    (exactly, in rational arithmetic). *)
Theorem C7_baselined_window_mean_zero (site : string) (df : list raw_row)
    (year i : Z) (k : nat) (d : Z) (v : Q) :
  confidence_flag site year = Some 3 ->
  approximate_onset_day site year = Some i ->
  map DayOfYear df !! k = Some d ->
  adjusted_depth site df year !! k = Some (Some v) ->
  i - 45 < d < i ->
  exists out z albedo BID af m,
    DPT_processing site df year = (out, inr (z, albedo, 3, BID, af)) /\
    nanmean (select (pre_onset_window i (map DayOfYear df)) z) = Some m /\
    (m == 0)%Q.
Proof.
  intros Hf Hi Hd Hv Hwin.
  rewrite (DPT_processing_flag_3 site df year i Hf Hi).
  set (doy := map DayOfYear df) in *.
  set (adj := adjusted_depth site df year) in *.
  assert (Hin : Some v ∈ select (pre_onset_window i doy) adj).
  { apply (select_lookup _ _ k); [|done].
    unfold pre_onset_window. rewrite list_lookup_fmap, Hd. simpl.
    f_equal. apply andb_true_iff. split; lia. }
  destruct (nanmean_is_Some _ _ Hin) as [mu Hmu].
  destruct (nanmean_sub_mean _ _ Hmu) as (m & Hm & Hm0).
  exists (chain_printed site year). eexists _, _, _, _. exists m.
  split; [reflexivity|]. split; [|done].
  unfold baselined. rewrite Hmu, select_map. exact Hm.
Qed.

Lemma C7_baselined_witness :
  confidence_flag "KAN_M" 2012 = Some 3 /\
  approximate_onset_day "KAN_M" 2012 = Some 169 /\
  exists out z albedo BID af m,
    DPT_processing "KAN_M"
      [observation 2012 160 (Some 0.1%Q) (Some 0.8%Q) None None;
       observation 2012 165 (Some 0.3%Q) (Some 0.8%Q) None None;
       observation 2012 171 (Some 0.1%Q) (Some 0.6%Q) None None] 2012
    = (out, inr (z, albedo, 3, BID, af)) /\
    nanmean (select (pre_onset_window 169 [160; 165; 171]) z) = Some m /\
    (m == 0)%Q.
Proof.
  split; [reflexivity|]. split; [reflexivity|].
  apply (C7_baselined_window_mean_zero "KAN_M"
           [observation 2012 160 (Some 0.1%Q) (Some 0.8%Q) None None;
            observation 2012 165 (Some 0.3%Q) (Some 0.8%Q) None None;
            observation 2012 171 (Some 0.1%Q) (Some 0.6%Q) None None]
           2012 169 0%nat 160 0.1%Q);
    [reflexivity|reflexivity|reflexivity|reflexivity|lia].
Defined.

(** ** Statements act sample by sample, on the current value

    [exec_stmts], which updates whole series under masks, agrees with
    [adjust_cell_in_order], which adjusts one sample at a time. *)

Lemma lookup_eval_mask (m : list cond) (doy : list Z) (z : list cell)
    (k : nat) (d : Z) (x : cell) :
  doy !! k = Some d -> z !! k = Some x ->
  eval_mask m doy z !! k = Some (mask_holds m d x).
Proof.
  intros Hd Hx. unfold eval_mask. rewrite lookup_zip_with, Hd. simpl.
  by rewrite Hx.
Qed.

Lemma lookup_update_where (mask : list bool) (f : cell -> cell) (s : list cell)
    (k : nat) (b : bool) (x : cell) :
  mask !! k = Some b -> s !! k = Some x ->
  update_where mask f s !! k = Some (if b then f x else x).
Proof.
  intros Hb Hx. unfold update_where. rewrite lookup_zip_with, Hb. simpl.
  by rewrite Hx.
Qed.

Lemma lookup_set_nan_on (d' : Z) (doy : list Z) (z : list cell)
    (k : nat) (d : Z) (x : cell) :
  doy !! k = Some d -> z !! k = Some x ->
  set_nan_on d' doy z !! k = Some (if d' =? d then nan else x).
Proof.
  intros Hd Hx. unfold set_nan_on.
  apply (lookup_update_where _ (fun _ => nan) z k (d' =? d) x); [|done].
  by rewrite list_lookup_fmap, Hd.
Qed.

Lemma lookup_exec_stmt (doy : list Z) (z : list cell) (s : stmt)
    (k : nat) (d : Z) (x : cell) :
  doy !! k = Some d -> z !! k = Some x ->
  exec_stmt doy z s !! k = Some (adjust_cell s d x).
Proof.
  intros Hd Hx.
  pose proof (fun m => lookup_eval_mask m doy z k d x Hd Hx) as Hm.
  destruct s as [m c|m c|m|m c|m|m m'|ds]; simpl;
    try (by rewrite (lookup_update_where _ _ z k _ x (Hm m) Hx)).
  - unfold exec_isub_z.
    rewrite lookup_zip_with, lookup_zip_with, !Hm. simpl.
    by rewrite Hx.
  - destruct ds as [d'|l]; simpl; [by apply lookup_set_nan_on|].
    clear Hm. revert z x Hx.
    induction l as [|d' l IH]; intros z x Hx; simpl; [done|].
    apply IH. by apply lookup_set_nan_on.
Qed.

(** What [exec_stmts] leaves in a sample is the result of the adjustments
    applied in order to that sample, each one looking at the value left by
    the ones before it. *)
Lemma lookup_exec_stmts (doy : list Z) (ss : list stmt) (z : list cell)
    (k : nat) (d : Z) (x : cell) :
  doy !! k = Some d -> z !! k = Some x ->
  exec_stmts doy ss z !! k = Some (adjust_cell_in_order ss d x).
Proof.
  intros Hd. unfold exec_stmts, adjust_cell_in_order.
  revert z x. induction ss as [|s ss IH]; intros z x Hx; simpl; [done|].
  apply IH. by apply lookup_exec_stmt.
Qed.

Lemma lookup_adjusted_depth (site : string) (df : list raw_row) (year : Z)
    (k : nat) (r : raw_row) :
  df !! k = Some r ->
  adjusted_depth site df year !! k
  = Some (adjust_cell_in_order (stmts (chain_locals site year).1)
            (DayOfYear r) (DepthPressureTransducer_Cor r)).
Proof.
  intros Hr. unfold adjusted_depth.
  apply lookup_exec_stmts; by rewrite list_lookup_fmap, Hr.
Qed.

Lemma Qle_bool_true (x y : Q) : (x <= y)%Q -> Qle_bool x y = true.
Proof. apply Qle_bool_iff. Qed.

(** Had the masks of KAN_L 2009 been evaluated on the raw series, a sample
    of day 261 with raw depth -3.1 would have stayed missing: the raw value
    is a number, so the test [np.isnan(z)] would have failed. *)
Example KAN_L_2009_on_raw_value :
  mask_holds [doy_ge 260; z_isnan] 261 (Some (-3.1)%Q) = false
  /\ adjusted_depth "KAN_L"
       [observation 2009 261 (Some (-3.1)%Q) None None None] 2009
     = [Some (-3.5)%Q].
Proof. split; reflexivity. Qed.

(** ** Running the monad *)

Lemma bind_inr {A B : Type} (m : M A) (f : A -> M B) (out : list string) (b : B) :
  bind m f = (out, inr b) ->
  exists out1 a out2, m = (out1, inr a) /\ f a = (out2, inr b) /\ out = out1 ++ out2.
Proof.
  destruct m as [out1 [e|a]]; simpl; [discriminate|].
  destruct (f a) as [out2 r] eqn:Hf. intros [= <- ->].
  by exists out1, a, out2.
Qed.

Lemma bind_ret_l {A B : Type} (x : A) (f : A -> M B) : bind (ret x) f = f x.
Proof. unfold bind, ret. by destruct (f x). Qed.

Lemma ret_inr {A : Type} (x y : A) (out : list string) :
  ret x = (out, inr y) -> x = y.
Proof. by intros [= _ ->]. Qed.

(** ** [BIC_processing] on a single year *)

(** C10: when the data were loaded with a single integer year,
    [BIC_processing] never returns a table, and on every table that
    [load_data] returned it raises the unbound-local error for [y], the
    variable that only the loop of the other branch assigns. *)
Theorem C10_single_year_raises (file : promice_file) (y : Z)
    (out : list string) (site : string) (yr : year_arg)
    (promice_data : option (list raw_row)) :
  load_data file (yr_int y) = (out, inr (site, yr, promice_data)) ->
  (forall out' t, BIC_processing site yr promice_data <> (out', inr t))
  /\ (forall df, promice_data = Some df ->
      BIC_processing site yr promice_data = ([], inl (UnboundLocalError "y"))).
Proof.
  intros Hload.
  assert (Hyr : yr = yr_int y).
  { unfold load_data in Hload. simpl in Hload.
    destruct (filter _ _); simpl in Hload; by injection Hload as _ _ <- _. }
  subst yr. split.
  - intros out' t. destruct promice_data as [df|]; simpl; discriminate.
  - intros df ->. reflexivity.
Qed.

Lemma C10_single_year_witness :
  load_data
    {| station := "KAN_M";
       table := [observation 2012 160 (Some 0.1%Q) (Some 0.8%Q) (Some 1%Q) (Some 2%Q)] |}
    (yr_int 2012)
  = ([], inr ("KAN_M", yr_int 2012,
              Some [observation 2012 160 (Some 0.1%Q) (Some 0.8%Q) (Some 1%Q) (Some 2%Q)]))
  /\ (forall out' t,
        BIC_processing "KAN_M" (yr_int 2012)
          (Some [observation 2012 160 (Some 0.1%Q) (Some 0.8%Q) (Some 1%Q) (Some 2%Q)])
        <> (out', inr t))
  /\ (forall df,
        Some [observation 2012 160 (Some 0.1%Q) (Some 0.8%Q) (Some 1%Q) (Some 2%Q)]
        = Some df ->
        BIC_processing "KAN_M" (yr_int 2012)
          (Some [observation 2012 160 (Some 0.1%Q) (Some 0.8%Q) (Some 1%Q) (Some 2%Q)])
        = ([], inl (UnboundLocalError "y"))).
Proof.
  split; [reflexivity|].
  apply (C10_single_year_raises
           {| station := "KAN_M";
              table := [observation 2012 160 (Some 0.1%Q) (Some 0.8%Q) (Some 1%Q) (Some 2%Q)] |}
           2012 []).
  reflexivity.
Defined.

(** When the selected year is absent, [load_data] returns nothing and
    [BIC_processing] fails on the first attribute access instead. *)
Example single_year_not_available :
  load_data
    {| station := "KAN_M";
       table := [observation 2012 160 (Some 0.1%Q) (Some 0.8%Q) (Some 1%Q) (Some 2%Q)] |}
    (yr_int 2013)
  = (["ERROR: Selected year not available"], inr ("KAN_M", yr_int 2013, None))
  /\ BIC_processing "KAN_M" (yr_int 2013) None = ([], inl (AttributeError "copy")).
Proof. split; reflexivity. Qed.

(** ** What [DPT_processing] returns, read backwards *)

Lemma DPT_processing_flag (site : string) (df : list raw_row) (year : Z)
    (out : list string) (z albedo : list cell) (f : Z) (b : option Z) (af : Z) :
  DPT_processing site df year = (out, inr (z, albedo, f, b, af)) ->
  confidence_flag site year = Some f.
Proof.
  intros H. destruct (confidence_flag site year) as [f'|] eqn:Hf.
  - destruct (decide (f' = 3)) as [->|Hne].
    + destruct (flag_3_has_IAO site year Hf) as [i Hi].
      rewrite (DPT_processing_flag_3 site df year i Hf Hi) in H.
      by injection H as _ _ _ <- _ _.
    + rewrite (DPT_processing_other_flag site df year f' Hf Hne) in H.
      by injection H as _ _ _ <- _.
  - exfalso. unfold DPT_processing in H. unfold confidence_flag in Hf.
    rewrite station_year_chain_eq in H.
    destruct (chain_locals site year) as [a np]. simpl in *.
    destruct (np =? 1); [discriminate|].
    rewrite Hf in H. discriminate.
Qed.

(** A returned flag 3 with albedo flag 1 comes with a detected BID. *)
Lemma DPT_processing_valid_has_BID (site : string) (df : list raw_row)
    (year : Z) (out : list string) (z albedo : list cell) (b : option Z) :
  DPT_processing site df year = (out, inr (z, albedo, 3, b, 1)) ->
  exists d, b = Some d.
Proof.
  intros H. pose proof (DPT_processing_flag _ _ _ _ _ _ _ _ _ H) as Hf.
  destruct (flag_3_has_IAO site year Hf) as [i Hi].
  rewrite (DPT_processing_flag_3 site df year i Hf Hi) in H.
  injection H as _ _ _ Hb Haf.
  destruct (albedo_flag_before_detection site df year =? 1) eqn:E.
  - destruct (detect i _ _) as [d|]; [by exists d|discriminate].
  - apply Z.eqb_neq in E. congruence.
Qed.

(** ** The rows of the table built by [BIC_processing] over all years *)

Lemma frame_rows_elem (first : bool) (z albedo boom : list cell) (f : Z)
    (b : option Z) (af : Z) (df_y : list raw_row) (r : Proc.row) :
  r ∈ frame_rows first z albedo boom f b af df_y ->
  Proc.DPT_flag r = f /\ Proc.BID r = b /\ Proc.Albedo_flag r = af
  /\ exists k x h, df_y !! k = Some x /\ boom !! k = Some h
                   /\ Proc.Year r = Year x /\ boom_stored first h r.
Proof.
  unfold frame_rows. intros H.
  apply elem_of_lookup_zip_with in H as (k & c & x & -> & Hc & Hx).
  simpl. repeat split; try done.
  destruct c as [zc h].
  apply lookup_zip_Some in Hc as [_ Hh].
  exists k, x, h. repeat split; try done.
  unfold boom_stored. by destruct first.
Qed.

Lemma process_year_rows (site : string) (df : list raw_row) (i : nat) (y : Z)
    (out : list string) (t : Proc.table) :
  process_year site (Some df) i y = (out, inr t) ->
  Forall (fun r => from_DPT site df r /\ Proc.Year r = y
                   /\ exists x, x ∈ df /\ Year x = y
                                /\ boom_stored (i =? 0)%nat (HeightSensorBoom x) r)
         (Proc.rows t).
Proof.
  unfold process_year. simpl.
  destruct (DPT_processing site (filter (fun r => Year r = y) df) y)
    as [out1 [e|[[[[z albedo] f] b] af]]] eqn:HD; simpl; [discriminate|].
  intros [= _ <-]. simpl. apply Forall_forall. intros r Hr.
  apply frame_rows_elem in Hr
    as (Hf & Hb & Haf & (k & x & h & Hx & Hh & Hy & Hst)).
  rewrite list_lookup_fmap, Hx in Hh. injection Hh as <-.
  apply list_elem_of_lookup_2, list_elem_of_filter in Hx as [Hxy Hxin].
  assert (Hyr : Proc.Year r = y) by congruence.
  split; [|split; [done|]].
  - exists out1, z, albedo. by rewrite Hyr, Hf, Hb, Haf.
  - by exists x.
Qed.

Lemma BIC_loop_rows (P : Proc.row -> Prop) (site : string) (df : list raw_row)
    (years : list Z) :
  forall (i : nat) (acc : option Proc.table) (out : list string)
         (acc' : option Proc.table),
    BIC_loop site (Some df) i years acc = (out, inr acc') ->
    (forall t, acc = Some t -> Forall P (Proc.rows t)) ->
    (forall j y out' t, (i <= j)%nat -> y ∈ years ->
       process_year site (Some df) j y = (out', inr t) -> Forall P (Proc.rows t)) ->
    forall t', acc' = Some t' -> Forall P (Proc.rows t').
Proof.
  induction years as [|y years IH]; intros i acc out acc' Hloop Hacc Hstep.
  - simpl in Hloop. injection Hloop as _ <-. exact Hacc.
  - simpl in Hloop.
    apply bind_inr in Hloop as (out1 & t & out2 & Ht & Hloop & _).
    apply bind_inr in Hloop as (out3 & acc1 & out4 & Hacc1 & Hloop & _).
    apply (IH (S i) (Some acc1) out4 acc' Hloop).
    + intros t1 [= <-].
      assert (HPt : Forall P (Proc.rows t)).
      { apply (Hstep i y out1 t); [lia|left|done]. }
      destruct (i =? 0)%nat.
      * apply ret_inr in Hacc1. by subst.
      * apply bind_inr in Hacc1 as (out5 & prev & out6 & Hprev & Hret & _).
        apply ret_inr in Hret. subst acc1. simpl.
        apply Forall_app. split; [|done].
        apply Hacc. by destruct acc; [injection Hprev as _ ->|].
    + intros j y' out' t0 Hj Hy'. apply Hstep; [lia|by right].
Qed.

Lemma Counter_keys_elem_of {A : Type} `{EqDecision A} (xs : list A) (x : A) :
  x ∈ Counter_keys xs <-> x ∈ xs.
Proof.
  induction xs as [|y xs IH]; simpl; [done|].
  rewrite !elem_of_cons, list_elem_of_filter, IH.
  destruct (decide (x = y)) as [->|Hne]; [by split; [left|left]|].
  split; [intros [->|[_ Hx]]; [done|by right]|intros [->|Hx]; [done|by right]].
Qed.

Lemma Counter_keys_NoDup {A : Type} `{EqDecision A} (xs : list A) :
  NoDup (Counter_keys xs).
Proof.
  induction xs as [|y xs IH]; simpl; [constructor|].
  constructor.
  - rewrite list_elem_of_filter. by intros [Hne _].
  - by apply NoDup_filter.
Qed.

Lemma BIC_processing_all_rows (site : string) (df : list raw_row)
    (out : list string) (t : Proc.table) :
  BIC_processing site yr_all (Some df) = (out, inr t) ->
  Forall (row_of_all_years site df) (Proc.rows t).
Proof.
  unfold BIC_processing, attr_of. rewrite !bind_ret_l.
  intros H.
  apply bind_inr in H as (out1 & acc & out2 & Hloop & Hread & _).
  destruct acc as [t'|]; [|discriminate]. apply ret_inr in Hread. subst t'.
  destruct df as [|r0 rest]; [discriminate|].
  change (Counter_keys (map Year (r0 :: rest)))
    with (Year r0 :: filter (fun y => y <> Year r0) (Counter_keys (map Year rest)))
    in Hloop.
  change (BIC_loop site (Some (r0 :: rest)) 0 (Year r0 :: ?ys) None)
    with (do t <- process_year site (Some (r0 :: rest)) 0 (Year r0);
          do acc' <- ret t;
          BIC_loop site (Some (r0 :: rest)) 1 ys (Some acc')) in Hloop.
  apply bind_inr in Hloop as (out3 & t0 & out4 & Ht0 & Hloop & _).
  rewrite bind_ret_l in Hloop.
  apply (BIC_loop_rows (row_of_all_years site (r0 :: rest)) site (r0 :: rest)
           _ 1%nat (Some t0) out4 (Some t) Hloop); [| |done].
  - intros t1 [= <-]. apply process_year_rows in Ht0.
    eapply Forall_impl; [exact Ht0|].
    intros r (HD & Hyr & x & Hx & Hxy & Hst). split; [done|].
    intros r1 rest' [= <- <-]. exists x.
    rewrite bool_decide_eq_true_2 by done.
    split; [done|]. split; [congruence|done].
  - intros j y out' t1 Hj Hy Hstep. apply process_year_rows in Hstep.
    eapply Forall_impl; [exact Hstep|].
    intros r (HD & Hyr & x & Hx & Hxy & Hst). split; [done|].
    intros r1 rest' [= <- <-]. exists x.
    apply list_elem_of_filter in Hy as [Hne _].
    rewrite bool_decide_eq_false_2 by congruence.
    split; [done|]. split; [congruence|].
    replace (j =? 0)%nat with false in Hst; [done|].
    symmetry. apply Nat.eqb_neq. lia.
Qed.

(** ** The station-years stacked by [BIC_composite] *)

Lemma composite_year_Some (s : string) (dt : Z) (df_corr : Proc.table)
    (year : Z) (out : list string) (c : stacked) :
  composite_year s dt df_corr year = (out, inr (Some c)) ->
  exists r0 BID n,
    r0 ∈ Proc.rows df_corr /\ Proc.Year r0 = year /\
    Proc.DPT_flag r0 = 3 /\ Proc.Albedo_flag r0 = 1 /\ Proc.BID r0 = Some BID /\
    (length (window_rows dt year BID df_corr) + n)%nat = Z.to_nat (2 * dt + 1) /\
    c = {| from_station := s;
           from_year := year;
           air_temperature_row :=
             pad n (map Proc.Air_temperature_C (window_rows dt year BID df_corr));
           ice_ablation_row :=
             pad n (map Proc.DPT_proc (window_rows dt year BID df_corr));
           snow_height_row :=
             rebased dt (pad n (map Proc.Height_sensor_boom_m
                                    (window_rows dt year BID df_corr)));
           albedo_row :=
             pad n (map Proc.Albedo_theta_inf_70d
                        (window_rows dt year BID df_corr)) |}.
Proof.
  unfold composite_year.
  destruct (filter (fun r => Proc.Year r = year) (Proc.rows df_corr))
    as [|r0 df_yr] eqn:Hyr; [discriminate|].
  assert (Hr0 : r0 ∈ Proc.rows df_corr /\ Proc.Year r0 = year).
  { assert (H : r0 ∈ filter (fun r => Proc.Year r = year) (Proc.rows df_corr))
      by (rewrite Hyr; left).
    apply list_elem_of_filter in H. tauto. }
  destruct ((Proc.DPT_flag r0 =? 3) && (Proc.Albedo_flag r0 =? 1)) eqn:Hq;
    [|discriminate].
  apply andb_true_iff in Hq as [Hf Ha].
  apply Z.eqb_eq in Hf, Ha.
  destruct (Proc.BID r0) as [BID|] eqn:HB; [|discriminate].
  rewrite bind_ret_l.
  intros H.
  apply bind_inr in H as (out1 & n & out2 & Hn & H & _).
  apply bind_inr in H as (out3 & boom & out4 & Hboom & H & _).
  apply ret_inr in H.
  exists r0, BID, n.
  destruct Hr0 as [Hin Hy].
  repeat (split; [done|]).
  unfold window_rows. rewrite Hyr.
  destruct (decide _); [|discriminate]. apply ret_inr in Hboom.
  split.
  - destruct (_ =? _) eqn:E in Hn.
    + apply ret_inr in Hn. apply Z.eqb_eq in E. lia.
    + destruct (_ <? _) eqn:E' in Hn; [discriminate|].
      apply ret_inr in Hn. apply Z.ltb_ge in E'. lia.
  - injection H as <-. subst boom. reflexivity.
Qed.

Lemma composite_years_elem (s : string) (dt : Z) (df_corr : Proc.table)
    (years : list Z) :
  forall (out : list string) (cs : list stacked) (c : stacked),
    composite_years s dt df_corr years = (out, inr cs) -> c ∈ cs ->
    exists year out',
      year ∈ years /\ composite_year s dt df_corr year = (out', inr (Some c)).
Proof.
  induction years as [|y years IH]; intros out cs c H Hc; simpl in H.
  - apply ret_inr in H. subst. by apply elem_of_nil in Hc.
  - apply bind_inr in H as (out1 & r & out2 & Hr & H & _).
    apply bind_inr in H as (out3 & rs & out4 & Hrs & H & _).
    apply ret_inr in H. subst cs.
    destruct r as [c'|].
    + apply elem_of_cons in Hc as [->|Hc].
      * exists y, out1. split; [left|done].
      * destruct (IH _ _ _ Hrs Hc) as (y' & o & Hy' & Hcy).
        exists y', o. split; [by right|done].
    + destruct (IH _ _ _ Hrs Hc) as (y' & o & Hy' & Hcy).
      exists y', o. split; [by right|done].
Qed.

Lemma file_of_Some (s : string) (files : list promice_file) (f : promice_file) :
  file_of s files = Some f -> station f = s /\ f ∈ files.
Proof.
  induction files as [|g files IH]; simpl; [discriminate|].
  destruct (String.eqb s (station g)) eqn:E.
  - apply String.eqb_eq in E. intros [= <-]. split; [done|left].
  - intros H. destruct (IH H). split; [done|by right].
Qed.

Lemma composite_station_elem (files : list promice_file) (dt : Z) (s : string)
    (out : list string) (cs : list stacked) (c : stacked) :
  composite_station files dt s = (out, inr cs) -> c ∈ cs ->
  exists f df_corr year out',
    file_of s files = Some f /\ processed f df_corr /\
    composite_year s dt df_corr year = (out', inr (Some c)).
Proof.
  unfold composite_station.
  destruct (_ || _); [intros H%ret_inr Hc; subst; by apply elem_of_nil in Hc|].
  destruct (file_of s files) as [f|] eqn:Hf; [|discriminate].
  rewrite bind_ret_l. intros H Hc.
  apply bind_inr in H as (out1 & [[site yr] df] & out2 & Hload & H & _).
  apply bind_inr in H as (out3 & df_corr & out4 & Hproc & H & _).
  apply composite_years_elem with (c := c) in H as (year & out' & _ & Hy); [|done].
  exists f, df_corr, year, out'. split; [done|]. split; [|done].
  unfold load_data in Hload. rewrite bind_ret_l in Hload.
  destruct (map normalise (table f)) as [|r rs] eqn:Hn.
  - apply bind_inr in Hload as (? & ? & ? & _ & Hload & _).
    apply ret_inr in Hload. injection Hload as <- <- <-. discriminate.
  - apply ret_inr in Hload. injection Hload as <- <- <-.
    split; [by destruct (table f)|]. rewrite Hn. by exists out3.
Qed.

Lemma composite_stations_elem (files : list promice_file) (dt : Z)
    (sites : list string) :
  forall (out : list string) (cs : list stacked) (c : stacked),
    composite_stations files dt sites = (out, inr cs) -> c ∈ cs ->
    exists s out' cs',
      s ∈ sites /\ composite_station files dt s = (out', inr cs') /\ c ∈ cs'.
Proof.
  induction sites as [|s sites IH]; intros out cs c H Hc; simpl in H.
  - apply ret_inr in H. subst. by apply elem_of_nil in Hc.
  - apply bind_inr in H as (out1 & rs & out2 & Hrs & H & _).
    apply bind_inr in H as (out3 & rs' & out4 & Hrs' & H & _).
    apply ret_inr in H. subst cs.
    apply elem_of_app in Hc as [Hc|Hc].
    + exists s, out1, rs. split; [left|done].
    + destruct (IH _ _ _ Hrs' Hc) as (s' & o & cs' & Hs' & Hst & Hc').
      exists s', o, cs'. split; [by right|done].
Qed.

(** Where a stacked station-year comes from. *)
Lemma BIC_composite_stack_elem (files : list promice_file) (dt : Z)
    (out : list string) (cs : list stacked) (c : stacked) :
  BIC_composite_stack files dt = (out, inr cs) -> c ∈ cs ->
  0 <= dt /\
  exists f df_corr out',
    file_of (from_station c) files = Some f /\ processed f df_corr /\
    composite_year (from_station c) dt df_corr (from_year c) = (out', inr (Some c)).
Proof.
  unfold BIC_composite_stack.
  destruct (2 * dt + 1 <? 0) eqn:E; [discriminate|].
  apply Z.ltb_ge in E. intros H Hc. split; [lia|].
  apply composite_stations_elem with (c := c) in H
    as (s & out1 & cs' & _ & Hst & Hc'); [|done].
  apply composite_station_elem with (c := c) in Hst
    as (f & df_corr & year & out' & Hf & Hp & Hy); [|done].
  destruct (composite_year_Some _ _ _ _ _ _ Hy) as (r0 & BID & n & _ & _ & _ & _ & _ & _ & ->).
  simpl. by exists f, df_corr, out'.
Qed.

(** ** Which station-years are stacked *)

Lemma stacked_qualifying (files : list promice_file) (dt : Z)
    (out : list string) (cs : list stacked) (c : stacked) :
  BIC_composite_stack files dt = (out, inr cs) -> c ∈ cs ->
  qualifying files (from_station c) (from_year c).
Proof.
  intros H Hc.
  destruct (BIC_composite_stack_elem _ _ _ _ _ H Hc)
    as (_ & f & df_corr & out' & Hf & (_ & out1 & Hp) & Hy).
  destruct (composite_year_Some _ _ _ _ _ _ Hy)
    as (r0 & BID & n & Hr0 & Hyr & Hfl & Haf & HB & _ & _).
  pose proof (BIC_processing_all_rows _ _ _ _ Hp) as Hrows.
  rewrite Forall_forall in Hrows.
  destruct (Hrows r0 Hr0) as [(out2 & z & albedo & HD) _].
  destruct (file_of_Some _ _ _ Hf) as [Hs _].
  rewrite Hs, Hyr, Hfl, Haf, HB in HD.
  by exists f, out2, z, albedo, BID.
Qed.

(** A composite is returned only for a stack that is not empty. *)
Lemma BIC_composite_inr (files : list promice_file) (dt : Z)
    (out : list string) (comp : composite) :
  BIC_composite files dt = (out, inr comp) ->
  exists cs,
    BIC_composite_stack files dt = (out, inr cs) /\ cs <> []
    /\ comp = labelled_composite dt cs.
Proof.
  unfold BIC_composite. intros H.
  apply bind_inr in H as (out1 & cs & out2 & Hcs & H & Hout).
  destruct cs as [|c cs]; [discriminate|].
  injection H as <- <-. rewrite app_nil_r in Hout. subst out1.
  by exists (c :: cs).
Qed.

(** C4: in the composite built by [BIC_composite], each of the four
    matrices has one row and one row label per stacked station-year, in the
    same order, and every stacked station-year is one for which
    [DPT_processing] returned confidence flag 3, albedo flag 1 and a
    detected BID; a station-year with an invalid albedo flag or a missing
    BID therefore is not in the row index. *)
Theorem C4_rows_are_qualifying_station_years (files : list promice_file)
    (dt : Z) (out : list string) (comp : composite) (m : labelled) :
  BIC_composite files dt = (out, inr comp) ->
  m ∈ matrices comp ->
  exists cs var,
    BIC_composite_stack files dt = (out, inr cs)
    /\ values m = map var cs
    /\ index m = map (fun c => label_of (from_station c) (from_year c)) cs
    /\ Forall (fun c => qualifying files (from_station c) (from_year c)) cs.
Proof.
  intros H Hm.
  apply BIC_composite_inr in H as (cs & Hcs & _ & ->).
  assert (Hshape : exists var, m = labelled_matrix dt cs var).
  { unfold matrices, labelled_composite in Hm. simpl in Hm.
    repeat (apply elem_of_cons in Hm as [->|Hm]; [by eexists|]).
    by apply elem_of_nil in Hm. }
  destruct Hshape as [var ->]. exists cs, var.
  split; [done|]. split; [done|]. split; [done|].
  apply Forall_forall. intros c Hc.
  by apply (stacked_qualifying files dt out cs c Hcs).
Qed.

(** Rows of a fixed length, padded on the right: every stacked row has
    [2*dt+1] cells, the samples of the window first and NaN after them. *)
Lemma stacked_rows_padded (files : list promice_file) (dt : Z)
    (out : list string) (cs : list stacked) (c : stacked) :
  BIC_composite_stack files dt = (out, inr cs) -> c ∈ cs ->
  exists df_corr BID n,
    let w := window_rows dt (from_year c) BID df_corr in
    air_temperature_row c = map Proc.Air_temperature_C w ++ replicate n nan /\
    ice_ablation_row c = map Proc.DPT_proc w ++ replicate n nan /\
    albedo_row c = map Proc.Albedo_theta_inf_70d w ++ replicate n nan /\
    length (air_temperature_row c) = Z.to_nat (2 * dt + 1) /\
    length (ice_ablation_row c) = Z.to_nat (2 * dt + 1) /\
    length (snow_height_row c) = Z.to_nat (2 * dt + 1) /\
    length (albedo_row c) = Z.to_nat (2 * dt + 1).
Proof.
  intros H Hc.
  destruct (BIC_composite_stack_elem _ _ _ _ _ H Hc)
    as (_ & f & df_corr & out' & _ & _ & Hy).
  destruct (composite_year_Some _ _ _ _ _ _ Hy)
    as (r0 & BID & n & _ & _ & _ & _ & _ & Hlen & Hceq).
  exists df_corr, BID, n.
  pose proof (f_equal air_temperature_row Hceq) as Ha.
  pose proof (f_equal ice_ablation_row Hceq) as Hi.
  pose proof (f_equal snow_height_row Hceq) as Hs.
  pose proof (f_equal albedo_row Hceq) as Hal.
  simpl in Ha, Hi, Hs, Hal. rewrite Ha, Hi, Hs, Hal.
  unfold rebased, pad.
  rewrite !length_map, !length_app, !length_replicate, !length_map.
  repeat split; done.
Qed.

(** ** The snow-height row *)

Lemma cell_sub_nan_r (a : cell) : cell_sub a nan = nan.
Proof. by destruct a. Qed.

Lemma rebased_all_nan (dt : Z) (n : nat) :
  rebased dt (replicate n nan) = replicate n nan.
Proof.
  unfold rebased.
  generalize (nanmean (slice (Z.to_nat (dt + 10)) (Z.to_nat (dt + 30))
                         (replicate n nan))).
  intros mu. induction n as [|n IH]; simpl; [done|].
  by rewrite IH, cell_sub_nan_r.
Qed.

Lemma map_all_nan {A : Type} (g : A -> cell) (l : list A) :
  Forall (fun r => g r = nan) l -> map g l = replicate (length l) nan.
Proof.
  induction 1 as [|r l Hr _ IH]; simpl; [done|]. by rewrite Hr, IH.
Qed.

Lemma slice_map {A B : Type} (f : A -> B) (a b : nat) (l : list A) :
  slice a b (map f l) = map f (slice a b l).
Proof. unfold slice. by rewrite <- fmap_drop, <- fmap_take. Qed.

(** C6 (as stated, refuted): in [boom_step_at_200] KAN_M 2012 is stacked
    with BID 170 and a full window of days 125..215, so that column [j] is
    day [125 + j]; the mean of the transformed snow height over days
    180..200 (the closed window from BID+10 to BID+30, columns 55..75) is
    -1.  In [record_from_day_160] KAN_M 2012 is the first year of the file,
    its snow-height row is all missing and has no mean at all. *)
Lemma C6_mean_over_closed_window_not_zero :
  (exists out c m out' df_corr,
     BIC_composite_stack boom_step_at_200 45 = (out, inr [c]) /\
     from_year c = 2012 /\
     BIC_processing "KAN_M" yr_all
       (Some (map normalise
                (observation 2011 200 (Some 0%Q) (Some 0.8%Q) (Some 0%Q) (Some 0%Q)
                 :: map (fun d => observation 2012 d
                                    (Some (if d <=? 169 then 0 else -1)%Q)
                                    (Some 0.8%Q) (Some 1%Q)
                                    (Some (if d =? 200 then 21 else 0)%Q))
                        (seqZ 125 96))))
     = (out', inr df_corr) /\
     map Proc.BID (window_rows 45 2012 170 df_corr) = replicate 91 (Some 170) /\
     map Proc.DOY (window_rows 45 2012 170 df_corr) = seqZ 125 91 /\
     nanmean (slice (Z.to_nat (45 + 10)) (Z.to_nat (45 + 30 + 1))
                (snow_height_row c)) = Some m /\
     ~ (m == 0)%Q)
  /\ (exists out c,
        BIC_composite_stack record_from_day_160 45 = (out, inr [c]) /\
        nanmean (slice (Z.to_nat (45 + 10)) (Z.to_nat (45 + 30 + 1))
                   (snow_height_row c)) = nan).
Proof.
  split.
  - eexists _, _, _, _, _.
    split; [vm_compute; reflexivity|].
    split; [reflexivity|].
    split; [vm_compute; reflexivity|].
    split; [vm_compute; reflexivity|].
    split; [vm_compute; reflexivity|].
    split; [vm_compute; reflexivity|].
    intros H. vm_compute in H. discriminate.
  - eexists _, _. split; vm_compute; reflexivity.
Qed.

(** C6 (amended): for every stacked station-year, the snow-height row is
    the mean of columns [dt+10 .. dt+29] (days BID+10 to BID+29 of a full
    window) minus the row, taken over the column [Height_sensor_boom_m] of
    the rows of its year, in the processed table of its station, whose day
    lies in [BID - dt .. BID + dt], followed by the padding; when one of
    the columns [dt+10 .. dt+29] is not missing after the transform, their
    mean is 0 (exactly, in rational arithmetic). *)
Theorem C6_rebased_mean_zero (files : list promice_file) (dt : Z)
    (out : list string) (cs : list stacked) (c : stacked) :
  BIC_composite_stack files dt = (out, inr cs) -> c ∈ cs ->
  (exists f df_corr r0 BID n,
     file_of (from_station c) files = Some f /\ processed f df_corr /\
     r0 ∈ Proc.rows df_corr /\ Proc.Year r0 = from_year c /\
     Proc.BID r0 = Some BID /\
     (length (window_rows dt (from_year c) BID df_corr) + n)%nat
     = Z.to_nat (2 * dt + 1) /\
     snow_height_row c
     = rebased dt (map Proc.Height_sensor_boom_m
                       (window_rows dt (from_year c) BID df_corr)
                   ++ replicate n nan))
  /\ forall q,
       Some q ∈ slice (Z.to_nat (dt + 10)) (Z.to_nat (dt + 30))
                  (snow_height_row c) ->
       exists m,
         nanmean (slice (Z.to_nat (dt + 10)) (Z.to_nat (dt + 30))
                    (snow_height_row c)) = Some m
         /\ (m == 0)%Q.
Proof.
  intros H Hc.
  destruct (BIC_composite_stack_elem _ _ _ _ _ H Hc)
    as (_ & f & df_corr & out' & Hf & Hp & Hy).
  destruct (composite_year_Some _ _ _ _ _ _ Hy)
    as (r0 & BID & n & Hr0 & Hyr & _ & _ & HB & Hlen & Hceq).
  pose proof (f_equal snow_height_row Hceq) as Hs. simpl in Hs.
  split; [by exists f, df_corr, r0, BID, n|].
  intros q Hq.
  rewrite Hs in Hq |- *. unfold rebased in Hq |- *.
  rewrite slice_map in Hq |- *.
  destruct (nanmean (slice _ _ _)) as [mu|] eqn:Hmu.
  - by apply nanmean_mean_sub.
  - exfalso. apply list_elem_of_fmap in Hq as (x & Hx & _).
    by destruct x.
Qed.

Lemma C6_rebased_witness :
  exists out c,
    BIC_composite_stack boom_step_at_200 45 = (out, inr [c]) /\
    from_year c = 2012 /\
    exists m,
      nanmean (slice (Z.to_nat (45 + 10)) (Z.to_nat (45 + 30))
                 (snow_height_row c)) = Some m
      /\ (m == 0)%Q.
Proof.
  eexists _, _.
  split; [vm_compute; reflexivity|]. split; [reflexivity|].
  match goal with
  | |- exists m, nanmean (slice _ _ (snow_height_row ?c)) = _ /\ _ =>
      destruct (C6_rebased_mean_zero boom_step_at_200 45 [] [c] c)
        as [_ Hm]; [vm_compute; reflexivity|left|]
  end.
  eapply Hm. vm_compute. left.
Defined.

(** ** The boom height of the first year of a station *)

Lemma window_rows_elem (dt year BID : Z) (df_corr : Proc.table) (r : Proc.row) :
  r ∈ window_rows dt year BID df_corr ->
  r ∈ Proc.rows df_corr /\ Proc.Year r = year.
Proof.
  unfold window_rows. intros H.
  apply list_elem_of_filter in H as [_ H].
  apply list_elem_of_filter in H. tauto.
Qed.

(** The composite of [two_years]: one row, labelled KAN_M_2012, whose
    snow-height cells are all missing. *)
Example two_years_snow_height :
  index (snow_height_meters two_years_composite) = ["KAN_M_2012"]
  /\ values (snow_height_meters two_years_composite) = [replicate 5 nan].
Proof. split; reflexivity. Qed.

Lemma C4_rows_witness :
  BIC_composite two_years 2 = ([], inr two_years_composite) /\
  ice_ablation_meters two_years_composite ∈ matrices two_years_composite /\
  exists cs var,
    BIC_composite_stack two_years 2 = ([], inr cs)
    /\ values (ice_ablation_meters two_years_composite) = map var cs
    /\ index (ice_ablation_meters two_years_composite)
       = map (fun c => label_of (from_station c) (from_year c)) cs
    /\ Forall (fun c => qualifying two_years (from_station c) (from_year c)) cs.
Proof.
  split; [vm_compute; reflexivity|].
  split; [right; left|].
  apply (C4_rows_are_qualifying_station_years two_years 2 []
           two_years_composite (ice_ablation_meters two_years_composite));
    [vm_compute; reflexivity|right; left].
Defined.

(** ** Alignment of the stacked rows on BID *)

(** C5 (the code at a failing input): KAN_M 2012 is stacked with BID 170
    and [dt = 45].  The row has 91 cells and the column labels run from
    -45 to 45, but the record starts after day BID - dt = 125 and the
    padding is all on the right: column 0 (label -45) holds the sample of
    day 160, the column labelled 0 holds the sample of day 205, and the
    sample of the bare-ice day 170 sits in column 10 (label -35). *)
Theorem C5_late_record_is_padded_right :
  exists out comp row out' z albedo,
    BIC_composite record_from_day_160 45 = (out, inr comp) /\
    DPT_processing "KAN_M"
      (filter (fun r => Year r = 2012)
              (map normalise
                 (map (fun d => observation 2012 d
                                  (Some (if d <=? 169 then 0 else -1)%Q)
                                  (Some 0.8%Q) (Some (inject_Z d)) (Some 2%Q))
                      (seqZ 160 61)
                  ++ [observation 2013 1 (Some 0%Q) (Some 0.8%Q) (Some 0%Q)
                        (Some 2%Q)])))
      2012
    = (out', inr (z, albedo, 3, Some 170, 1)) /\
    index (air_temperature_degrees comp) = ["KAN_M_2012"] /\
    values (air_temperature_degrees comp) = [row] /\
    length row = 91%nat /\
    columns (air_temperature_degrees comp) = seqZ (-45) 91 /\
    row !! 0%nat = Some (Some (inject_Z 160)) /\
    row !! 10%nat = Some (Some (inject_Z 170)) /\
    row !! 45%nat = Some (Some (inject_Z 205)) /\
    drop 56 row = replicate 35 nan.
Proof.
  eexists _, _, _, _, _, _.
  split; [vm_compute; reflexivity|].
  split; [vm_compute; reflexivity|].
  repeat split; vm_compute; reflexivity.
Qed.

(** ** The station name read off a file name *)

Lemma split_lacks (sep : ascii) (s : string) :
  lacks sep s = true -> split sep s = [s].
Proof.
  induction s as [|c s IH]; simpl; [done|].
  intros H. apply andb_true_iff in H as [Hc Hs].
  apply negb_true_iff in Hc. rewrite Hc, (IH Hs). done.
Qed.

Lemma split_app_sep (sep : ascii) (a b : string) :
  lacks sep a = true ->
  split sep (a +:+ String sep b) = a :: split sep b.
Proof.
  induction a as [|c a IH]; simpl.
  - intros _. by rewrite Ascii.eqb_refl.
  - intros H. apply andb_true_iff in H as [Hc Ha].
    apply negb_true_iff in Hc. rewrite Hc, (IH Ha). done.
Qed.

Lemma split_not_nil (sep : ascii) (s : string) : split sep s <> [].
Proof.
  induction s as [|c s IH]; simpl; [done|].
  destruct (Ascii.eqb c sep); [done|]. by destruct (split sep s).
Qed.

Lemma split_app_sep_any (sep : ascii) (a b : string) :
  exists w ws, split sep (a +:+ String sep b) = (w :: ws) ++ split sep b.
Proof.
  induction a as [|c a (w & ws & IH)]; simpl.
  - rewrite Ascii.eqb_refl. by exists EmptyString, [].
  - rewrite IH. destruct (Ascii.eqb c sep).
    + by exists EmptyString, (w :: ws).
    + by exists (String c w), ws.
Qed.

Lemma last_split_app_sep (sep : ascii) (a b : string) :
  last (split sep (a +:+ String sep b)) = last (split sep b).
Proof.
  destruct (split_app_sep_any sep a b) as (w & ws & ->).
  pose proof (split_not_nil sep b) as Hne.
  destruct (split sep b) as [|x l] using rev_ind; [done|].
  by rewrite app_assoc, !last_snoc.
Qed.

Lemma lacks_cons (c c' : ascii) (s : string) :
  lacks c (String c' s) = negb (Ascii.eqb c' c) && lacks c s.
Proof. reflexivity. Qed.

Lemma lacks_app (c : ascii) (a b : string) :
  lacks c (a +:+ b) = lacks c a && lacks c b.
Proof.
  induction a as [|c' a IH]; simpl; [done|]. by rewrite IH, andb_assoc.
Qed.

(** The name extracted from [dir/first_second_rest]: [first_second], or
    [first] alone for the three single-token stations. *)
Lemma site_name_of_path (sep : ascii) (dir first second rest : string) :
  sep <> "_"%char ->
  lacks sep first = true -> lacks "_" first = true ->
  lacks sep second = true -> lacks "_" second = true ->
  lacks sep rest = true ->
  site_name sep (dir +:+ String sep (first +:+ String "_" (second +:+ String "_" rest)))
  = ret (if single_token_station (first +:+ "_" +:+ second) then first
         else first +:+ "_" +:+ second).
Proof.
  intros Hsep Hsf Huf Hss Hus Hsr.
  assert (Hu : Ascii.eqb "_" sep = false) by (apply Ascii.eqb_neq; congruence).
  assert (Hlast :
          last (split sep (dir +:+ String sep
                   (first +:+ String "_" (second +:+ String "_" rest))))
          = Some (first +:+ String "_" (second +:+ String "_" rest))).
  { rewrite last_split_app_sep, split_lacks; [done|].
    rewrite lacks_app, Hsf, lacks_cons, Hu, lacks_app, Hss, lacks_cons, Hu, Hsr.
    done. }
  assert (Hparts : split "_" (first +:+ String "_" (second +:+ String "_" rest))
                   = first :: second :: split "_" rest).
  { rewrite (split_app_sep "_" first) by done.
    by rewrite (split_app_sep "_" second) by done. }
  unfold site_name, last_item. rewrite Hlast, !bind_ret_l.
  rewrite Hparts. unfold item at 1.
  change ((first :: second :: split "_" rest) !! 0%nat) with (Some first).
  cbv beta iota. rewrite !bind_ret_l, Hparts. unfold item at 1.
  change ((first :: second :: split "_" rest) !! 1%nat) with (Some second).
  cbv beta iota. rewrite !bind_ret_l.
  fold (single_token_station (first +:+ "_" +:+ second)).
  destruct (single_token_station _); [|done].
  change (first +:+ "_" +:+ second) with (first +:+ String "_" second).
  by rewrite split_app_sep by done.
Qed.

Lemma string_app_assoc (a b c : string) :
  (a +:+ b) +:+ c = a +:+ (b +:+ c).
Proof.
  induction a as [|x a IH]; [done|]. exact (f_equal (String x) IH).
Qed.

Lemma substring_0_0 (s : string) : substring 0 0 s = EmptyString.
Proof. by destruct s. Qed.

Lemma single_token_station_first (first x : string) :
  single_token_station (first +:+ "_" +:+ x) = single_token_station first.
Proof.
  unfold single_token_station.
  destruct first as [|c1 [|c2 [|c3 r]]]; destruct x as [|x1 [|x2 x]];
    cbv -[Ascii.eqb]; fold substring; rewrite ?substring_0_0;
    repeat match goal with
           | |- context [Ascii.eqb ?c ?d] => is_var c; destruct (Ascii.eqb c d)
           end;
    reflexivity.
Qed.

(** X1: on a POSIX path [dir/first_second_rest], whose three parts hold no
    "/" and whose first two hold no "_", the station name that
    [BIC_composite] collects from the file name is the one that [load_data]
    finds again in the name [dir/<station>_day_v03_upd.txt] that
    [BIC_composite] passes to it. *)
Theorem site_name_round_trip (dir first second rest : string) :
  lacks "/" first = true -> lacks "_" first = true ->
  lacks "/" second = true -> lacks "_" second = true ->
  lacks "/" rest = true ->
  exists s,
    site_name "/" (dir +:+ "/" +:+ first +:+ "_" +:+ second +:+ "_" +:+ rest)
    = ret s
    /\ site_name "/" (dir +:+ "/" +:+ s +:+ "_day_v03_upd.txt") = ret s.
Proof.
  intros Hsf Huf Hss Hus Hsr.
  exists (if single_token_station (first +:+ "_" +:+ second) then first
          else first +:+ "_" +:+ second).
  split.
  - by apply (site_name_of_path "/" dir first second rest).
  - destruct (single_token_station (first +:+ "_" +:+ second)) eqn:E.
    + change (site_name "/"
                (dir +:+ String "/"
                   (first +:+ String "_" ("day" +:+ String "_" "v03_upd.txt")))
              = ret first).
      rewrite (site_name_of_path "/" dir first "day" "v03_upd.txt") by done.
      rewrite single_token_station_first in E |- *. by rewrite E.
    + assert (Heq : (first +:+ "_" +:+ second) +:+ "_day_v03_upd.txt"
                    = first +:+ String "_" (second +:+ String "_" "day_v03_upd.txt")).
      { by rewrite string_app_assoc. }
      change (site_name "/"
                (dir +:+ String "/"
                   ((first +:+ "_" +:+ second) +:+ "_day_v03_upd.txt"))
              = ret (first +:+ "_" +:+ second)).
      rewrite Heq.
      rewrite (site_name_of_path "/" dir first second "day_v03_upd.txt") by done.
      by rewrite E.
Qed.

Lemma site_name_round_trip_witness :
  lacks "/" "KAN" = true /\ lacks "_" "KAN" = true /\
  lacks "/" "L" = true /\ lacks "_" "L" = true /\
  lacks "/" "day_v03_upd.txt" = true /\
  exists s,
    site_name "/" ("data" +:+ "/" +:+ "KAN" +:+ "_" +:+ "L" +:+ "_" +:+ "day_v03_upd.txt")
    = ret s
    /\ site_name "/" ("data" +:+ "/" +:+ s +:+ "_day_v03_upd.txt") = ret s.
Proof.
  repeat (split; [reflexivity|]).
  apply (site_name_round_trip "data" "KAN" "L" "day_v03_upd.txt"); reflexivity.
Defined.

(** X2: a file whose base name holds no "_" makes the extraction, and with
    it [load_data], raise IndexError: the second piece of the name does not
    exist. *)
Theorem site_name_without_underscore (sep : ascii) (dir base : string) :
  lacks sep base = true -> lacks "_" base = true ->
  site_name sep (dir +:+ String sep base)
  = raise (IndexError "list index out of range").
Proof.
  intros Hs Hu. unfold site_name, last_item.
  rewrite last_split_app_sep, (split_lacks sep base) by done.
  simpl last. cbv beta iota. rewrite !bind_ret_l.
  rewrite (split_lacks "_" base) by done.
  change (item [base] 0) with (ret base). rewrite !bind_ret_l.
  rewrite (split_lacks "_" base) by done. reflexivity.
Qed.

Lemma site_name_without_underscore_witness :
  lacks "/" "readme.txt" = true /\ lacks "_" "readme.txt" = true /\
  site_name "/" ("data" +:+ String "/" "readme.txt")
  = raise (IndexError "list index out of range").
Proof.
  repeat (split; [reflexivity|]).
  apply (site_name_without_underscore "/" "data" "readme.txt"); reflexivity.
Defined.

(** The station names of the source's own files. *)
Example site_name_examples :
  site_name "/" "data/KAN_L_day_v03_upd.txt" = ret "KAN_L"
  /\ site_name "/" "data/THU_U2_day_v03_upd.txt" = ret "THU_U2"
  /\ site_name "/" "data/MIT_day_v03_upd.txt" = ret "MIT"
  /\ site_name "/" "data/EGP_day_v03_upd.txt" = ret "EGP".
Proof. repeat split; reflexivity. Qed.

(** ** [load_data] *)

Lemma invalid_to_nan_not_invalid (x : cell) : not_invalid (invalid_to_nan x).
Proof.
  intros q. destruct x as [q'|]; simpl; [|done].
  destruct (Qeq_bool q' (-999)) eqn:E; [done|].
  intros [= <-] H. apply Qeq_bool_iff in H. congruence.
Qed.

(** X3: whatever [load_data] returns as a table is not empty, holds no cell
    equal to the invalid value -999 in its four measurement columns, and
    consists of rows of the file (with invalid cells made missing); for a
    single integer year every returned row is of that year. *)
Theorem load_data_returns_clean_rows (file : promice_file) (year : year_arg)
    (out : list string) (site : string) (yr : year_arg) (df : list raw_row) :
  load_data file year = (out, inr (site, yr, Some df)) ->
  site = station file /\ yr = year /\ out = [] /\ df <> [] /\
  forall r, r ∈ df ->
    not_invalid (DepthPressureTransducer_Cor r) /\
    not_invalid (Albedo_theta_lt_70d r) /\
    not_invalid (AirTemperature r) /\
    not_invalid (HeightSensorBoom r) /\
    (exists r0, r0 ∈ table file /\ r = normalise r0) /\
    (forall y, year = yr_int y -> Year r = y).
Proof.
  unfold load_data. intros H.
  apply bind_inr in H as (out1 & sel & out2 & Hsel & H & ->).
  destruct sel as [|x sel]; [by apply bind_inr in H as (? & ? & ? & _ & [=] & _)|].
  injection H as <- <- <- <-.
  assert (Hsub : out1 = [] /\ forall r, r ∈ x :: sel ->
            r ∈ map normalise (table file)
            /\ forall y, year = yr_int y -> Year r = y).
  { destruct year as [|y|ys].
    - injection Hsel as <- <-. split; [done|]. intros r Hr. by split.
    - injection Hsel as <- Hs. split; [done|]. intros r Hr.
      rewrite <- Hs in Hr. apply list_elem_of_filter in Hr as [Hy Hr].
      split; [done|]. by intros ? [= <-].
    - destruct (_ =? _)%nat; [|discriminate].
      injection Hsel as <- Hs. split; [done|]. intros r Hr. split; [|done].
      rewrite <- Hs in Hr. clear -Hr.
      revert Hr. generalize (zip_with Z.eqb (map Year (map normalise (table file))) ys).
      induction (map normalise (table file)) as [|a l IH]; intros [|b m];
        simpl; try (intros H; by apply elem_of_nil in H).
      destruct b; [intros [->|H]%elem_of_cons; [left|right; eauto]|].
      intros H. right. eauto. }
  destruct Hsub as [-> Hsub].
  repeat (split; [done|]).
  intros r Hr. destruct (Hsub r Hr) as [Hin Hy].
  apply list_elem_of_fmap in Hin as (r0 & -> & Hr0).
  repeat split; try apply invalid_to_nan_not_invalid; [|done].
  by exists r0.
Qed.

Lemma load_data_returns_clean_rows_witness :
  load_data
    {| station := "KAN_M";
       table := [observation 2012 160 (Some (-999)%Q) (Some 0.8%Q) (Some 1%Q) (Some 2%Q);
                 observation 2013 10 (Some 0.1%Q) None (Some 1%Q) (Some 2%Q)] |}
    (yr_int 2012)
  = ([], inr ("KAN_M", yr_int 2012,
              Some [observation 2012 160 None (Some 0.8%Q) (Some 1%Q) (Some 2%Q)]))
  /\ "KAN_M" = "KAN_M" /\ yr_int 2012 = yr_int 2012 /\ @nil string = [] /\
  [observation 2012 160 None (Some 0.8%Q) (Some 1%Q) (Some 2%Q)] <> [] /\
  forall r,
    r ∈ [observation 2012 160 None (Some 0.8%Q) (Some 1%Q) (Some 2%Q)] ->
    not_invalid (DepthPressureTransducer_Cor r) /\
    not_invalid (Albedo_theta_lt_70d r) /\
    not_invalid (AirTemperature r) /\
    not_invalid (HeightSensorBoom r) /\
    (exists r0,
       r0 ∈ [observation 2012 160 (Some (-999)%Q) (Some 0.8%Q) (Some 1%Q) (Some 2%Q);
             observation 2013 10 (Some 0.1%Q) None (Some 1%Q) (Some 2%Q)]
       /\ r = normalise r0) /\
    (forall y, yr_int 2012 = yr_int y -> Year r = y).
Proof.
  split; [reflexivity|].
  apply (load_data_returns_clean_rows
           {| station := "KAN_M";
              table := [observation 2012 160 (Some (-999)%Q) (Some 0.8%Q) (Some 1%Q) (Some 2%Q);
                        observation 2013 10 (Some 0.1%Q) None (Some 1%Q) (Some 2%Q)] |}
           (yr_int 2012) []).
  reflexivity.
Defined.

(** X4: for a single integer year, [load_data] prints its error message and
    returns nothing exactly when the file has no row of that year; it then
    still sets the two globals. *)
Theorem load_data_year_not_available (file : promice_file) (y : Z) :
  (forall r, r ∈ table file -> Year r <> y)
  <-> load_data file (yr_int y)
      = ([not_available], inr (station file, yr_int y, None)).
Proof.
  unfold load_data. rewrite bind_ret_l.
  destruct (filter (fun r => Year r = y) (map normalise (table file)))
    as [|x sel] eqn:Hsel.
  - split; [done|]. intros _ r Hr Hy.
    assert (Hin : normalise r ∈ filter (fun r => Year r = y)
                                  (map normalise (table file))).
    { apply list_elem_of_filter. split; [done|].
      apply list_elem_of_fmap. by exists r. }
    rewrite Hsel in Hin. by apply elem_of_nil in Hin.
  - split; [|discriminate]. intros Hno. exfalso.
    assert (Hin : x ∈ filter (fun r => Year r = y) (map normalise (table file)))
      by (rewrite Hsel; left).
    apply list_elem_of_filter in Hin as [Hy Hin].
    apply list_elem_of_fmap in Hin as (r0 & -> & Hr0).
    by apply (Hno r0).
Qed.

(** ** [assign_nans] *)

Lemma foldl_nan_on (d : Z) (l : list Z) (x : cell) :
  foldl (fun x d' => if d' =? d then nan else x) x l
  = if bool_decide (d ∈ l) then nan else x.
Proof.
  revert x. induction l as [|d' l IH]; intros x; simpl; [done|].
  rewrite IH. destruct (d' =? d) eqn:E.
  - apply Z.eqb_eq in E. subst.
    rewrite (bool_decide_eq_true_2 (d ∈ d :: l)) by left.
    by destruct (bool_decide (d ∈ l)).
  - apply Z.eqb_neq in E.
    destruct (decide (d ∈ l)) as [Hin|Hin].
    + rewrite !bool_decide_eq_true_2; [done|by right|done].
    + rewrite !bool_decide_eq_false_2; [done| |done].
      intros [->|H]%elem_of_cons; done.
Qed.

Lemma lookup_exec_assign_nans (ds : days_arg) (doy : list Z) (z : list cell)
    (k : nat) (d : Z) (x : cell) :
  doy !! k = Some d -> z !! k = Some x ->
  exec_assign_nans ds doy z !! k
  = Some (if bool_decide (d ∈ days_of ds) then nan else x).
Proof.
  intros Hd Hx.
  change (exec_assign_nans ds doy z) with (exec_stmt doy z (assign_nans ds)).
  rewrite (lookup_exec_stmt doy z _ k d x Hd Hx). f_equal.
  destruct ds as [d'|l]; simpl; [|apply foldl_nan_on].
  destruct (d' =? d) eqn:E.
  - apply Z.eqb_eq in E. subst. by rewrite bool_decide_eq_true_2 by left.
  - apply Z.eqb_neq in E. rewrite bool_decide_eq_false_2; [done|].
    intros [->|H]%elem_of_cons; [done|by apply elem_of_nil in H].
Qed.

(** X5: [assign_nans] makes missing exactly the samples whose day is one of
    the listed days and leaves every other sample as it is, whether it is
    called with an [int] or with a list; calling it a second time with the
    same days changes nothing. *)
Theorem assign_nans_exactly_listed_days (ds : days_arg) (doy : list Z)
    (z : list cell) :
  length doy = length z ->
  (forall k d x, doy !! k = Some d -> z !! k = Some x ->
     exec_assign_nans ds doy z !! k
     = Some (if bool_decide (d ∈ days_of ds) then nan else x))
  /\ length (exec_assign_nans ds doy z) = length z
  /\ exec_assign_nans ds doy (exec_assign_nans ds doy z)
     = exec_assign_nans ds doy z.
Proof.
  intros Hlen.
  assert (Hl : length (exec_assign_nans ds doy z) = length z)
    by exact (length_exec_stmt doy z (assign_nans ds) Hlen).
  split; [intros; by apply lookup_exec_assign_nans|]. split; [done|].
  apply list_eq. intros k.
  destruct (z !! k) as [x|] eqn:Hx.
  - destruct (doy !! k) as [d|] eqn:Hd.
    + rewrite (lookup_exec_assign_nans ds doy _ k d _ Hd
                 (lookup_exec_assign_nans ds doy z k d x Hd Hx)).
      rewrite (lookup_exec_assign_nans ds doy z k d x Hd Hx).
      by destruct (bool_decide _).
    + apply lookup_ge_None in Hd. apply lookup_lt_Some in Hx. lia.
  - apply lookup_ge_None in Hx.
    rewrite !(proj2 (lookup_ge_None _ _)); [done|lia|].
    change (exec_assign_nans ds doy (exec_assign_nans ds doy z))
      with (exec_stmt doy (exec_assign_nans ds doy z) (assign_nans ds)).
    rewrite length_exec_stmt; lia.
Qed.

Lemma assign_nans_exactly_listed_days_witness :
  length [100; 101; 102] = length [Some 1%Q; Some 2%Q; Some 3%Q] /\
  (forall k d x,
     [100; 101; 102] !! k = Some d -> [Some 1%Q; Some 2%Q; Some 3%Q] !! k = Some x ->
     exec_assign_nans (days [101; 200]) [100; 101; 102]
       [Some 1%Q; Some 2%Q; Some 3%Q] !! k
     = Some (if bool_decide (d ∈ days_of (days [101; 200])) then nan else x))
  /\ length (exec_assign_nans (days [101; 200]) [100; 101; 102]
               [Some 1%Q; Some 2%Q; Some 3%Q])
     = length [Some 1%Q; Some 2%Q; Some 3%Q]
  /\ exec_assign_nans (days [101; 200]) [100; 101; 102]
       (exec_assign_nans (days [101; 200]) [100; 101; 102]
          [Some 1%Q; Some 2%Q; Some 3%Q])
     = exec_assign_nans (days [101; 200]) [100; 101; 102]
         [Some 1%Q; Some 2%Q; Some 3%Q].
Proof.
  split; [reflexivity|].
  apply (assign_nans_exactly_listed_days (days [101; 200]) [100; 101; 102]
           [Some 1%Q; Some 2%Q; Some 3%Q]).
  reflexivity.
Defined.

(** ** When [DPT_processing] raises *)

Lemma site_rules_of_None (site : string) (tbl : list (string * site_rules)) :
  site_rules_of site tbl = None <-> site ∉ map fst tbl.
Proof.
  induction tbl as [|[s r] tbl IH]; simpl.
  - split; [intros _ H; by apply elem_of_nil in H|done].
  - destruct (String.eqb site s) eqn:E.
    + apply String.eqb_eq in E. subst. split; [done|].
      intros H. exfalso. apply H. left.
    + apply String.eqb_neq in E. rewrite IH. split.
      * intros H [->|H']%elem_of_cons; done.
      * intros H H'. apply H. by right.
Qed.

Lemma branch_forallb (P : assignments -> bool) (site : string) (year : Z)
    (bs : list branch) (e : bool) (a : assignments) :
  table_forallb P = true ->
  site_rules_of site correction_table = Some (by_year bs e) ->
  find_branch year bs = Some a ->
  P a = true.
Proof.
  intros Ht Hs Hb.
  apply site_rules_of_Some in Hs.
  apply find_branch_Some in Hb as (b & Hb & Hg & ->).
  apply guard_holds_years_of in Hg.
  unfold table_forallb in Ht.
  pose proof (forallb_elem_of _ _ _ Ht Hs) as H1. simpl in H1.
  pose proof (forallb_elem_of _ _ _ H1 Hb) as H2. simpl in H2.
  exact (forallb_elem_of _ _ _ H2 Hg).
Qed.

Lemma only_THU_U2_lacks_else (site : string) (bs : list branch) :
  site_rules_of site correction_table = Some (by_year bs false) ->
  site = "THU_U2" /\ bs = THU_U2_branches.
Proof.
  intros Hs.
  assert (H : forallb (fun sr : string * site_rules =>
                         match sr.2 with
                         | by_year _ false => String.eqb sr.1 "THU_U2"
                         | _ => true
                         end) correction_table = true) by by vm_compute.
  pose proof (forallb_elem_of _ _ _ H (site_rules_of_Some _ _ _ Hs)) as Hn.
  simpl in Hn. apply String.eqb_eq in Hn. subst site.
  split; [done|].
  assert (Hc : site_rules_of "THU_U2" correction_table
               = Some (by_year THU_U2_branches false)) by reflexivity.
  rewrite Hc in Hs. by injection Hs.
Qed.

Lemma find_branch_THU_U2 (year : Z) :
  find_branch year THU_U2_branches = None
  <-> negb (year =? 2018) && negb (year =? 2019) = true.
Proof.
  unfold THU_U2_branches. cbn -[Z.eqb].
  destruct (year =? 2018), (year =? 2019); simpl; split; done.
Qed.

(** What the chain leaves behind, by [leaves_flag_unbound]. *)
Lemma chain_by_leaves_flag_unbound (site : string) (year : Z) :
  if leaves_flag_unbound site year
  then station_year_chain site year = ([], inr (unassigned, 0))
  else exists f, confidence_flag site year = Some f.
Proof.
  unfold leaves_flag_unbound, confidence_flag, chain_locals, station_year_chain.
  pose proof (site_rules_of_None site correction_table) as Hnone.
  fold station_names in Hnone.
  assert (HT : forall r, site = "THU_U2" ->
                 site_rules_of site correction_table = Some r ->
                 r = by_year THU_U2_branches false).
  { intros r -> Hr.
    assert (Hc : site_rules_of "THU_U2" correction_table
                 = Some (by_year THU_U2_branches false)) by reflexivity.
    rewrite Hc in Hr. by injection Hr. }
  destruct (site_rules_of site correction_table) as [[bs e|]|] eqn:Hs.
  - assert (Hin : site ∈ station_names).
    { destruct (decide (site ∈ station_names)) as [|Hn]; [done|].
      apply Hnone in Hn. discriminate. }
    rewrite (bool_decide_eq_true_2 _ Hin). simpl.
    destruct (find_branch year bs) as [a|] eqn:Hb.
    + assert (Ha : is_Some (DPT_flag a)).
      { pose proof (branch_forallb
          (fun a => match DPT_flag a with Some _ => true | None => false end)
          site year bs e a) as H.
        simpl in H. destruct (DPT_flag a); [by eexists|].
        assert (false = true) by (apply H; [by vm_compute|done|done]).
        discriminate. }
      destruct Ha as [f Ha].
      destruct (String.eqb site "THU_U2") eqn:E.
      * apply String.eqb_eq in E.
        specialize (HT _ E eq_refl). injection HT as Hbs He. subst bs e.
        assert (Hy : negb (year =? 2018) && negb (year =? 2019) = false).
        { destruct (negb (year =? 2018) && negb (year =? 2019)) eqn:Hy; [|done].
          apply find_branch_THU_U2 in Hy. congruence. }
        cbn [andb]. rewrite Hy. by exists f.
      * simpl. by exists f.
    + destruct e.
      * destruct (String.eqb site "THU_U2") eqn:E.
        -- apply String.eqb_eq in E. specialize (HT _ E eq_refl). discriminate.
        -- simpl. by exists 0.
      * apply only_THU_U2_lacks_else in Hs as [-> ->].
        apply find_branch_THU_U2 in Hb.
        change (String.eqb "THU_U2" "THU_U2") with true.
        cbn [andb]. by rewrite Hb.
  - assert (Hin : site ∈ station_names).
    { destruct (decide (site ∈ station_names)) as [|Hn]; [done|].
      apply Hnone in Hn. discriminate. }
    rewrite (bool_decide_eq_true_2 _ Hin).
    destruct (String.eqb site "THU_U2") eqn:E.
    + apply String.eqb_eq in E. specialize (HT _ E eq_refl). discriminate.
    + simpl. by exists 0.
  - rewrite bool_decide_eq_false_2 by by apply Hnone. done.
Qed.

Lemma DPT_processing_returns (site : string) (df : list raw_row) (year f : Z) :
  confidence_flag site year = Some f ->
  exists out res, DPT_processing site df year = (out, inr res).
Proof.
  intros Hf. destruct (decide (f = 3)) as [->|Hne].
  - destruct (flag_3_has_IAO site year Hf) as [i Hi].
    rewrite (DPT_processing_flag_3 site df year i Hf Hi). by eexists _, _.
  - rewrite (DPT_processing_other_flag site df year f Hf Hne). by eexists _, _.
Qed.

(** X6: the only exception that [DPT_processing] raises is the
    unbound-local error for [DPT_flag], and it raises it exactly for the
    station-years to which the chain assigns no flag: a station that the
    chain does not name, and THU_U2 outside 2018 and 2019.  For every other
    station-year it returns. *)
Theorem DPT_processing_raises_only_unbound_flag (site : string)
    (df : list raw_row) (year : Z) :
  if leaves_flag_unbound site year
  then DPT_processing site df year = ([], inl (UnboundLocalError "DPT_flag"))
  else exists out res, DPT_processing site df year = (out, inr res).
Proof.
  pose proof (chain_by_leaves_flag_unbound site year) as H.
  destruct (leaves_flag_unbound site year).
  - unfold DPT_processing. by rewrite H.
  - destruct H as [f Hf]. by apply (DPT_processing_returns site df year f).
Qed.

(** ** What [DPT_processing] returns, whatever the station-year *)

Lemma table_forallb_at_sound (P : string -> Z -> assignments -> bool)
    (site : string) (year : Z) :
  table_forallb_at P = true ->
  P site year unassigned = true ->
  P site year accumulation_locals = true ->
  P site year (chain_locals site year).1 = true.
Proof.
  intros Ht Hu Ha. unfold chain_locals, station_year_chain.
  destruct (site_rules_of site correction_table) as [[bs e|]|] eqn:Hs;
    [|done|done].
  destruct (find_branch year bs) as [a|] eqn:Hb; [|done].
  simpl. apply site_rules_of_Some in Hs.
  apply find_branch_Some in Hb as (b & Hb & Hg & ->).
  apply guard_holds_years_of in Hg.
  unfold table_forallb_at in Ht.
  pose proof (forallb_elem_of _ _ _ Ht Hs) as H1. simpl in H1.
  pose proof (forallb_elem_of _ _ _ H1 Hb) as H2. simpl in H2.
  exact (forallb_elem_of _ _ _ H2 Hg).
Qed.

Lemma confidence_flag_range (site : string) (year f : Z) :
  confidence_flag site year = Some f -> 0 <= f <= 3.
Proof.
  unfold confidence_flag.
  pose proof (table_forallb_sound
    (fun a => match DPT_flag a with
              | Some f => (0 <=? f) && (f <=? 3)
              | None => true
              end) site year) as H.
  destruct (chain_locals site year) as [a np]. simpl in H.
  destruct (np =? 1); [intros [= <-]; lia|].
  intros Hf. rewrite Hf in H.
  assert (Hr : (0 <=? f) && (f <=? 3) = true) by (apply H; by vm_compute).
  apply andb_true_iff in Hr as [H0 H3]. lia.
Qed.

Lemma entry_albedo_flag_range (site : string) (year : Z) :
  entry_albedo_flag site year = 0 \/ entry_albedo_flag site year = 1.
Proof.
  unfold entry_albedo_flag.
  pose proof (table_forallb_sound
    (fun a => (albedo_flag a =? 0) || (albedo_flag a =? 1)) site year) as Hr.
  simpl in Hr.
  assert (Hr' : (albedo_flag (chain_locals site year).1 =? 0)
                || (albedo_flag (chain_locals site year).1 =? 1) = true)
    by (apply Hr; by vm_compute).
  apply orb_true_iff in Hr' as [H|H]; apply Z.eqb_eq in H; auto.
Qed.

Lemma albedo_flag_before_detection_range (site : string) (df : list raw_row)
    (year : Z) :
  albedo_flag_before_detection site df year = 0
  \/ albedo_flag_before_detection site df year = 1.
Proof.
  unfold albedo_flag_before_detection.
  destruct (_ =? _)%nat; [by left|apply entry_albedo_flag_range].
Qed.

Lemma length_returned_albedo (site : string) (df : list raw_row) (year : Z) :
  length (returned_albedo site df year) = length df.
Proof.
  unfold returned_albedo, biased.
  destruct (_ =? 0); by rewrite !length_map.
Qed.

(** What [DPT_processing] returns, in terms of the flag of the
    station-year. *)
Lemma DPT_processing_inv (site : string) (df : list raw_row) (year : Z)
    (out : list string) (z albedo : list cell) (f : Z) (b : option Z) (af : Z) :
  DPT_processing site df year = (out, inr (z, albedo, f, b, af)) ->
  albedo = returned_albedo site df year /\
  ((f <> 3 /\ z = replicate (length df) nan /\ b = None
    /\ af = albedo_flag_before_detection site df year)
   \/ (f = 3 /\ exists i,
         approximate_onset_day site year = Some i /\
         z = baselined i (map DayOfYear df) (adjusted_depth site df year) /\
         ((albedo_flag_before_detection site df year = 1 /\
           b = detect i (map DayOfYear df) z /\
           af = match b with Some _ => 1 | None => 0 end)
          \/ (albedo_flag_before_detection site df year = 0 /\
              b = None /\ af = 0)))).
Proof.
  intros H. pose proof (DPT_processing_flag _ _ _ _ _ _ _ _ _ H) as Hf.
  destruct (decide (f = 3)) as [->|Hne].
  - destruct (flag_3_has_IAO _ _ Hf) as [i Hi].
    rewrite (DPT_processing_flag_3 site df year i Hf Hi) in H.
    cbv zeta in H.
    destruct (albedo_flag_before_detection_range site df year) as [Ha|Ha];
      rewrite Ha in H; simpl in H.
    + injection H as _ <- <- <- <-. split; [done|]. right. split; [done|].
      exists i. split; [done|]. split; [done|]. right. by rewrite Ha.
    + injection H as _ <- <- Hb Haf. split; [done|]. right. split; [done|].
      exists i. split; [done|]. split; [done|]. left. rewrite Ha.
      split; [done|]. split; [done|]. subst b af. by destruct (detect _ _ _).
  - rewrite (DPT_processing_other_flag site df year f Hf Hne) in H.
    injection H as _ <- <- <- <-. split; [done|]. by left.
Qed.

(** X7: whatever [DPT_processing] returns, the two series have one sample
    per row passed in, the confidence flag lies between 0 and 3, the albedo
    flag is 0 or 1, a BID is returned exactly with confidence flag 3 and
    albedo flag 1, and a returned BID is a day of the record that lies
    strictly after the onset day of the station-year. *)
Theorem DPT_processing_result_shape (site : string) (df : list raw_row)
    (year : Z) (out : list string) (z albedo : list cell) (f : Z)
    (b : option Z) (af : Z) :
  DPT_processing site df year = (out, inr (z, albedo, f, b, af)) ->
  length z = length df /\ length albedo = length df /\
  0 <= f <= 3 /\ (af = 0 \/ af = 1) /\
  (is_Some b <-> f = 3 /\ af = 1) /\
  (forall d, b = Some d ->
     exists i k r, approximate_onset_day site year = Some i /\
                   df !! k = Some r /\ DayOfYear r = d /\ i < d).
Proof.
  intros H. pose proof (DPT_processing_flag _ _ _ _ _ _ _ _ _ H) as Hf.
  pose proof (confidence_flag_range _ _ _ Hf) as Hr.
  apply DPT_processing_inv in H as [-> H].
  rewrite length_returned_albedo.
  destruct H as [(Hne & -> & -> & ->)|(-> & i & Hi & Hz & H)].
  - rewrite length_replicate.
    split; [done|]. split; [done|]. split; [done|].
    split; [apply albedo_flag_before_detection_range|].
    split; [|done]. split; [by intros [? ?]|by intros [? _]].
  - assert (Hl : length z = length df).
    { subst z. by rewrite length_baselined, length_adjusted_depth. }
    split; [done|]. split; [done|]. split; [done|].
    destruct H as [(Ha & Hb & ->)|(Ha & -> & ->)].
    + pose proof (detect_spec i (map DayOfYear df) z) as Hd.
      rewrite <- Hb in Hd. rewrite length_map in Hd.
      specialize (Hd (eq_sym Hl)).
      destruct b as [d|].
      * split; [by right|]. split; [done|].
        intros d' [= <-].
        destruct Hd as (k & Hk & (d' & v & Hk' & _ & Hlt & _) & _).
        rewrite Hk in Hk'. injection Hk' as <-.
        apply list_lookup_fmap_Some in Hk as (r & -> & Hr').
        by exists i, k, r.
      * split; [by left|]. split; [|done].
        split; [by intros [? ?]|by intros [_ ?]].
    + split; [by left|]. split; [|done].
      split; [by intros [? ?]|by intros [_ ?]].
Qed.

Lemma DPT_processing_result_shape_witness :
  exists out z albedo,
    DPT_processing "KAN_M"
      [observation 2012 160 (Some 0%Q) (Some 0.8%Q) None None;
       observation 2012 171 (Some (-1)%Q) (Some 0.6%Q) None None] 2012
    = (out, inr (z, albedo, 3, Some 171, 1))
    /\ length z = 2%nat /\ is_Some (Some 171).
Proof.
  eexists _, _, _.
  assert (H : DPT_processing "KAN_M"
      [observation 2012 160 (Some 0%Q) (Some 0.8%Q) None None;
       observation 2012 171 (Some (-1)%Q) (Some 0.6%Q) None None] 2012
    = ([], inr ([Some 0%Q; Some (-1)%Q], [Some 0.8340%Q; Some 0.6340%Q],
                3, Some 171, 1))) by (vm_compute; reflexivity).
  split; [exact H|].
  destruct (DPT_processing_result_shape _ _ _ _ _ _ _ _ _ H)
    as (Hz & _ & _ & _ & Hb & _).
  split; [exact Hz|]. apply Hb. by split.
Defined.

(** ** The albedo series returned by [DPT_processing] *)

Lemma lookup_biased (df : list raw_row) (k : nat) (r : raw_row) :
  df !! k = Some r ->
  biased df !! k = Some (cell_add (Albedo_theta_lt_70d r) (Some 0.034%Q)).
Proof.
  intros H. unfold biased. rewrite !list_lookup_fmap, H. done.
Qed.

(** X8: every sample of the albedo series returned by [DPT_processing] is
    missing or is the sample passed in plus 0.034; when the returned albedo
    flag is 1, the series is the one passed in plus 0.034 throughout and
    holds at least one number; a returned series without any number comes
    with albedo flag 0. *)
Theorem DPT_processing_albedo (site : string) (df : list raw_row)
    (year : Z) (out : list string) (z albedo : list cell) (f : Z)
    (b : option Z) (af : Z) :
  DPT_processing site df year = (out, inr (z, albedo, f, b, af)) ->
  (forall k r, df !! k = Some r ->
     albedo !! k = Some nan
     \/ albedo !! k = Some (cell_add (Albedo_theta_lt_70d r) (Some 0.034%Q)))
  /\ (af = 1 -> albedo = biased df /\ exists q, Some q ∈ albedo)
  /\ (Forall (fun x => x = nan) albedo -> af = 0).
Proof.
  intros H. apply DPT_processing_inv in H as [-> H].
  assert (Hflag : af = 1 -> albedo_flag_before_detection site df year = 1).
  { destruct H as [(_ & _ & _ & ->)|(_ & i & _ & _ & [(Ha & _)|(_ & _ & ->)])];
      done. }
  assert (Hzero : albedo_flag_before_detection site df year = 0 -> af = 0).
  { destruct H as [(_ & _ & _ & ->)|(_ & i & _ & _ & [(Ha & _)|(_ & _ & ->)])];
      [done| |done].
    rewrite Ha. done. }
  split; [|split].
  - intros k r Hk. unfold returned_albedo.
    destruct (_ =? 0).
    + left. rewrite list_lookup_fmap, (lookup_biased df k r Hk). done.
    + right. by apply lookup_biased.
  - intros H1. apply Hflag, albedo_flag_before_detection_1 in H1
      as [He (r & q & Hr & Hq)].
    unfold returned_albedo. rewrite He.
    change (1 =? 0) with false. cbv iota. split; [done|].
    exists (q + 0.034)%Q.
    apply list_elem_of_lookup in Hr as [k Hk].
    apply list_elem_of_lookup. exists k.
    pose proof (lookup_biased df k r Hk) as Hb. rewrite Hq in Hb. exact Hb.
  - intros Hall. apply Hzero. unfold albedo_flag_before_detection.
    apply count_nan_all in Hall. rewrite Hall, Nat.eqb_refl. done.
Qed.

Lemma DPT_processing_albedo_witness :
  exists out z albedo,
    DPT_processing "KAN_M"
      [observation 2012 160 (Some 0%Q) (Some 0.8%Q) None None;
       observation 2012 171 (Some (-1)%Q) None None None] 2012
    = (out, inr (z, albedo, 3, Some 171, 1))
    /\ albedo !! 1%nat = Some nan
    /\ exists q, Some q ∈ albedo.
Proof.
  eexists _, _, _.
  assert (H : DPT_processing "KAN_M"
      [observation 2012 160 (Some 0%Q) (Some 0.8%Q) None None;
       observation 2012 171 (Some (-1)%Q) None None None] 2012
    = ([], inr ([Some 0%Q; Some (-1)%Q], [Some 0.8340%Q; None],
                3, Some 171, 1))) by (vm_compute; reflexivity).
  split; [exact H|]. split; [done|].
  destruct (DPT_processing_albedo _ _ _ _ _ _ _ _ _ H) as (_ & H1 & _).
  by destruct (H1 eq_refl) as [_ Hq].
Defined.

(** ** Missing depth samples *)

Lemma adjust_cell_nan (s : stmt) (d : Z) :
  is_assign s = false -> adjust_cell s d nan = nan.
Proof.
  destruct s as [m c|m c|m|m c|m|m m'|ds]; simpl; try done.
  - by destruct (mask_holds m d nan).
  - by destruct (mask_holds m d nan).
  - by destruct (mask_holds m d nan).
  - by destruct (mask_holds m d nan).
  - by destruct (mask_holds m d nan), (mask_holds m' d nan).
  - intros _. destruct ds as [d'|l].
    + by destruct (d' =? d).
    + rewrite foldl_nan_on. by destruct (bool_decide _).
Qed.

Lemma adjust_cell_in_order_nan (ss : list stmt) (d : Z) :
  existsb is_assign ss = false -> adjust_cell_in_order ss d nan = nan.
Proof.
  unfold adjust_cell_in_order.
  induction ss as [|s ss IH]; simpl; [done|].
  intros H. apply orb_false_iff in H as [Hs Hss].
  rewrite (adjust_cell_nan s d Hs). by apply IH.
Qed.

Lemma no_assign_outside_KAN_L (site : string) (year : Z) :
  fills_missing_depth site year = false ->
  existsb is_assign (stmts (chain_locals site year).1) = false.
Proof.
  intros Hf.
  pose proof (table_forallb_at_sound
    (fun s y a => fills_missing_depth s y || negb (existsb is_assign (stmts a)))
    site year) as H.
  simpl in H. rewrite Hf in H. simpl in H.
  apply negb_true_iff. apply H; by vm_compute.
Qed.

(** X9: except for KAN_L in 2009 and 2010, whose branch gives missing
    samples a value, a depth sample that is missing in the rows passed to
    [DPT_processing] is missing in the depth series it returns. *)
Theorem missing_depth_stays_missing (site : string) (df : list raw_row)
    (year : Z) (out : list string) (z albedo : list cell) (f : Z)
    (b : option Z) (af : Z) (k : nat) (r : raw_row) :
  DPT_processing site df year = (out, inr (z, albedo, f, b, af)) ->
  fills_missing_depth site year = false ->
  df !! k = Some r ->
  DepthPressureTransducer_Cor r = nan ->
  z !! k = Some nan.
Proof.
  intros H Hf Hk Hr. apply DPT_processing_inv in H as [_ H].
  destruct H as [(_ & -> & _)|(_ & i & _ & -> & _)].
  - apply lookup_replicate_2. by apply lookup_lt_Some in Hk.
  - unfold baselined. rewrite list_lookup_fmap.
    rewrite (lookup_adjusted_depth site df year k r Hk), Hr.
    rewrite adjust_cell_in_order_nan by by apply no_assign_outside_KAN_L.
    done.
Qed.

Lemma missing_depth_stays_missing_witness :
  exists out z albedo,
    DPT_processing "KAN_M"
      [observation 2012 160 (Some 0%Q) (Some 0.8%Q) None None;
       observation 2012 165 None (Some 0.8%Q) None None;
       observation 2012 171 (Some (-1)%Q) (Some 0.8%Q) None None] 2012
    = (out, inr (z, albedo, 3, Some 171, 1))
    /\ z !! 1%nat = Some nan.
Proof.
  eexists _, _, _.
  assert (H : DPT_processing "KAN_M"
      [observation 2012 160 (Some 0%Q) (Some 0.8%Q) None None;
       observation 2012 165 None (Some 0.8%Q) None None;
       observation 2012 171 (Some (-1)%Q) (Some 0.8%Q) None None] 2012
    = ([], inr ([Some 0%Q; None; Some (-1)%Q],
                [Some 0.8340%Q; Some 0.8340%Q; Some 0.8340%Q],
                3, Some 171, 1))) by (vm_compute; reflexivity).
  split; [exact H|].
  exact (missing_depth_stays_missing _ _ _ _ _ _ _ _ _ 1%nat _ H
           eq_refl eq_refl eq_refl).
Defined.

(** ** A pre-onset window without any depth sample *)

Lemma elem_of_select {A : Type} (mask : list bool) (s : list A) (x : A) :
  x ∈ select mask s ->
  exists k, mask !! k = Some true /\ s !! k = Some x.
Proof.
  revert s. induction mask as [|m mask IH]; intros [|y s]; simpl;
    try (intros H; by apply elem_of_nil in H).
  destruct m.
  - intros [->|H]%elem_of_cons.
    + by exists 0%nat.
    + destruct (IH s H) as (k & Hk1 & Hk2). by exists (S k).
  - intros H. destruct (IH s H) as (k & Hk1 & Hk2). by exists (S k).
Qed.

Lemma present_no_number (s : list cell) :
  (forall q, Some q ∉ s) -> present s = [].
Proof.
  induction s as [|[q|] s IH]; simpl; intros H; [done| |].
  - exfalso. apply (H q). left.
  - apply IH. intros q Hq. apply (H q). by right.
Qed.

(** X10: for a station-year with confidence flag 3, when none of the
    depth samples left by the statements of the branch, with a day strictly
    between the onset day minus 45 and the onset day, is a number, the
    baseline is the mean of nothing: [DPT_processing] returns a depth
    series with every sample missing, no BID and albedo flag 0. *)
Theorem no_pre_onset_sample_no_BID (site : string) (df : list raw_row)
    (year i : Z) :
  confidence_flag site year = Some 3 ->
  approximate_onset_day site year = Some i ->
  (forall k r, df !! k = Some r -> i - 45 < DayOfYear r < i ->
     adjusted_depth site df year !! k = Some nan) ->
  DPT_processing site df year
  = (chain_printed site year,
     inr (replicate (length df) nan, returned_albedo site df year, 3, None, 0)).
Proof.
  intros Hf Hi Hw.
  rewrite (DPT_processing_flag_3 site df year i Hf Hi). cbv zeta.
  assert (Hz : baselined i (map DayOfYear df) (adjusted_depth site df year)
               = replicate (length df) nan).
  { unfold baselined. rewrite nanmean_empty.
    - by rewrite map_sub_nan, length_adjusted_depth.
    - apply present_no_number. intros q Hq.
      apply elem_of_select in Hq as (k & Hm & Hk).
      unfold pre_onset_window in Hm.
      apply list_lookup_fmap_Some in Hm as (d & Hd & Hm).
      apply list_lookup_fmap_Some in Hm as (r & -> & Hr).
      symmetry in Hd. apply andb_true_iff in Hd as [H1 H2].
      apply Z.ltb_lt in H1. apply Z.gtb_lt in H2.
      assert (Hn : adjusted_depth site df year !! k = Some nan)
        by (apply (Hw k r Hr); lia).
      assert (He : Some (Some q) = Some nan)
        by (transitivity (adjusted_depth site df year !! k);
            [symmetry; exact Hk|exact Hn]).
      discriminate He. }
  rewrite Hz.
  assert (Hd : detect i (map DayOfYear df) (replicate (length df) nan) = None).
  { pose proof (detect_spec i (map DayOfYear df) (replicate (length df) nan)) as Hs.
    rewrite length_map, length_replicate in Hs. specialize (Hs eq_refl).
    destruct (detect _ _ _) as [d|]; [|done].
    destruct Hs as (k & _ & (d' & v & _ & Hk & _) & _).
    apply lookup_replicate in Hk as [Hk _]. unfold nan in Hk. congruence. }
  rewrite Hd.
  destruct (albedo_flag_before_detection_range site df year) as [->| ->]; done.
Qed.

Lemma no_pre_onset_sample_no_BID_witness :
  exists i,
    approximate_onset_day "KAN_M" 2012 = Some i /\
    DPT_processing "KAN_M"
      [observation 2012 100 (Some 0%Q) (Some 0.8%Q) None None;
       observation 2012 171 (Some (-1)%Q) (Some 0.8%Q) None None] 2012
    = ([], inr ([nan; nan], [Some 0.8340%Q; Some 0.8340%Q], 3, None, 0)).
Proof.
  eexists. split; [reflexivity|].
  apply (no_pre_onset_sample_no_BID "KAN_M"
           [observation 2012 100 (Some 0%Q) (Some 0.8%Q) None None;
            observation 2012 171 (Some (-1)%Q) (Some 0.8%Q) None None]
           2012 _ eq_refl eq_refl).
  intros [|[|k]] r Hk Hd; simpl in Hk; [| |done];
    injection Hk as <-; simpl in Hd; lia.
Defined.

(** ** The loop of [BIC_processing], frame by frame *)

Lemma bind_inl {A B : Type} (m : M A) (f : A -> M B) (out : list string)
    (e : exn) :
  m = (out, inl e) -> bind m f = (out, inl e).
Proof. by intros ->. Qed.

Lemma bind_step {A B : Type} (m : M A) (f : A -> M B) (out : list string)
    (a : A) :
  m = (out, inr a) -> bind m f = (out ++ (f a).1, (f a).2).
Proof. intros ->. simpl. by destruct (f a). Qed.

Lemma process_year_inv (site : string) (df : list raw_row) (i : nat) (y : Z)
    (out : list string) (t : Proc.table) :
  process_year site (Some df) i y = (out, inr t) ->
  exists z albedo f b af,
    DPT_processing site (filter (fun r => Year r = y) df) y
    = (out, inr (z, albedo, f, b, af)) /\
    t = frame (i =? 0)%nat z albedo
          (map HeightSensorBoom (filter (fun r => Year r = y) df)) f b af
          (filter (fun r => Year r = y) df).
Proof.
  unfold process_year. simpl.
  destruct (DPT_processing site (filter (fun r => Year r = y) df) y)
    as [out1 [e|[[[[z albedo] f] b] af]]] eqn:HD; simpl; [discriminate|].
  intros [= <- <-]. exists z, albedo, f, b, af.
  by rewrite app_nil_r.
Qed.

Lemma BIC_loop_frames (site : string) (df : list raw_row) (years : list Z) :
  forall (i : nat) (acc : option Proc.table) (out : list string)
         (acc' : option Proc.table),
    BIC_loop site (Some df) i years acc = (out, inr acc') ->
    (i = 0%nat <-> acc = None) ->
    exists ts,
      acc' = append_frames acc ts /\
      length ts = length years /\
      forall k y t, years !! k = Some y -> ts !! k = Some t ->
        exists out', process_year site (Some df) (i + k) y = (out', inr t).
Proof.
  induction years as [|y years IH]; intros i acc out acc' Hloop Hi.
  - simpl in Hloop. injection Hloop as _ <-. exists []. by repeat split.
  - simpl in Hloop.
    apply bind_inr in Hloop as (out1 & t & out2 & Ht & Hloop & _).
    apply bind_inr in Hloop as (out3 & acc1 & out4 & Hacc1 & Hloop & _).
    assert (Hstep : Some acc1 = append_frames acc [t]).
    { unfold append_frames. simpl. destruct (i =? 0)%nat eqn:E.
      - apply Nat.eqb_eq in E. apply Hi in E. subst acc.
        apply ret_inr in Hacc1. by subst.
      - apply Nat.eqb_neq in E. destruct acc as [p|]; [|by destruct E; apply Hi].
        simpl in Hacc1. by injection Hacc1 as _ <-. }
    destruct (IH (S i) (Some acc1) out4 acc' Hloop) as (ts & -> & Hlen & Hts);
      [done|].
    exists (t :: ts). split; [|split].
    + rewrite Hstep. done.
    + simpl. by rewrite Hlen.
    + intros [|k] y' t' Hy' Ht'; simpl in Hy', Ht'.
      * injection Hy' as <-. injection Ht' as <-.
        rewrite Nat.add_0_r. by exists out1.
      * rewrite Nat.add_succ_r. by apply Hts.
Qed.

Lemma rows_append_frames (ts : list Proc.table) :
  forall (acc : option Proc.table) (t : Proc.table),
    append_frames acc ts = Some t ->
    Proc.rows t
    = match acc with Some p => Proc.rows p | None => [] end
      ++ flat_map Proc.rows ts.
Proof.
  unfold append_frames.
  induction ts as [|t0 ts IH]; intros acc t H; simpl in H.
  - subst acc. simpl. by rewrite app_nil_r.
  - rewrite (IH _ _ H). simpl. destruct acc as [p|]; simpl; [|done].
    by rewrite <- app_assoc.
Qed.

(** [BIC_processing] over all years: the frames of the years of the file,
    in order of first occurrence, put together. *)
Lemma BIC_processing_frames (site : string) (df : list raw_row)
    (out : list string) (t : Proc.table) :
  BIC_processing site yr_all (Some df) = (out, inr t) ->
  exists ts,
    append_frames None ts = Some t /\
    length ts = length (Counter_keys (map Year df)) /\
    forall k y t', Counter_keys (map Year df) !! k = Some y ->
      ts !! k = Some t' ->
      exists out', process_year site (Some df) k y = (out', inr t').
Proof.
  unfold BIC_processing, attr_of. rewrite !bind_ret_l. intros H.
  apply bind_inr in H as (out1 & acc & out2 & Hloop & Hread & _).
  destruct acc as [t'|]; [|discriminate]. apply ret_inr in Hread. subst t'.
  destruct (BIC_loop_frames site df _ 0%nat None out1 (Some t) Hloop)
    as (ts & Ht & Hlen & Hts); [done|].
  exists ts. by repeat split.
Qed.

(** ** [BIC_processing] returns unless a year leaves the flag unbound *)

Lemma process_year_by_leaves_flag_unbound (site : string)
    (df : list raw_row) (i : nat) (y : Z) :
  if leaves_flag_unbound site y
  then process_year site (Some df) i y
       = ([], inl (UnboundLocalError "DPT_flag"))
  else exists out t, process_year site (Some df) i y = (out, inr t).
Proof.
  pose proof (chain_by_leaves_flag_unbound site y) as H.
  unfold process_year. simpl.
  destruct (leaves_flag_unbound site y).
  - unfold DPT_processing. by rewrite H.
  - destruct H as [f0 Hf].
    destruct (DPT_processing_returns site (filter (fun r => Year r = y) df)
                y f0 Hf) as (out & [[[[z albedo] f] b] af] & ->).
    simpl. by eexists _, _.
Qed.

Lemma BIC_loop_by_leaves_flag_unbound (site : string) (df : list raw_row)
    (years : list Z) :
  forall (i : nat) (acc : option Proc.table),
    (i <> 0%nat -> is_Some acc) ->
    if existsb (leaves_flag_unbound site) years
    then exists out, BIC_loop site (Some df) i years acc
                     = (out, inl (UnboundLocalError "DPT_flag"))
    else exists out acc',
           BIC_loop site (Some df) i years acc = (out, inr acc')
           /\ (years <> [] \/ is_Some acc -> is_Some acc').
Proof.
  induction years as [|y years IH]; intros i acc Hi; simpl.
  - exists [], acc. split; [done|]. by intros [?|?].
  - pose proof (process_year_by_leaves_flag_unbound site df i y) as Hy.
    destruct (leaves_flag_unbound site y); simpl.
    + exists []. by rewrite Hy.
    + destruct Hy as (out1 & t & Ht).
      rewrite (bind_step _ _ _ _ Ht).
      assert (Hacc : exists acc1,
                (if (i =? 0)%nat then ret t
                 else do prev <- read_local "promice_data_proc" acc;
                      ret (Proc.append prev t)) = ([], inr acc1)).
      { destruct (i =? 0)%nat eqn:E; [by exists t|].
        apply Nat.eqb_neq in E. destruct (Hi E) as [p ->]. by eexists. }
      destruct Hacc as [acc1 Hacc]. rewrite (bind_step _ _ _ _ Hacc).
      specialize (IH (S i) (Some acc1) (fun _ => mk_is_Some _ _ eq_refl)).
      destruct (existsb (leaves_flag_unbound site) years).
      * destruct IH as [out2 ->]. by eexists.
      * destruct IH as (out2 & acc' & -> & Hs). simpl.
        eexists _, acc'. split; [done|]. intros _.
        apply Hs. by right.
Qed.

Lemma existsb_Counter_keys (P : Z -> bool) (l : list Z) :
  existsb P (Counter_keys l) = existsb P l.
Proof.
  apply eq_true_iff_eq. rewrite !existsb_exists.
  split; intros (x & Hx & HP); exists x; split; try done;
    apply list_elem_of_In; apply list_elem_of_In in Hx;
    by apply Counter_keys_elem_of.
Qed.

(** X11: over all the years of a non-empty station file, [BIC_processing]
    returns a table exactly when no year of the file leaves [DPT_flag]
    unbound for the station; when some year does, it raises the
    unbound-local error of [DPT_processing], and the years processed
    before are lost with it. *)
Theorem BIC_processing_all_years_returns (site : string)
    (df : list raw_row) :
  df <> [] ->
  if existsb (leaves_flag_unbound site) (map Year df)
  then exists out, BIC_processing site yr_all (Some df)
                   = (out, inl (UnboundLocalError "DPT_flag"))
  else exists out t, BIC_processing site yr_all (Some df) = (out, inr t).
Proof.
  intros Hne. unfold BIC_processing, attr_of. rewrite !bind_ret_l.
  pose proof (BIC_loop_by_leaves_flag_unbound site df
                (Counter_keys (map Year df)) 0%nat None) as H.
  rewrite existsb_Counter_keys in H.
  destruct (existsb (leaves_flag_unbound site) (map Year df)).
  - destruct H as [out ->]; [done|]. by eexists.
  - destruct H as (out & acc' & -> & Hs); [done|].
    destruct Hs as [t ->]; [left; by destruct df|].
    simpl. by eexists _, _.
Qed.

Lemma BIC_processing_all_years_returns_witness :
  (exists out t,
     BIC_processing "KAN_M" yr_all
       (Some [observation 2012 160 (Some 0%Q) (Some 0.8%Q) None None;
              observation 2013 160 (Some 0%Q) (Some 0.8%Q) None None])
     = (out, inr t))
  /\ (exists out,
        BIC_processing "THU_U2" yr_all
          (Some [observation 2018 160 (Some 0%Q) (Some 0.8%Q) None None;
                 observation 2017 160 (Some 0%Q) (Some 0.8%Q) None None])
        = (out, inl (UnboundLocalError "DPT_flag"))).
Proof.
  split.
  - apply (BIC_processing_all_years_returns "KAN_M"
             [observation 2012 160 (Some 0%Q) (Some 0.8%Q) None None;
              observation 2013 160 (Some 0%Q) (Some 0.8%Q) None None]).
    discriminate.
  - apply (BIC_processing_all_years_returns "THU_U2"
             [observation 2018 160 (Some 0%Q) (Some 0.8%Q) None None;
              observation 2017 160 (Some 0%Q) (Some 0.8%Q) None None]).
    discriminate.
Defined.

(** ** No row of the file is lost or repeated *)

Lemma DPT_processing_lengths (site : string) (df : list raw_row) (year : Z)
    (out : list string) (z albedo : list cell) (f : Z) (b : option Z) (af : Z) :
  DPT_processing site df year = (out, inr (z, albedo, f, b, af)) ->
  length z = length df /\ length albedo = length df.
Proof.
  intros H. apply DPT_processing_inv in H as [-> H].
  rewrite length_returned_albedo. split; [|done].
  destruct H as [(_ & -> & _)|(_ & i & _ & -> & _)].
  - by rewrite length_replicate.
  - by rewrite length_baselined, length_adjusted_depth.
Qed.

Lemma map_zip_with_r {A B C D : Type} (f : A -> B -> C) (g : C -> D)
    (h : B -> D) (l1 : list A) (l2 : list B) :
  (forall a b, g (f a b) = h b) ->
  length l1 = length l2 ->
  map g (zip_with f l1 l2) = map h l2.
Proof.
  intros Hgf. revert l2.
  induction l1 as [|a l1 IH]; intros [|b l2] Hlen; simpl in *; try done.
  rewrite Hgf, IH by lia. done.
Qed.

Lemma row_key_process_year (site : string) (df : list raw_row) (i : nat)
    (y : Z) (out : list string) (t : Proc.table) :
  process_year site (Some df) i y = (out, inr t) ->
  map row_key (Proc.rows t) = map raw_key (filter (fun x => Year x = y) df).
Proof.
  intros H. apply process_year_inv in H as (z & albedo & f & b & af & HD & ->).
  apply DPT_processing_lengths in HD as [Hz Ha].
  simpl. unfold frame_rows. apply map_zip_with_r; [done|].
  rewrite !length_zip, length_map. lia.
Qed.

Lemma flat_map_lookup_ext {A B C : Type} (f : A -> list C) (g : B -> list C)
    (l1 : list A) :
  forall (l2 : list B),
    length l1 = length l2 ->
    (forall k a b, l1 !! k = Some a -> l2 !! k = Some b -> f a = g b) ->
    flat_map f l1 = flat_map g l2.
Proof.
  induction l1 as [|a l1 IH]; intros [|b l2] Hlen H; simpl in *; try done.
  rewrite (H 0%nat a b) by done. f_equal.
  apply IH; [lia|]. intros k a' b' Ha Hb. by apply (H (S k)).
Qed.

Lemma map_flat_map {A B C : Type} (g : B -> C) (f : A -> list B) (l : list A) :
  map g (flat_map f l) = flat_map (fun a => map g (f a)) l.
Proof.
  induction l as [|a l IH]; simpl; [done|]. by rewrite map_app, IH.
Qed.

Lemma flat_map_ext_elem {A B : Type} (f g : A -> list B) (l : list A) :
  (forall a, a ∈ l -> f a = g a) -> flat_map f l = flat_map g l.
Proof.
  induction l as [|a l IH]; intros H; simpl; [done|].
  rewrite (H a) by left. f_equal. apply IH. intros a' Ha'. apply H. by right.
Qed.

Lemma filter_key_other {A : Type} (key : A -> Z) (k y : Z) (l : list A) :
  y <> k ->
  filter (fun x => key x = y) (filter (fun x => key x <> k) l)
  = filter (fun x => key x = y) l.
Proof.
  intros Hne. induction l as [|x l IH]; [done|].
  destruct (decide (key x = k)) as [Hk|Hk].
  - rewrite (filter_cons_False (fun x => key x <> k)) by (intros H; by apply H).
    rewrite (filter_cons_False (fun x => key x = y)) by congruence. done.
  - rewrite (filter_cons_True (fun x => key x <> k)) by done.
    destruct (decide (key x = y)) as [Hy|Hy].
    + rewrite !(filter_cons_True (fun x => key x = y)) by done. by rewrite IH.
    + rewrite !(filter_cons_False (fun x => key x = y)) by done. done.
Qed.

(** Grouping a list by a key, over keys without repetition that cover the
    list, rearranges it. *)
Lemma group_by_key_Permutation {A : Type} (key : A -> Z) (ks : list Z) :
  forall l : list A,
    NoDup ks -> (forall x, x ∈ l -> key x ∈ ks) ->
    flat_map (fun y => filter (fun x => key x = y) l) ks ≡ₚ l.
Proof.
  induction ks as [|k ks IH]; intros l Hnd Hin; simpl.
  - destruct l as [|x l]; [done|].
    specialize (Hin x ltac:(left)). by apply elem_of_nil in Hin.
  - apply NoDup_cons in Hnd as [Hk Hnd].
    etrans; [|apply (filter_app_complement (fun x => key x = k) l)].
    apply Permutation_app; [done|].
    rewrite <- (IH (filter (fun x => key x <> k) l) Hnd).
    + erewrite flat_map_ext_elem; [done|].
      intros y Hy. simpl. symmetry. apply filter_key_other. congruence.
    + intros x [Hx Hxl]%list_elem_of_filter.
      specialize (Hin x Hxl). apply elem_of_cons in Hin as [?|?]; done.
Qed.

Lemma grouped_by_year_Permutation (df : list raw_row) :
  grouped_by_year df ≡ₚ df.
Proof.
  unfold grouped_by_year. apply group_by_key_Permutation.
  - apply Counter_keys_NoDup.
  - intros x Hx. apply Counter_keys_elem_of.
    apply list_elem_of_fmap. by exists x.
Qed.

Lemma BIC_processing_row_keys (site : string) (df : list raw_row)
    (out : list string) (t : Proc.table) :
  BIC_processing site yr_all (Some df) = (out, inr t) ->
  map row_key (Proc.rows t) = map raw_key (grouped_by_year df).
Proof.
  intros H. apply BIC_processing_frames in H as (ts & Ht & Hlen & Hts).
  rewrite (rows_append_frames ts None t Ht). simpl.
  unfold grouped_by_year. rewrite !map_flat_map.
  apply flat_map_lookup_ext; [done|].
  intros k t' y Ht' Hy. destruct (Hts k y t' Hy Ht') as [out' Hp].
  by apply row_key_process_year in Hp.
Qed.

(** X12: the table that [BIC_processing] builds over all years holds the
    observations of the file, none lost and none repeated: its rows, by
    year, day and air temperature, are those of the file grouped by year,
    the years in order of first occurrence and the rows of a year in file
    order; the table has as many rows as the file. *)
Theorem BIC_processing_keeps_every_row (site : string) (df : list raw_row)
    (out : list string) (t : Proc.table) :
  BIC_processing site yr_all (Some df) = (out, inr t) ->
  map row_key (Proc.rows t) = map raw_key (grouped_by_year df)
  /\ map row_key (Proc.rows t) ≡ₚ map raw_key df
  /\ length (Proc.rows t) = length df.
Proof.
  intros H. apply BIC_processing_row_keys in H.
  split; [done|].
  assert (Hp : map row_key (Proc.rows t) ≡ₚ map raw_key df).
  { rewrite H. apply fmap_Permutation, grouped_by_year_Permutation. }
  split; [done|].
  apply Permutation_length in Hp. by rewrite !length_map in Hp.
Qed.

Lemma BIC_processing_keeps_every_row_witness :
  exists out t,
    BIC_processing "KAN_M" yr_all
      (Some [observation 2012 160 (Some 0%Q) (Some 0.8%Q) (Some 1%Q) None;
             observation 2013 100 (Some 0%Q) (Some 0.8%Q) (Some 2%Q) None;
             observation 2012 161 (Some 0%Q) (Some 0.8%Q) (Some 3%Q) None])
    = (out, inr t)
    /\ map row_key (Proc.rows t)
       = [(2012, 160, Some 1%Q); (2012, 161, Some 3%Q); (2013, 100, Some 2%Q)].
Proof.
  destruct (BIC_processing "KAN_M" yr_all
      (Some [observation 2012 160 (Some 0%Q) (Some 0.8%Q) (Some 1%Q) None;
             observation 2013 100 (Some 0%Q) (Some 0.8%Q) (Some 2%Q) None;
             observation 2012 161 (Some 0%Q) (Some 0.8%Q) (Some 3%Q) None]))
    as [out [e|t]] eqn:H; [by vm_compute in H|].
  exists out, t. split; [done|].
  by destruct (BIC_processing_keeps_every_row _ _ _ _ H) as [-> _].
Defined.

(** ** The rows of one year carry one result *)

(** X13: in the table that [BIC_processing] builds over all years, the
    rows of a same year carry the same confidence flag, the same BID and
    the same albedo flag, those that [DPT_processing] returned for the rows
    of that year; [BIC_composite] reads them off the first row of the
    year. *)
Theorem rows_of_a_year_share_flags (site : string) (df : list raw_row)
    (out : list string) (t : Proc.table) (r r' : Proc.row) :
  BIC_processing site yr_all (Some df) = (out, inr t) ->
  r ∈ Proc.rows t -> r' ∈ Proc.rows t ->
  Proc.Year r = Proc.Year r' ->
  from_DPT site df r
  /\ Proc.DPT_flag r = Proc.DPT_flag r'
  /\ Proc.BID r = Proc.BID r'
  /\ Proc.Albedo_flag r = Proc.Albedo_flag r'.
Proof.
  intros H Hr Hr' Hy. apply BIC_processing_all_rows in H.
  rewrite Forall_forall in H.
  destruct (H r Hr) as [HD _]. split; [done|].
  destruct HD as (o1 & z1 & a1 & H1).
  destruct (H r' Hr') as [(o2 & z2 & a2 & H2) _].
  rewrite Hy, H2 in H1. by injection H1 as _ _ _ -> -> ->.
Qed.

Lemma rows_of_a_year_share_flags_witness :
  exists out t r r',
    BIC_processing "KAN_M" yr_all
      (Some [observation 2012 160 (Some 0%Q) (Some 0.8%Q) (Some 1%Q) None;
             observation 2012 171 (Some (-1)%Q) (Some 0.8%Q) (Some 3%Q) None])
    = (out, inr t)
    /\ Proc.rows t = [r; r']
    /\ Proc.BID r = Proc.BID r'.
Proof.
  destruct (BIC_processing "KAN_M" yr_all
      (Some [observation 2012 160 (Some 0%Q) (Some 0.8%Q) (Some 1%Q) None;
             observation 2012 171 (Some (-1)%Q) (Some 0.8%Q) (Some 3%Q) None]))
    as [out [e|t]] eqn:H; [by vm_compute in H|].
  assert (Hrows : exists r r', Proc.rows t = [r; r']
                               /\ Proc.Year r = Proc.Year r').
  { vm_compute in H. injection H as _ <-. by eexists _, _. }
  destruct Hrows as (r & r' & Hrows & Hy).
  exists out, t, r, r'. split; [done|]. split; [done|].
  destruct (rows_of_a_year_share_flags _ _ _ _ r r' H) as (_ & _ & Hb & _);
    [rewrite Hrows; left|rewrite Hrows; right; left|done|done].
Defined.

(** ** The two boom-height columns *)

Lemma columns_append_frames (ts : list Proc.table) :
  forall (p t : Proc.table),
    Forall (fun t' => Proc.columns t'
                      = Proc.common_columns ++ ["Height_sensor_boom_m"]) ts ->
    Proc.columns p = Proc.common_columns ++ ["HeightSensorBoom_m"]
    \/ Proc.columns p
       = Proc.common_columns ++ ["HeightSensorBoom_m"; "Height_sensor_boom_m"] ->
    append_frames (Some p) ts = Some t ->
    Proc.columns t
    = match ts with
      | [] => Proc.columns p
      | _ :: _ =>
          Proc.common_columns ++ ["HeightSensorBoom_m"; "Height_sensor_boom_m"]
      end.
Proof.
  induction ts as [|t0 ts IH]; intros p t Hts Hp H.
  - by injection H as ->.
  - apply Forall_cons in Hts as [Ht0 Hts].
    change (append_frames (Some p) (t0 :: ts))
      with (append_frames (Some (Proc.append p t0)) ts) in H.
    assert (Hc : Proc.columns (Proc.append p t0)
                 = Proc.common_columns
                   ++ ["HeightSensorBoom_m"; "Height_sensor_boom_m"]).
    { unfold Proc.append. simpl. rewrite Ht0.
      destruct Hp as [-> | ->]; by vm_compute. }
    rewrite (IH _ _ Hts (or_intror Hc) H).
    by destruct ts.
Qed.

Lemma Counter_keys_two_values (l : list Z) :
  (2 <= length (Counter_keys l))%nat
  <-> exists a b, a ∈ l /\ b ∈ l /\ a <> b.
Proof.
  pose proof (Counter_keys_NoDup l) as Hnd.
  split.
  - intros Hlen. destruct (Counter_keys l) as [|a [|b ks]] eqn:E;
      simpl in Hlen; [lia|lia|].
    exists a, b.
    split; [apply Counter_keys_elem_of; rewrite E; left|].
    split; [apply Counter_keys_elem_of; rewrite E; right; left|].
    apply NoDup_cons in Hnd as [Hab _]. intros ->. apply Hab. left.
  - intros (a & b & Ha & Hb & Hab).
    apply Counter_keys_elem_of in Ha, Hb.
    destruct (Counter_keys l) as [|c [|d ks]]; simpl; [| |lia].
    + by apply elem_of_nil in Ha.
    + apply list_elem_of_singleton in Ha, Hb. congruence.
Qed.

Lemma BIC_processing_columns (site : string) (df : list raw_row)
    (out : list string) (t : Proc.table) :
  BIC_processing site yr_all (Some df) = (out, inr t) ->
  Proc.columns t
  = Proc.common_columns
    ++ "HeightSensorBoom_m"
       :: (if decide (2 <= length (Counter_keys (map Year df)))%nat
           then ["Height_sensor_boom_m"] else []).
Proof.
  intros H. apply BIC_processing_frames in H as (ts & Ht & Hlen & Hts).
  destruct ts as [|t0 ts]; [discriminate|].
  destruct (Counter_keys (map Year df)) as [|y0 ys] eqn:E; [discriminate|].
  change (append_frames None (t0 :: ts)) with (append_frames (Some t0) ts) in Ht.
  assert (H0 : Proc.columns t0 = Proc.common_columns ++ ["HeightSensorBoom_m"]).
  { destruct (Hts 0%nat y0 t0 eq_refl eq_refl) as [out' Hp].
    apply process_year_inv in Hp as (? & ? & ? & ? & ? & _ & ->). done. }
  assert (Hrest : Forall (fun t' => Proc.columns t'
                            = Proc.common_columns ++ ["Height_sensor_boom_m"]) ts).
  { apply Forall_lookup. intros k t' Hk.
    assert (Hy : exists y, ys !! k = Some y).
    { apply lookup_lt_is_Some. apply lookup_lt_Some in Hk.
      simpl in Hlen. lia. }
    destruct Hy as [y Hy].
    destruct (Hts (S k) y t' Hy Hk) as [out' Hp].
    apply process_year_inv in Hp as (? & ? & ? & ? & ? & _ & ->). done. }
  rewrite (columns_append_frames ts t0 t Hrest (or_introl H0) Ht).
  simpl in Hlen. destruct (decide _) as [Hy|Hn].
  - simpl in Hy. destruct ts; simpl in Hlen; [lia|done].
  - simpl in Hn. destruct ts; simpl in Hlen; [by rewrite H0|lia].
Qed.

(** X14: the table that [BIC_processing] builds over all years always has
    the column [HeightSensorBoom_m]; it has the column
    [Height_sensor_boom_m], the one that [BIC_composite] reads, exactly
    when the file holds rows of two different years. *)
Theorem boom_column_needs_two_years (site : string) (df : list raw_row)
    (out : list string) (t : Proc.table) :
  BIC_processing site yr_all (Some df) = (out, inr t) ->
  "HeightSensorBoom_m" ∈ Proc.columns t
  /\ ("Height_sensor_boom_m" ∈ Proc.columns t
      <-> exists x x', x ∈ df /\ x' ∈ df /\ Year x <> Year x').
Proof.
  intros H. rewrite (BIC_processing_columns _ _ _ _ H).
  assert (Htwo : (2 <= length (Counter_keys (map Year df)))%nat
                 <-> exists x x', x ∈ df /\ x' ∈ df /\ Year x <> Year x').
  { rewrite Counter_keys_two_values. split.
    - intros (a & b & Ha & Hb & Hab).
      apply list_elem_of_fmap in Ha as (x & -> & Hx).
      apply list_elem_of_fmap in Hb as (x' & -> & Hx').
      by exists x, x'.
    - intros (x & x' & Hx & Hx' & Hne).
      exists (Year x), (Year x').
      split; [apply list_elem_of_fmap; by exists x|].
      split; [apply list_elem_of_fmap; by exists x'|done]. }
  rewrite <- Htwo.
  destruct (decide _) as [Hy|Hn].
  - split; [apply elem_of_app; right; left|]. split; [done|].
    intros _. apply elem_of_app. right. right. left.
  - split; [apply elem_of_app; right; left|]. split; [|done].
    intros Hin. exfalso.
    pose proof (bool_decide_pack _ Hin) as Hd. by vm_compute in Hd.
Qed.

Lemma boom_column_needs_two_years_witness :
  exists out t,
    BIC_processing "KAN_M" yr_all
      (Some [observation 2012 160 (Some 0%Q) (Some 0.8%Q) (Some 1%Q) None;
             observation 2012 161 (Some 0%Q) (Some 0.8%Q) (Some 3%Q) None])
    = (out, inr t)
    /\ "HeightSensorBoom_m" ∈ Proc.columns t
    /\ "Height_sensor_boom_m" ∉ Proc.columns t.
Proof.
  destruct (BIC_processing "KAN_M" yr_all
      (Some [observation 2012 160 (Some 0%Q) (Some 0.8%Q) (Some 1%Q) None;
             observation 2012 161 (Some 0%Q) (Some 0.8%Q) (Some 3%Q) None]))
    as [out [e|t]] eqn:H; [by vm_compute in H|].
  exists out, t. split; [done|].
  destruct (boom_column_needs_two_years _ _ _ _ H) as [H1 H2].
  split; [done|]. intros Hin. apply H2 in Hin as (x & x' & Hx & Hx' & Hne).
  apply Hne.
  apply elem_of_cons in Hx as [->|Hx];
    [|apply list_elem_of_singleton in Hx as ->];
    (apply elem_of_cons in Hx' as [->|Hx'];
      [|apply list_elem_of_singleton in Hx' as ->]); done.
Defined.

(** ** A station needs two years to enter the composite *)

Lemma composite_year_Some_column (s : string) (dt : Z) (df_corr : Proc.table)
    (year : Z) (out : list string) (c : stacked) :
  composite_year s dt df_corr year = (out, inr (Some c)) ->
  "Height_sensor_boom_m" ∈ Proc.columns df_corr.
Proof.
  unfold composite_year.
  destruct (filter (fun r => Proc.Year r = year) (Proc.rows df_corr))
    as [|r0 df_yr]; [discriminate|].
  destruct (_ && _); [|discriminate].
  destruct (Proc.BID r0) as [BID|]; [|discriminate].
  rewrite bind_ret_l. intros H.
  apply bind_inr in H as (out1 & n & out2 & Hn & H & _).
  apply bind_inr in H as (out3 & boom & out4 & Hboom & H & _).
  by destruct (decide _) in Hboom.
Qed.

(** X15: a station-year is stacked by [BIC_composite] only when the file
    of its station holds rows of two different years: the table of a file
    with a single year lacks the column [Height_sensor_boom_m], and the
    loop over its years raises or stacks nothing. *)
Theorem stacked_station_has_two_years (files : list promice_file) (dt : Z)
    (out : list string) (cs : list stacked) (c : stacked) :
  BIC_composite_stack files dt = (out, inr cs) -> c ∈ cs ->
  exists f x x',
    file_of (from_station c) files = Some f /\
    x ∈ table f /\ x' ∈ table f /\ Year x <> Year x'.
Proof.
  intros H Hc.
  destruct (BIC_composite_stack_elem _ _ _ _ _ H Hc)
    as (_ & f & df_corr & out' & Hf & [_ [out1 Hp]] & Hy).
  apply composite_year_Some_column in Hy.
  rewrite (BIC_processing_columns _ _ _ _ Hp) in Hy.
  destruct (decide _) as [Htwo|_] in Hy.
  - apply Counter_keys_two_values in Htwo as (a & b & Ha & Hb & Hab).
    apply list_elem_of_fmap in Ha as (x & -> & Hx).
    apply list_elem_of_fmap in Hb as (x' & -> & Hx').
    apply list_elem_of_fmap in Hx as (x0 & -> & Hx0).
    apply list_elem_of_fmap in Hx' as (x0' & -> & Hx0').
    by exists f, x0, x0'.
  - exfalso. pose proof (bool_decide_pack _ Hy) as Hd. by vm_compute in Hd.
Qed.

Lemma stacked_station_has_two_years_witness :
  exists out c f x x',
    BIC_composite_stack two_years 2 = (out, inr [c]) /\
    file_of (from_station c) two_years = Some f /\
    x ∈ table f /\ x' ∈ table f /\ Year x <> Year x'.
Proof.
  destruct (BIC_composite_stack two_years 2) as [out [e|cs]] eqn:H;
    [by vm_compute in H|].
  assert (Hcs : exists c, cs = [c]).
  { vm_compute in H. injection H as _ <-. by eexists. }
  destruct Hcs as [c ->].
  destruct (stacked_station_has_two_years _ _ _ _ c H ltac:(left))
    as (f & x & x' & Hf & Hx & Hx' & Hne).
  by exists out, c, f, x, x'.
Defined.

(** ** The shape of the matrices *)

Lemma stacked_row_lengths (files : list promice_file) (dt : Z)
    (out : list string) (cs : list stacked) (c : stacked) :
  BIC_composite_stack files dt = (out, inr cs) -> c ∈ cs ->
  length (air_temperature_row c) = Z.to_nat (2 * dt + 1) /\
  length (ice_ablation_row c) = Z.to_nat (2 * dt + 1) /\
  length (snow_height_row c) = Z.to_nat (2 * dt + 1) /\
  length (albedo_row c) = Z.to_nat (2 * dt + 1).
Proof.
  intros H Hc.
  destruct (stacked_rows_padded _ _ _ _ _ H Hc)
    as (df_corr & BID & n & _ & _ & _ & H1 & H2 & H3 & H4).
  done.
Qed.

(** X16: every matrix of the composite that [BIC_composite] returns is
    rectangular: [dt] is not negative, the column labels are the offsets
    [-dt .. dt], every row has one cell per column label, [2 * dt + 1] of
    them, and there is one row label per row. *)
Theorem composite_matrices_rectangular (files : list promice_file) (dt : Z)
    (out : list string) (comp : composite) (m : labelled) :
  BIC_composite files dt = (out, inr comp) ->
  m ∈ matrices comp ->
  0 <= dt
  /\ columns m = seqZ (- dt) (2 * dt + 1)
  /\ length (index m) = length (values m)
  /\ Forall (fun row => length row = length (columns m)) (values m).
Proof.
  intros H Hm.
  apply BIC_composite_inr in H as (cs & Hcs & _ & ->).
  assert (Hdt : 0 <= dt).
  { unfold BIC_composite_stack in Hcs.
    destruct (2 * dt + 1 <? 0) eqn:E; [discriminate|].
    apply Z.ltb_ge in E. lia. }
  assert (Hcols : columns m = seqZ (- dt) (2 * dt + 1)).
  { unfold matrices, labelled_composite in Hm. simpl in Hm.
    repeat (apply elem_of_cons in Hm as [->|Hm];
            [simpl; unfold arange; f_equal; lia|]).
    by apply elem_of_nil in Hm. }
  split; [done|]. split; [done|]. rewrite Hcols, length_seqZ.
  unfold matrices, labelled_composite in Hm. simpl in Hm.
  repeat (apply elem_of_cons in Hm as [->|Hm];
          [simpl; rewrite !length_map; split; [done|];
           apply Forall_fmap, Forall_forall; intros c Hc; simpl;
           destruct (stacked_row_lengths _ _ _ _ _ Hcs Hc) as (?&?&?&?); done|]).
  by apply elem_of_nil in Hm.
Qed.

Lemma composite_matrices_rectangular_witness :
  exists out comp,
    BIC_composite two_years 2 = (out, inr comp)
    /\ columns (albedo_unitless comp) = seqZ (-2) 5
    /\ Forall (fun row => length row = 5%nat) (values (albedo_unitless comp)).
Proof.
  destruct (BIC_composite two_years 2) as [out [e|comp]] eqn:H;
    [by vm_compute in H|].
  exists out, comp. split; [done|].
  destruct (composite_matrices_rectangular _ _ _ _ (albedo_unitless comp) H)
    as (_ & Hc & _ & Hr).
  { unfold matrices. do 3 right. left. }
  split; [exact Hc|]. by rewrite Hc in Hr.
Defined.

(** ** [load_data] with a list of years *)

(** X17: called with a list of years, [load_data] compares the column
    [Year] with the list position by position: it raises ValueError unless
    the list has one entry per row of the file, and a row that it returns
    is a row of the file whose year is the entry of the list at the
    position of the row. *)
Theorem load_data_year_list (file : promice_file) (ys : list Z) :
  (length ys <> length (table file) ->
   load_data file (yr_list ys)
   = raise (ValueError "Lengths must match to compare"))
  /\ (forall out site yr df,
        load_data file (yr_list ys) = (out, inr (site, yr, Some df)) ->
        length ys = length (table file)
        /\ forall r, r ∈ df ->
             exists k r0, table file !! k = Some r0 /\ r = normalise r0
                          /\ ys !! k = Some (Year r0)).
Proof.
  unfold load_data. split.
  - intros Hne. rewrite length_map.
    apply Nat.eqb_neq in Hne. by rewrite Hne.
  - intros out site yr df. rewrite length_map.
    destruct (length ys =? length (table file))%nat eqn:E; [|discriminate].
    apply Nat.eqb_eq in E. rewrite bind_ret_l.
    destruct (select _ _) as [|r1 rs] eqn:Hs.
    + intros H. apply bind_inr in H as (? & ? & ? & _ & H & _).
      apply ret_inr in H. discriminate.
    + intros H. apply ret_inr in H. injection H as _ _ <-.
      split; [done|]. intros r Hr. rewrite <- Hs in Hr.
      apply elem_of_select in Hr as (k & Hm & Hk).
      apply lookup_zip_with_Some in Hm as (a & b & Hab & Ha & Hb).
      apply list_lookup_fmap_Some in Hk as (r0 & -> & Hr0).
      rewrite !list_lookup_fmap, Hr0 in Ha. simpl in Ha. injection Ha as <-.
      symmetry in Hab. apply Z.eqb_eq in Hab.
      exists k, r0. split; [done|]. split; [done|]. by rewrite Hb, <- Hab.
Qed.

Lemma load_data_year_list_witness :
  load_data
    {| station := "KAN_M";
       table := [observation 2012 160 None None None None;
                 observation 2013 160 None None None None] |}
    (yr_list [2012])
  = raise (ValueError "Lengths must match to compare")
  /\ exists out site yr df,
       load_data
         {| station := "KAN_M";
            table := [observation 2012 160 None None None None;
                      observation 2013 160 None None None None] |}
         (yr_list [2012; 2012])
       = (out, inr (site, yr, Some df))
       /\ length df = 1%nat
       /\ forall r, r ∈ df -> Year r = 2012.
Proof.
  split.
  - apply (load_data_year_list
             {| station := "KAN_M";
                table := [observation 2012 160 None None None None;
                          observation 2013 160 None None None None] |}
             [2012]).
    simpl. lia.
  - eexists _, _, _, _. split; [reflexivity|]. split; [reflexivity|].
    intros r Hr.
    destruct (load_data_year_list
                {| station := "KAN_M";
                   table := [observation 2012 160 None None None None;
                             observation 2013 160 None None None None] |}
                [2012; 2012]) as [_ H].
    destruct (H _ _ _ _ eq_refl) as [_ Hrows].
    destruct (Hrows r Hr) as (k & r0 & Hk & -> & Hy).
    destruct k as [|[|k]]; simpl in Hy; [| |done];
      simpl; injection Hy as Hy; by rewrite <- Hy.
Defined.

(** ** A full window is aligned on the bare-ice day *)

(** X18: for every stacked station-year there are the processed table of
    its station and the BID of its year such that, when the rows of the
    year with a day in [BID - dt .. BID + dt] are one per day, in order,
    nothing is padded: column [k] of the air-temperature, ice-ablation and
    albedo rows holds the value of day [BID - dt + k]. *)
Theorem full_window_is_aligned (files : list promice_file) (dt : Z)
    (out : list string) (cs : list stacked) (c : stacked) :
  BIC_composite_stack files dt = (out, inr cs) -> c ∈ cs ->
  exists f df_corr r0 BID,
    file_of (from_station c) files = Some f /\ processed f df_corr /\
    r0 ∈ Proc.rows df_corr /\ Proc.Year r0 = from_year c /\
    Proc.BID r0 = Some BID /\
    let w := window_rows dt (from_year c) BID df_corr in
    (map Proc.DOY w = seqZ (BID - dt) (2 * dt + 1) ->
     forall k r, w !! k = Some r ->
       Proc.DOY r = BID - dt + Z.of_nat k /\
       air_temperature_row c !! k = Some (Proc.Air_temperature_C r) /\
       ice_ablation_row c !! k = Some (Proc.DPT_proc r) /\
       albedo_row c !! k = Some (Proc.Albedo_theta_inf_70d r)).
Proof.
  intros H Hc.
  destruct (BIC_composite_stack_elem _ _ _ _ _ H Hc)
    as (Hdt & f & df_corr & out' & Hf & Hp & Hy).
  destruct (composite_year_Some _ _ _ _ _ _ Hy)
    as (r0 & BID & n & Hr0 & Hyr & _ & _ & HB & Hn & Hceq).
  exists f, df_corr, r0, BID. repeat (split; [done|]).
  intros w Hw k r Hk.
  assert (Hd : Proc.DOY r = BID - dt + Z.of_nat k).
  { assert (HD : map Proc.DOY w !! k = Some (Proc.DOY r))
      by by rewrite list_lookup_fmap, Hk.
    rewrite Hw in HD. apply lookup_seqZ in HD as [HD _]. lia. }
  split; [done|].
  assert (Hair : air_temperature_row c
                 = pad n (map Proc.Air_temperature_C w))
    by (subst w; by rewrite Hceq).
  assert (Hice : ice_ablation_row c = pad n (map Proc.DPT_proc w))
    by (subst w; by rewrite Hceq).
  assert (Halb : albedo_row c = pad n (map Proc.Albedo_theta_inf_70d w))
    by (subst w; by rewrite Hceq).
  rewrite Hair, Hice, Halb. unfold pad.
  rewrite !lookup_app_l by (rewrite length_map; by apply lookup_lt_Some in Hk).
  by rewrite !list_lookup_fmap, Hk.
Qed.

Lemma full_window_is_aligned_witness :
  exists out c,
    BIC_composite_stack
      [ {| station := "KAN_M";
           table :=
             [observation 2011 200 (Some 0%Q) (Some 0.8%Q) (Some 0%Q) (Some 2%Q);
              observation 2012 160 (Some 0%Q) (Some 0.8%Q) (Some 160%Q) (Some 2%Q);
              observation 2012 170 (Some 0%Q) (Some 0.8%Q) (Some 170%Q) (Some 2%Q);
              observation 2012 171 (Some (-1)%Q) (Some 0.8%Q) (Some 171%Q) (Some 2%Q);
              observation 2012 172 (Some (-1)%Q) (Some 0.8%Q) (Some 172%Q) (Some 2%Q)]
        |} ] 1
    = (out, inr [c])
    /\ air_temperature_row c !! 0%nat = Some (Some 170%Q)
    /\ air_temperature_row c !! 1%nat = Some (Some 171%Q).
Proof.
  destruct (BIC_composite_stack _ 1) as [out [e|cs]] eqn:H;
    [by vm_compute in H|].
  pose proof H as H'. vm_compute in H'. injection H' as <- <-.
  eexists _, _. split; [reflexivity|].
  destruct (full_window_is_aligned _ _ _ _ _ H ltac:(left))
    as (f & df_corr & r0 & BID & Hf & [_ [out' Hp]] & Hr0 & Hy & HB & Hal).
  vm_compute in Hf. injection Hf as <-.
  vm_compute in Hp. injection Hp as _ <-.
  assert (HBID : BID = 171).
  { simpl in Hr0, Hy.
    repeat (apply elem_of_cons in Hr0 as [->|Hr0];
            [simpl in Hy, HB; first [discriminate Hy|by injection HB]|]).
    by apply elem_of_nil in Hr0. }
  subst BID.
  edestruct (Hal eq_refl 0%nat) as (_ & Ha0 & _); [reflexivity|].
  edestruct (Hal eq_refl 1%nat) as (_ & Ha1 & _); [reflexivity|].
  split; [exact Ha0|exact Ha1].
Defined.

(** ** One unbound flag stops the whole composite *)

Lemma BIC_processing_unbound_year (site : string) (df : list raw_row)
    (x : raw_row) :
  x ∈ df -> leaves_flag_unbound site (Year x) = true ->
  exists out, BIC_processing site yr_all (Some df)
              = (out, inl (UnboundLocalError "DPT_flag")).
Proof.
  intros Hx Hl. unfold BIC_processing, attr_of. rewrite !bind_ret_l.
  pose proof (BIC_loop_by_leaves_flag_unbound site df
                (Counter_keys (map Year df)) 0%nat None) as H.
  rewrite existsb_Counter_keys in H.
  replace (existsb (leaves_flag_unbound site) (map Year df)) with true in H.
  - destruct H as [out ->]; [done|]. by eexists.
  - symmetry. apply existsb_exists. exists (Year x). split; [|done].
    apply list_elem_of_In, list_elem_of_fmap. by exists x.
Qed.

Lemma composite_stations_all_return (files : list promice_file) (dt : Z)
    (sites : list string) :
  forall (out : list string) (cs : list stacked) (s : string),
    composite_stations files dt sites = (out, inr cs) -> s ∈ sites ->
    exists out' cs', composite_station files dt s = (out', inr cs').
Proof.
  induction sites as [|s0 sites IH]; intros out cs s H Hs.
  - by apply elem_of_nil in Hs.
  - simpl in H.
    apply bind_inr in H as (out1 & rs & out2 & Hs0 & H & _).
    apply bind_inr in H as (out3 & rs' & out4 & Hrest & _ & _).
    apply elem_of_cons in Hs as [->|Hs]; [by eexists _, _|].
    by apply (IH _ _ _ Hrest).
Qed.

Lemma composite_station_unbound_year (files : list promice_file) (dt : Z)
    (s : string) (f : promice_file) (x : raw_row) :
  file_of s files = Some f -> x ∈ table f ->
  leaves_flag_unbound s (Year x) = true ->
  exists out, composite_station files dt s
              = (out, inl (UnboundLocalError "DPT_flag")).
Proof.
  intros Hf Hx Hl. unfold composite_station.
  destruct (String.eqb s "CEN" || String.eqb s "EGP" || String.eqb s "KAN_U")
    eqn:E.
  - exfalso. apply orb_true_iff in E as [E|E];
      [apply orb_true_iff in E as [E|E]|];
      apply String.eqb_eq in E; subst s; by vm_compute in Hl.
  - rewrite Hf, bind_ret_l.
    destruct (file_of_Some _ _ _ Hf) as [Hst _].
    assert (Hload : load_data f yr_all
                    = ([], inr (s, yr_all, Some (map normalise (table f))))).
    { unfold load_data. rewrite bind_ret_l, Hst.
      destruct (table f); [by apply elem_of_nil in Hx|done]. }
    rewrite (bind_step _ _ _ _ Hload). simpl.
    destruct (BIC_processing_unbound_year s (map normalise (table f))
                (normalise x)) as [out Hb].
    + apply list_elem_of_fmap. by exists x.
    + done.
    + rewrite (bind_inl _ _ _ _ Hb). by eexists.
Qed.

(** X19: when the file read for a station holds a row of a year for which
    the chain leaves [DPT_flag] unbound (any year of a station that the
    chain does not name, a year other than 2018 and 2019 of THU_U2),
    [BIC_composite] returns no composite at all, whatever the other
    stations are. *)
Theorem unbound_flag_stops_composite (files : list promice_file) (dt : Z)
    (s : string) (f : promice_file) (x : raw_row) :
  file_of s files = Some f -> x ∈ table f ->
  leaves_flag_unbound s (Year x) = true ->
  forall out comp, BIC_composite files dt <> (out, inr comp).
Proof.
  intros Hf Hx Hl out comp H. unfold BIC_composite in H.
  apply bind_inr in H as (out1 & cs & out2 & Hcs & _ & _).
  unfold BIC_composite_stack in Hcs.
  destruct (2 * dt + 1 <? 0); [discriminate|].
  destruct (composite_stations_all_return _ _ _ _ _ s Hcs) as (o & cs' & Hs).
  - apply Counter_keys_elem_of, list_elem_of_fmap.
    destruct (file_of_Some _ _ _ Hf) as [Hst Hin]. by exists f.
  - destruct (composite_station_unbound_year files dt s f x Hf Hx Hl)
      as [o' Hs'].
    rewrite Hs' in Hs. discriminate.
Qed.

Lemma unbound_flag_stops_composite_witness :
  exists out e,
    BIC_composite
      [ {| station := "KAN_M";
           table := [observation 2012 160 (Some 0%Q) (Some 0.8%Q) None None] |};
        {| station := "THU_U2";
           table := [observation 2017 160 (Some 0%Q) (Some 0.8%Q) None None] |} ]
      45
    = (out, inl e).
Proof.
  destruct (BIC_composite _ 45) as [out [e|comp]] eqn:H; [by exists out, e|].
  exfalso.
  apply (unbound_flag_stops_composite
           [ {| station := "KAN_M";
                table := [observation 2012 160 (Some 0%Q) (Some 0.8%Q) None None] |};
             {| station := "THU_U2";
                table := [observation 2017 160 (Some 0%Q) (Some 0.8%Q) None None] |} ]
           45 "THU_U2"
           {| station := "THU_U2";
              table := [observation 2017 160 (Some 0%Q) (Some 0.8%Q) None None] |}
           (observation 2017 160 (Some 0%Q) (Some 0.8%Q) None None)
           eq_refl ltac:(left) eq_refl out comp H).
Defined.

(** ** [BIC_processing] over a list of years *)

(** X20: when the years are given as a list, [BIC_processing] processes
    them in list order and as often as they are listed: the list is not
    empty, and the rows of the table, by year, day and air temperature, are
    the rows of each listed year in turn, so that the rows of a year listed
    twice are in the table twice. *)
Theorem BIC_processing_year_list (site : string) (ys : list Z)
    (df : list raw_row) (out : list string) (t : Proc.table) :
  BIC_processing site (yr_list ys) (Some df) = (out, inr t) ->
  ys <> []
  /\ map row_key (Proc.rows t)
     = map raw_key (flat_map (fun y => filter (fun x => Year x = y) df) ys).
Proof.
  unfold BIC_processing. rewrite !bind_ret_l. intros H.
  apply bind_inr in H as (out1 & acc & out2 & Hloop & Hread & _).
  destruct acc as [t'|]; [|discriminate]. apply ret_inr in Hread. subst t'.
  split.
  - intros ->. discriminate.
  - destruct (BIC_loop_frames site df ys 0%nat None out1 (Some t) Hloop)
      as (ts & Ht & Hlen & Hts); [done|].
    rewrite (rows_append_frames ts None t (eq_sym Ht)). simpl.
    rewrite !map_flat_map.
    apply flat_map_lookup_ext; [done|].
    intros k t' y Ht' Hy. destruct (Hts k y t' Hy Ht') as [out' Hp].
    by apply row_key_process_year in Hp.
Qed.

Lemma BIC_processing_year_list_witness :
  exists out t,
    BIC_processing "KAN_M" (yr_list [2012; 2012])
      (Some [observation 2012 160 (Some 0%Q) (Some 0.8%Q) (Some 1%Q) None;
             observation 2012 161 (Some 0%Q) (Some 0.8%Q) (Some 3%Q) None])
    = (out, inr t)
    /\ map row_key (Proc.rows t)
       = [(2012, 160, Some 1%Q); (2012, 161, Some 3%Q);
          (2012, 160, Some 1%Q); (2012, 161, Some 3%Q)].
Proof.
  destruct (BIC_processing "KAN_M" (yr_list [2012; 2012])
      (Some [observation 2012 160 (Some 0%Q) (Some 0.8%Q) (Some 1%Q) None;
             observation 2012 161 (Some 0%Q) (Some 0.8%Q) (Some 3%Q) None]))
    as [out [e|t]] eqn:H; [by vm_compute in H|].
  exists out, t. split; [done|].
  by destruct (BIC_processing_year_list _ _ _ _ _ H) as [_ ->].
Defined.

(** ** The statements of a branch in the series that [DPT_processing] returns *)

Lemma adjusted_depth_in_order (site : string) (df : list raw_row) (year : Z) :
  adjusted_depth site df year = adjusted_in_order site df year.
Proof.
  apply list_eq. intros k. unfold adjusted_in_order.
  rewrite list_lookup_fmap.
  destruct (df !! k) as [r|] eqn:Hk; simpl.
  - by apply lookup_adjusted_depth.
  - apply lookup_ge_None. rewrite length_adjusted_depth.
    by apply lookup_ge_None.
Qed.

Lemma KAN_L_2009_in_order (d : Z) (v : Q) :
  260 <= d -> d <> 276 -> (-3.2 <= v)%Q ->
  adjust_cell_in_order (stmts (chain_locals "KAN_L" 2009).1) d (Some v)
  = Some (-3.5)%Q.
Proof.
  intros Hd H276 Hle.
  change (stmts (chain_locals "KAN_L" 2009).1)
    with [assign_nan [doy_ge 250; z_ge (-3.2)];
          assign [doy_ge 260; z_isnan] (-3.5);
          assign_nans (day 276)].
  unfold adjust_cell_in_order. cbn -[Z.eqb Z.geb Qle_bool].
  rewrite (Qle_bool_true _ _ Hle).
  replace (d >=? 250) with true by lia.
  replace (d >=? 260) with true by lia.
  cbn -[Z.eqb Z.geb Qle_bool].
  replace (d >=? 260) with true by lia.
  cbn -[Z.eqb Z.geb Qle_bool].
  replace (276 =? d) with false by lia.
  reflexivity.
Qed.

Lemma KAN_L_2010_in_order (d : Z) (v : Q) :
  260 <= d -> d <> 284 -> (-5.1 <= v)%Q ->
  adjust_cell_in_order (stmts (chain_locals "KAN_L" 2010).1) d (Some v)
  = Some (-5.45)%Q.
Proof.
  intros Hd H284 Hle.
  change (stmts (chain_locals "KAN_L" 2010).1)
    with [assign_nan [doy_ge 260; z_ge (-5.1)];
          isub [doy_ge 280] 0.1;
          assign [doy_ge 260; z_isnan] (-5.45);
          assign_nans (days [136; 284])].
  unfold adjust_cell_in_order. cbn -[Z.eqb Z.geb Qle_bool].
  rewrite (Qle_bool_true _ _ Hle).
  replace (d >=? 260) with true by lia.
  cbn -[Z.eqb Z.geb Qle_bool].
  destruct (d >=? 280); cbn -[Z.eqb Z.geb Qle_bool];
    replace (d >=? 260) with true by lia;
    cbn -[Z.eqb Z.geb Qle_bool];
    replace (136 =? d) with false by lia;
    replace (284 =? d) with false by lia;
    reflexivity.
Qed.

(** C8: the depth series that [DPT_processing] returns is, sample by
    sample, the result of the adjustments of the branch applied in table
    order, each predicate evaluated on the value that the earlier
    adjustments left, minus the baseline; the baseline is missing for a
    confidence flag other than 3 and is, for flag 3, the mean of the
    samples so adjusted over the pre-onset window.  In KAN_L 2009 a sample
    from day 260 on (other than day 276) whose raw depth is at least -3.2
    is first made missing and then, being missing, set to -3.5, and is
    returned as -3.5 minus the baseline; in KAN_L 2010 a sample from day
    260 on (other than day 284) whose raw depth is at least -5.1 is
    returned as -5.45 minus the baseline. *)
Theorem C8_masks_see_current_series (site : string) (df : list raw_row)
    (year : Z) (out : list string) (z albedo : list cell) (f : Z)
    (b : option Z) (af : Z) :
  DPT_processing site df year = (out, inr (z, albedo, f, b, af)) ->
  exists base,
    z = map (fun x => cell_sub x base) (adjusted_in_order site df year)
    /\ (f <> 3 -> base = nan)
    /\ (f = 3 ->
        exists i,
          approximate_onset_day site year = Some i /\
          base = nanmean (select (pre_onset_window i (map DayOfYear df))
                                 (adjusted_in_order site df year)))
    /\ (forall k r v,
          df !! k = Some r -> DepthPressureTransducer_Cor r = Some v ->
          260 <= DayOfYear r ->
          (site = "KAN_L" -> year = 2009 ->
           DayOfYear r <> 276 -> (-3.2 <= v)%Q ->
           z !! k = Some (cell_sub (Some (-3.5)%Q) base))
          /\ (site = "KAN_L" -> year = 2010 ->
              DayOfYear r <> 284 -> (-5.1 <= v)%Q ->
              z !! k = Some (cell_sub (Some (-5.45)%Q) base))).
Proof.
  intros H. apply DPT_processing_inv in H as [_ H].
  assert (Hbase : exists base,
    z = map (fun x => cell_sub x base) (adjusted_in_order site df year)
    /\ (f <> 3 -> base = nan)
    /\ (f = 3 ->
        exists i,
          approximate_onset_day site year = Some i /\
          base = nanmean (select (pre_onset_window i (map DayOfYear df))
                                 (adjusted_in_order site df year)))).
  { destruct H as [(Hne & -> & _)|(-> & i & Hi & Hz & _)].
    - exists nan. split; [|split; [done|by intros ?]].
      rewrite map_sub_nan. unfold adjusted_in_order. by rewrite length_map.
    - exists (nanmean (select (pre_onset_window i (map DayOfYear df))
                              (adjusted_in_order site df year))).
      split; [|split; [by intros ?|intros _; by exists i]].
      rewrite Hz. unfold baselined. by rewrite adjusted_depth_in_order. }
  destruct Hbase as (base & Hz & Hne & H3).
  exists base. split; [done|]. split; [done|]. split; [done|].
  intros k r v Hk Hv Hd.
  assert (Hzk : z !! k
                = Some (cell_sub
                          (adjust_cell_in_order (stmts (chain_locals site year).1)
                             (DayOfYear r) (Some v)) base)).
  { rewrite Hz. unfold adjusted_in_order.
    by rewrite !list_lookup_fmap, Hk, <- Hv. }
  split.
  - intros -> -> H276 Hle. by rewrite Hzk, KAN_L_2009_in_order.
  - intros -> -> H284 Hle. by rewrite Hzk, KAN_L_2010_in_order.
Qed.

Lemma C8_masks_witness :
  exists out z albedo b af,
    DPT_processing "KAN_L"
      [observation 2009 100 (Some 1%Q) (Some 0.8%Q) None None;
       observation 2009 261 (Some (-3.1)%Q) (Some 0.8%Q) None None] 2009
    = (out, inr (z, albedo, 3, b, af))
    /\ z !! 0%nat = Some (Some 0%Q)
    /\ z !! 1%nat = Some (Some (-4.5)%Q).
Proof.
  destruct (DPT_processing "KAN_L"
      [observation 2009 100 (Some 1%Q) (Some 0.8%Q) None None;
       observation 2009 261 (Some (-3.1)%Q) (Some 0.8%Q) None None] 2009)
    as [out [e|[[[[z albedo] f] b] af]]] eqn:H; [by vm_compute in H|].
  assert (Hf : f = 3) by (vm_compute in H; by injection H as _ _ _ <- _ _).
  subst f. exists out, z, albedo, b, af. split; [done|].
  destruct (C8_masks_see_current_series _ _ _ _ _ _ _ _ _ H)
    as (base & Hz & _ & H3 & HK).
  destruct (H3 eq_refl) as (i & Hi & Hb).
  vm_compute in Hi. injection Hi as <-.
  vm_compute in Hb. subst base. split.
  - rewrite Hz. reflexivity.
  - destruct (HK 1%nat
                (observation 2009 261 (Some (-3.1)%Q) (Some 0.8%Q) None None)
                (-3.1)%Q eq_refl eq_refl) as [H09 _]; [simpl; lia|].
    exact (H09 eq_refl eq_refl ltac:(simpl; lia) ltac:(by vm_compute)).
Defined.

(** ** The first year of a station in the composite *)

Lemma composite_stations_incl (files : list promice_file) (dt : Z)
    (sites : list string) :
  forall (out : list string) (cs : list stacked) (s : string),
    composite_stations files dt sites = (out, inr cs) -> s ∈ sites ->
    exists out' cs',
      composite_station files dt s = (out', inr cs')
      /\ forall c, c ∈ cs' -> c ∈ cs.
Proof.
  induction sites as [|s0 sites IH]; intros out cs s H Hs.
  - by apply elem_of_nil in Hs.
  - simpl in H.
    apply bind_inr in H as (out1 & rs & out2 & Hs0 & H & _).
    apply bind_inr in H as (out3 & rs' & out4 & Hrest & Hret & _).
    apply ret_inr in Hret. subst cs.
    apply elem_of_cons in Hs as [->|Hs].
    + exists out1, rs. split; [done|].
      intros c Hc. apply elem_of_app. by left.
    + destruct (IH _ _ _ Hrest Hs) as (o & cs' & Hc' & Hincl).
      exists o, cs'. split; [done|].
      intros c Hc. apply elem_of_app. right. by apply Hincl.
Qed.

Lemma composite_years_incl (s : string) (dt : Z) (df_corr : Proc.table)
    (years : list Z) :
  forall (out : list string) (cs : list stacked) (year : Z),
    composite_years s dt df_corr years = (out, inr cs) -> year ∈ years ->
    exists out' r,
      composite_year s dt df_corr year = (out', inr r)
      /\ forall c, r = Some c -> c ∈ cs.
Proof.
  induction years as [|y years IH]; intros out cs year H Hy.
  - by apply elem_of_nil in Hy.
  - simpl in H.
    apply bind_inr in H as (out1 & r & out2 & Hr & H & _).
    apply bind_inr in H as (out3 & rs & out4 & Hrs & Hret & _).
    apply ret_inr in Hret. subst cs.
    apply elem_of_cons in Hy as [->|Hy].
    + exists out1, r. split; [done|]. intros c ->. left.
    + destruct (IH _ _ _ Hrs Hy) as (o & r' & Hr' & Hincl).
      exists o, r'. split; [done|].
      intros c Hc. destruct r; [right|]; by apply Hincl.
Qed.

Lemma composite_station_years (files : list promice_file) (dt : Z)
    (s : string) (f : promice_file) (out : list string) (cs : list stacked) :
  composite_station files dt s = (out, inr cs) ->
  file_of s files = Some f ->
  String.eqb s "CEN" || String.eqb s "EGP" || String.eqb s "KAN_U" = false ->
  exists df_corr out',
    processed f df_corr /\
    composite_years s dt df_corr
      (Counter_keys (map Proc.Year (Proc.rows df_corr))) = (out', inr cs).
Proof.
  unfold composite_station. intros H Hf Hskip.
  rewrite Hskip, Hf, bind_ret_l in H.
  apply bind_inr in H as (out1 & [[site yr] df] & out2 & Hload & H & _).
  apply bind_inr in H as (out3 & df_corr & out4 & Hproc & H & _).
  exists df_corr, out4. split; [|done].
  unfold load_data in Hload. rewrite bind_ret_l in Hload.
  destruct (map normalise (table f)) as [|r rs] eqn:Hn.
  - apply bind_inr in Hload as (? & ? & ? & _ & Hload & _).
    apply ret_inr in Hload. injection Hload as <- <- <-. discriminate.
  - apply ret_inr in Hload. injection Hload as <- <- <-.
    split; [by destruct (table f)|]. rewrite Hn. by exists out3.
Qed.

(** A year whose first row carries flag 3, albedo flag 1: when the body of
    the loop returns, it has stacked the year. *)
Lemma composite_year_stacks (s : string) (dt : Z) (df_corr : Proc.table)
    (year : Z) (r0 : Proc.row) (rest : list Proc.row) (out : list string)
    (r : option stacked) :
  filter (fun x => Proc.Year x = year) (Proc.rows df_corr) = r0 :: rest ->
  Proc.DPT_flag r0 = 3 -> Proc.Albedo_flag r0 = 1 ->
  composite_year s dt df_corr year = (out, inr r) ->
  exists c, r = Some c.
Proof.
  unfold composite_year. intros -> -> ->. simpl.
  destruct (Proc.BID r0) as [BID|]; [|discriminate].
  rewrite bind_ret_l. intros H.
  apply bind_inr in H as (out1 & n & out2 & Hn & H & _).
  apply bind_inr in H as (out3 & boom & out4 & Hboom & H & _).
  apply ret_inr in H. by eexists.
Qed.

Lemma qualifying_not_skipped (files : list promice_file) (s : string) (y : Z) :
  qualifying files s y ->
  String.eqb s "CEN" || String.eqb s "EGP" || String.eqb s "KAN_U" = false.
Proof.
  intros (f & out & z & albedo & BID & _ & HD).
  apply DPT_processing_flag in HD.
  destruct (_ || _) eqn:E; [|done]. exfalso.
  apply orb_true_iff in E as [E|E]; [apply orb_true_iff in E as [E|E]|];
    apply String.eqb_eq in E; subst s; by vm_compute in HD.
Qed.

Lemma first_year_in_table (site : string) (df : list raw_row) (x : raw_row)
    (out : list string) (t : Proc.table) :
  BIC_processing site yr_all (Some df) = (out, inr t) -> x ∈ df ->
  exists r, r ∈ Proc.rows t /\ Proc.Year r = Year x.
Proof.
  intros H Hx. apply BIC_processing_row_keys in H.
  assert (Hk : raw_key x ∈ map row_key (Proc.rows t)).
  { rewrite H. apply list_elem_of_fmap. exists x. split; [done|].
    by rewrite grouped_by_year_Permutation. }
  apply list_elem_of_fmap in Hk as (r & Hkey & Hr).
  exists r. split; [done|]. unfold raw_key, row_key in Hkey. congruence.
Qed.

(** A first year that qualifies is stacked, when the loop over the stations
    comes to its end. *)
Lemma first_year_stacked (files : list promice_file) (dt : Z)
    (out : list string) (cs : list stacked) (s : string) (f : promice_file)
    (x0 : raw_row) (rest : list raw_row) :
  BIC_composite_stack files dt = (out, inr cs) ->
  file_of s files = Some f ->
  table f = x0 :: rest ->
  qualifying files s (Year x0) ->
  exists c, c ∈ cs /\ from_station c = s /\ from_year c = Year x0.
Proof.
  intros H Hf Ht Hq.
  pose proof (qualifying_not_skipped _ _ _ Hq) as Hskip.
  destruct (file_of_Some _ _ _ Hf) as [Hst Hin].
  unfold BIC_composite_stack in H.
  destruct (2 * dt + 1 <? 0); [discriminate|].
  destruct (composite_stations_incl _ _ _ _ _ s H) as (o1 & cs' & Hs & Hincl).
  { apply Counter_keys_elem_of, list_elem_of_fmap. by exists f. }
  destruct (composite_station_years _ _ _ _ _ _ Hs Hf Hskip)
    as (df_corr & o2 & [_ [o3 Hp]] & Hyears).
  rewrite Hst in Hp.
  assert (Hx0 : normalise x0 ∈ map normalise (table f)).
  { rewrite Ht. left. }
  destruct (first_year_in_table _ _ _ _ _ Hp Hx0) as (r & Hr & Hyr).
  change (Year (normalise x0)) with (Year x0) in Hyr.
  destruct (composite_years_incl _ _ _ _ _ _ (Year x0) Hyears)
    as (o4 & res & Hcy & Hres).
  { apply Counter_keys_elem_of, list_elem_of_fmap. by exists r. }
  destruct (filter (fun x => Proc.Year x = Year x0) (Proc.rows df_corr))
    as [|r0 rest'] eqn:Hfil.
  { exfalso. assert (Hr' : r ∈ filter (fun x => Proc.Year x = Year x0)
                                  (Proc.rows df_corr))
      by by apply list_elem_of_filter.
    rewrite Hfil in Hr'. by apply elem_of_nil in Hr'. }
  assert (Hr0 : r0 ∈ Proc.rows df_corr /\ Proc.Year r0 = Year x0).
  { assert (Hr' : r0 ∈ filter (fun x => Proc.Year x = Year x0)
                          (Proc.rows df_corr)) by (rewrite Hfil; left).
    apply list_elem_of_filter in Hr'. tauto. }
  destruct Hr0 as [Hr0 Hy0].
  pose proof (BIC_processing_all_rows _ _ _ _ Hp) as Hall.
  rewrite Forall_forall in Hall.
  destruct (Hall r0 Hr0) as [(o5 & z5 & a5 & HD) _].
  destruct Hq as (f' & o6 & z6 & a6 & BID & Hf' & HD').
  rewrite Hf in Hf'. injection Hf' as <-.
  rewrite Hy0, HD' in HD. injection HD as _ _ _ Hflag HB Haf.
  destruct (composite_year_stacks _ _ _ _ _ _ _ _ Hfil (eq_sym Hflag)
              (eq_sym Haf) Hcy) as [c ->].
  exists c. split; [by apply Hincl, Hres|].
  destruct (composite_year_Some _ _ _ _ _ _ Hcy)
    as (? & ? & ? & _ & _ & _ & _ & _ & _ & ->).
  done.
Qed.

(** The snow-height row stacked for the first year of a file is all
    missing. *)
Lemma first_year_row_missing (files : list promice_file) (dt : Z)
    (out : list string) (cs : list stacked) (c : stacked) (f : promice_file)
    (x0 : raw_row) (rest : list raw_row) :
  BIC_composite_stack files dt = (out, inr cs) -> c ∈ cs ->
  file_of (from_station c) files = Some f ->
  table f = x0 :: rest ->
  from_year c = Year x0 ->
  snow_height_row c = replicate (Z.to_nat (2 * dt + 1)) nan.
Proof.
  intros Hcs Hc Hf Ht Hy.
  destruct (BIC_composite_stack_elem _ _ _ _ _ Hcs Hc)
    as (_ & f' & df_corr & out' & Hf' & Hp & Hcy).
  rewrite Hf in Hf'. injection Hf' as <-.
  destruct (composite_year_Some _ _ _ _ _ _ Hcy)
    as (r0 & BID & n & _ & _ & _ & _ & _ & Hlen & Hceq).
  pose proof (f_equal snow_height_row Hceq) as Hsnow. simpl in Hsnow.
  rewrite Hsnow. unfold pad.
  rewrite (map_all_nan Proc.Height_sensor_boom_m).
  - rewrite <- replicate_add, Hlen. apply rebased_all_nan.
  - apply Forall_forall. intros r Hr.
    apply window_rows_elem in Hr as [Hr Hyr].
    destruct Hp as (_ & out1 & Hp).
    pose proof (BIC_processing_all_rows _ _ _ _ Hp) as Hall.
    rewrite Forall_forall in Hall. destruct (Hall r Hr) as [_ Hst].
    rewrite Ht in Hst.
    destruct (Hst (normalise x0) (map normalise rest) eq_refl)
      as (x & _ & _ & Hb).
    rewrite bool_decide_eq_true_2 in Hb by (simpl; congruence).
    by destruct Hb.
Qed.

(** C9 (as stated, refuted): in [boom_step_at_200] the first year of the
    file of KAN_M is 2011, which has confidence flag 0; [BIC_composite]
    returns a composite whose snow-height matrix has the single row
    KAN_M_2012: the first processed year of the station contributes no row
    at all, and the row of 2012, a later year, is not all missing. *)
Lemma C9_first_year_without_row :
  exists out comp f x0 rest row,
    BIC_composite boom_step_at_200 45 = (out, inr comp) /\
    file_of "KAN_M" boom_step_at_200 = Some f /\
    table f = x0 :: rest /\ Year x0 = 2011 /\
    confidence_flag "KAN_M" 2011 = Some 0 /\
    index (snow_height_meters comp) = ["KAN_M_2012"] /\
    (label_of "KAN_M" 2011 ∉ index (snow_height_meters comp)) /\
    values (snow_height_meters comp) = [row] /\
    row <> replicate (Z.to_nat (2 * 45 + 1)) nan.
Proof.
  eexists _, _, _, _, _, _.
  split; [vm_compute; reflexivity|].
  split; [reflexivity|]. split; [reflexivity|]. split; [reflexivity|].
  split; [reflexivity|]. split; [vm_compute; reflexivity|].
  split; [|split; [vm_compute; reflexivity|]].
  - intros Hin. apply list_elem_of_singleton in Hin. by vm_compute in Hin.
  - intros Heq. by vm_compute in Heq.
Qed.

(** C9 (amended): when [BIC_processing] runs over all the years of a
    station file, a row of the first year holds its boom height in the
    column [HeightSensorBoom_m] and NaN in [Height_sensor_boom_m], a row of
    any later year the other way round; [BIC_composite] reads
    [Height_sensor_boom_m].  When the loop over the stations comes to its
    end, the first year of a station is stacked exactly when it qualifies
    (confidence flag 3, albedo flag 1 and a detected BID): if it does,
    [BIC_composite] returns a composite whose snow-height matrix has a row
    labelled with the station and that year, and every such row has every
    cell missing; if it does not, the year contributes no row. *)
Theorem C9_first_year_snow_height_missing (files : list promice_file)
    (dt : Z) (out : list string) (cs : list stacked) (s : string)
    (f : promice_file) (x0 : raw_row) (rest : list raw_row) :
  BIC_composite_stack files dt = (out, inr cs) ->
  file_of s files = Some f ->
  table f = x0 :: rest ->
  (forall df_corr r,
     processed f df_corr -> r ∈ Proc.rows df_corr ->
     exists x, x ∈ map normalise (table f) /\ Year x = Proc.Year r
               /\ boom_stored (bool_decide (Proc.Year r = Year x0))
                              (HeightSensorBoom x) r)
  /\ (forall c,
        c ∈ cs -> from_station c = s -> from_year c = Year x0 ->
        qualifying files s (Year x0)
        /\ snow_height_row c = replicate (Z.to_nat (2 * dt + 1)) nan)
  /\ (qualifying files s (Year x0) ->
      exists comp k,
        BIC_composite files dt = (out, inr comp)
        /\ index (snow_height_meters comp) !! k = Some (label_of s (Year x0))
        /\ values (snow_height_meters comp) !! k
           = Some (replicate (Z.to_nat (2 * dt + 1)) nan))
  /\ (~ qualifying files s (Year x0) ->
      forall c, c ∈ cs -> ~ (from_station c = s /\ from_year c = Year x0)).
Proof.
  intros Hcs Hf Ht.
  assert (Hrow : forall c,
            c ∈ cs -> from_station c = s -> from_year c = Year x0 ->
            qualifying files s (Year x0)
            /\ snow_height_row c = replicate (Z.to_nat (2 * dt + 1)) nan).
  { intros c Hc Hs Hy. split.
    - rewrite <- Hs, <- Hy. by apply (stacked_qualifying files dt out cs).
    - apply (first_year_row_missing files dt out cs c f x0 rest);
        try done. by rewrite Hs. }
  split; [|split; [exact Hrow|split]].
  - intros df_corr r (_ & out1 & Hp) Hr.
    pose proof (BIC_processing_all_rows _ _ _ _ Hp) as Hall.
    rewrite Forall_forall in Hall. destruct (Hall r Hr) as [_ Hst].
    rewrite Ht in Hst |- *.
    exact (Hst (normalise x0) (map normalise rest) eq_refl).
  - intros Hq.
    destruct (first_year_stacked _ _ _ _ _ _ _ _ Hcs Hf Ht Hq)
      as (c & Hc & Hs & Hy).
    destruct (Hrow c Hc Hs Hy) as [_ Hsnow].
    apply list_elem_of_lookup in Hc as [k Hk].
    exists (labelled_composite dt cs), k. split; [|split].
    + unfold BIC_composite. rewrite (bind_step _ _ _ _ Hcs).
      destruct cs; [done|]. simpl. by rewrite app_nil_r.
    + simpl. rewrite list_lookup_fmap, Hk. simpl.
      unfold row_label, label_of. by rewrite Hs, Hy.
    + simpl. rewrite list_lookup_fmap, Hk. simpl. by rewrite Hsnow.
  - intros Hnq c Hc [Hs Hy]. apply Hnq. by apply (Hrow c).
Qed.

Lemma C9_first_year_witness :
  exists out cs f x0 rest comp,
    BIC_composite_stack two_years 2 = (out, inr cs) /\
    file_of "KAN_M" two_years = Some f /\
    table f = x0 :: rest /\
    Year x0 = 2012 /\
    qualifying two_years "KAN_M" 2012 /\
    BIC_composite two_years 2 = (out, inr comp) /\
    index (snow_height_meters comp) = ["KAN_M_2012"] /\
    values (snow_height_meters comp) = [[nan; nan; nan; nan; nan]].
Proof.
  assert (Hq : qualifying two_years "KAN_M" 2012).
  { eexists _, _, _, _, _. split; [reflexivity|]. vm_compute. reflexivity. }
  destruct (BIC_composite_stack two_years 2) as [out [e|cs]] eqn:Hcs;
    [by vm_compute in Hcs|].
  destruct (C9_first_year_snow_height_missing two_years 2 out cs "KAN_M"
              _ _ _ Hcs eq_refl eq_refl) as (_ & _ & Hrow & _).
  destruct (Hrow Hq) as (comp & k & Hcomp & Hi & Hv).
  eexists out, cs, _, _, _, comp.
  split; [done|]. split; [reflexivity|]. split; [reflexivity|].
  split; [reflexivity|]. split; [exact Hq|]. split; [exact Hcomp|].
  vm_compute in Hcomp. injection Hcomp as _ <-.
  split; reflexivity.
Defined.
